(** * PowerSimData: the tiered data access layer

    A shallow embedding of [powersimdata/data_access/data_access.py]:
    the [DataAccess] facade over a local filesystem and a [MultiFS]
    priority store, its three variants ([LocalDataAccess],
    [SSHDataAccess], [MemoryDataAccess]) and the push protocol of the
    remote-shell variant, together with the properties of these
    operations; further [revert_dict] of
    [powersimdata/input/import_data.py] and the [State] class of
    [powersimdata/scenario/state.py]. *)

From Stdlib Require Import ZArith Lia Strings.Byte Ascii String List.
From stdpp Require Import base option gmap strings list.

Local Open Scope Z_scope.
Local Open Scope string_scope.

(** The bytes of a file. *)
Abbreviation bytes := (list byte).

(* ===================================================================== *)
(** * Digests

    [DataAccess.checksum] asks the filesystem for [hash(path, "sha256")];
    the shell template of [SSHDataAccess.push] runs [sha1sum].  Both are
    defined here on bytes, after FIPS 180-4, with 32-bit words as [Z]. *)
(* ===================================================================== *)

Module Digest.

Definition w32 (x : Z) : Z := x mod 2 ^ 32.
Definition add32 (x y : Z) : Z := w32 (x + y).
Definition rotr (n x : Z) : Z := Z.lor (Z.shiftr x n) (w32 (Z.shiftl x (32 - n))).
Definition rotl (n x : Z) : Z := Z.lor (w32 (Z.shiftl x n)) (Z.shiftr x (32 - n)).
Definition not32 (x : Z) : Z := Z.lxor x (2 ^ 32 - 1).

Definition byte_val (b : byte) : Z := Z.of_N (Byte.to_N b).
Definition byte_of (z : Z) : byte :=
  match Byte.of_N (Z.to_N (z mod 256)) with Some b => b | None => x00 end.

(** Big-endian encoding of [z] on [n] bytes. *)
Fixpoint be_bytes (n : nat) (z : Z) : bytes :=
  match n with
  | O => []
  | S n' => byte_of (Z.shiftr z (8 * Z.of_nat n')) :: be_bytes n' z
  end.

(** Message padding: a one bit, zeros up to 56 modulo 64, then the
    length in bits on eight bytes. *)
Definition pad (msg : bytes) : bytes :=
  let len := Z.of_nat (length msg) in
  let k := Z.to_nat ((55 - len) mod 64) in
  msg ++ x80 :: repeat x00 k ++ be_bytes 8 (8 * len).

Fixpoint words (bs : bytes) : list Z :=
  match bs with
  | a :: b :: c :: d :: rest =>
      (byte_val a * 2 ^ 24 + byte_val b * 2 ^ 16 + byte_val c * 2 ^ 8 + byte_val d)
        :: words rest
  | _ => []
  end.

Definition word_at (ws : list Z) (i : nat) : Z := nth i ws 0.

(** ** SHA-256 *)

Definition K256 : list Z :=
  0x428a2f98 :: 0x71374491 :: 0xb5c0fbcf :: 0xe9b5dba5 ::
  0x3956c25b :: 0x59f111f1 :: 0x923f82a4 :: 0xab1c5ed5 ::
  0xd807aa98 :: 0x12835b01 :: 0x243185be :: 0x550c7dc3 ::
  0x72be5d74 :: 0x80deb1fe :: 0x9bdc06a7 :: 0xc19bf174 ::
  0xe49b69c1 :: 0xefbe4786 :: 0x0fc19dc6 :: 0x240ca1cc ::
  0x2de92c6f :: 0x4a7484aa :: 0x5cb0a9dc :: 0x76f988da ::
  0x983e5152 :: 0xa831c66d :: 0xb00327c8 :: 0xbf597fc7 ::
  0xc6e00bf3 :: 0xd5a79147 :: 0x06ca6351 :: 0x14292967 ::
  0x27b70a85 :: 0x2e1b2138 :: 0x4d2c6dfc :: 0x53380d13 ::
  0x650a7354 :: 0x766a0abb :: 0x81c2c92e :: 0x92722c85 ::
  0xa2bfe8a1 :: 0xa81a664b :: 0xc24b8b70 :: 0xc76c51a3 ::
  0xd192e819 :: 0xd6990624 :: 0xf40e3585 :: 0x106aa070 ::
  0x19a4c116 :: 0x1e376c08 :: 0x2748774c :: 0x34b0bcb5 ::
  0x391c0cb3 :: 0x4ed8aa4a :: 0x5b9cca4f :: 0x682e6ff3 ::
  0x748f82ee :: 0x78a5636f :: 0x84c87814 :: 0x8cc70208 ::
  0x90befffa :: 0xa4506ceb :: 0xbef9a3f7 :: 0xc67178f2 :: [].

Definition bsig0 x := Z.lxor (Z.lxor (rotr 2 x) (rotr 13 x)) (rotr 22 x).
Definition bsig1 x := Z.lxor (Z.lxor (rotr 6 x) (rotr 11 x)) (rotr 25 x).
Definition ssig0 x := Z.lxor (Z.lxor (rotr 7 x) (rotr 18 x)) (Z.shiftr x 3).
Definition ssig1 x := Z.lxor (Z.lxor (rotr 17 x) (rotr 19 x)) (Z.shiftr x 10).
Definition ch x y z := Z.lxor (Z.land x y) (Z.land (not32 x) z).
Definition maj x y z := Z.lxor (Z.lxor (Z.land x y) (Z.land x z)) (Z.land y z).

(** The message schedule, grown one word at a time from the sixteen
    words of the block. *)
Fixpoint schedule256 (n : nat) (w : list Z) : list Z :=
  match n with
  | O => w
  | S n' =>
      let t := length w in
      let x := add32 (add32 (ssig1 (word_at w (t - 2))) (word_at w (t - 7)))
                     (add32 (ssig0 (word_at w (t - 15))) (word_at w (t - 16))) in
      schedule256 n' (w ++ [x])
  end.

Definition state256 : Type := Z * Z * Z * Z * Z * Z * Z * Z.

Definition round256 (s : state256) (kw : Z * Z) : state256 :=
  let '(a, b, c, d, e, f, g, h) := s in
  let t1 := add32 (add32 (add32 h (bsig1 e)) (add32 (ch e f g) kw.1)) kw.2 in
  let t2 := add32 (bsig0 a) (maj a b c) in
  (add32 t1 t2, a, b, c, add32 d t1, e, f, g).

Definition compress256 (s : state256) (block : list Z) : state256 :=
  let '(a, b, c, d, e, f, g, h) := s in
  let w := schedule256 48 block in
  let '(a', b', c', d', e', f', g', h') :=
    fold_left round256 (combine K256 w) s in
  (add32 a a', add32 b b', add32 c c', add32 d d',
   add32 e e', add32 f f', add32 g g', add32 h h').

Fixpoint blocks {S : Type} (step : S -> list Z -> S) (n : nat) (ws : list Z) (s : S) : S :=
  match n with
  | O => s
  | Datatypes.S n' => blocks step n' (skipn 16 ws) (step s (firstn 16 ws))
  end.

Definition init256 : state256 :=
  (0x6a09e667, 0xbb67ae85, 0x3c6ef372, 0xa54ff53a,
   0x510e527f, 0x9b05688c, 0x1f83d9ab, 0x5be0cd19).

Definition sha256 (msg : bytes) : state256 :=
  let ws := words (pad msg) in
  blocks compress256 (Nat.div (length ws) 16) ws init256.

(** ** SHA-1 *)

Fixpoint schedule1 (n : nat) (w : list Z) : list Z :=
  match n with
  | O => w
  | S n' =>
      let t := length w in
      let x := rotl 1 (Z.lxor (Z.lxor (word_at w (t - 3)) (word_at w (t - 8)))
                              (Z.lxor (word_at w (t - 14)) (word_at w (t - 16)))) in
      schedule1 n' (w ++ [x])
  end.

Definition state1 : Type := Z * Z * Z * Z * Z.

Definition f1 (t : nat) (b c d : Z) : Z :=
  if (t <? 20)%nat then Z.lor (Z.land b c) (Z.land (not32 b) d)
  else if (t <? 40)%nat then Z.lxor (Z.lxor b c) d
  else if (t <? 60)%nat then Z.lor (Z.lor (Z.land b c) (Z.land b d)) (Z.land c d)
  else Z.lxor (Z.lxor b c) d.

Definition k1 (t : nat) : Z :=
  if (t <? 20)%nat then 0x5a827999
  else if (t <? 40)%nat then 0x6ed9eba1
  else if (t <? 60)%nat then 0x8f1bbcdc
  else 0xca62c1d6.

Definition round1 (s : state1) (tw : nat * Z) : state1 :=
  let '(a, b, c, d, e) := s in
  let tmp := add32 (add32 (add32 (rotl 5 a) (f1 tw.1 b c d)) (add32 e (k1 tw.1))) tw.2 in
  (tmp, a, rotl 30 b, c, d).

Definition compress1 (s : state1) (block : list Z) : state1 :=
  let '(a, b, c, d, e) := s in
  let w := schedule1 64 block in
  let '(a', b', c', d', e') := fold_left round1 (combine (seq 0 80) w) s in
  (add32 a a', add32 b b', add32 c c', add32 d d', add32 e e').

Definition init1 : state1 :=
  (0x67452301, 0xefcdab89, 0x98badcfe, 0x10325476, 0xc3d2e1f0).

Definition sha1 (msg : bytes) : state1 :=
  let ws := words (pad msg) in
  blocks compress1 (Nat.div (length ws) 16) ws init1.

(** ** Hexadecimal digests *)

Definition hexdigit (n : Z) : ascii :=
  match n mod 16 with
  | 0 => "0" | 1 => "1" | 2 => "2" | 3 => "3" | 4 => "4" | 5 => "5"
  | 6 => "6" | 7 => "7" | 8 => "8" | 9 => "9" | 10 => "a" | 11 => "b"
  | 12 => "c" | 13 => "d" | 14 => "e" | _ => "f"
  end%char.

(** The eight hexadecimal digits of a 32-bit word, most significant first. *)
Definition hex8 (w : Z) : string :=
  String (hexdigit (Z.shiftr w 28)) (String (hexdigit (Z.shiftr w 24))
  (String (hexdigit (Z.shiftr w 20)) (String (hexdigit (Z.shiftr w 16))
  (String (hexdigit (Z.shiftr w 12)) (String (hexdigit (Z.shiftr w 8))
  (String (hexdigit (Z.shiftr w 4)) (String (hexdigit w) ""))))))).

Definition hex_of_sha256 (s : state256) : string :=
  let '(a, b, c, d, e, f, g, h) := s in
  hex8 a ++ hex8 b ++ hex8 c ++ hex8 d ++ hex8 e ++ (hex8 f ++ hex8 g ++ hex8 h).

Definition hex_of_sha1 (s : state1) : string :=
  let '(a, b, c, d, e) := s in
  hex8 a ++ hex8 b ++ hex8 c ++ hex8 d ++ hex8 e.

(** [hashlib.sha256(data).hexdigest()] *)
Definition sha256_hexdigest (msg : bytes) : string := hex_of_sha256 (sha256 msg).
(** [hashlib.sha1(data).hexdigest()] *)
Definition sha1_hexdigest (msg : bytes) : string := hex_of_sha1 (sha1 msg).

End Digest.


(* ===================================================================== *)
(** * Paths

    The path functions the source imports: [fs.path.basename],
    [fs.path.dirname], [fs.path.join] and [posixpath.join], and the
    extension taken by [_callback]. *)
(* ===================================================================== *)

Module Path.

Definition slash : ascii := "/"%char.
Definition dot : ascii := "."%char.

(** [s.rsplit(sep, 1)]: the parts around the last [sep], when there is one. *)
Fixpoint rsplit1 (sep : ascii) (s : string) : option (string * string) :=
  match s with
  | EmptyString => None
  | String c s' =>
      match rsplit1 sep s' with
      | Some (h, t) => Some (String c h, t)
      | None => if Ascii.eqb c sep then Some (EmptyString, s') else None
      end
  end.

(** [fs.path.split]: [("", path)] without a slash, otherwise the two
    sides of the last slash, the head being the root when it is empty. *)
Definition split (path : string) : string * string :=
  match rsplit1 slash path with
  | None => ("", path)
  | Some (h, t) => (if String.eqb h "" then "/" else h, t)
  end.

Definition dirname (path : string) : string := (split path).1.
Definition basename (path : string) : string := (split path).2.

(** [basename(filepath).split(".")[-1]] *)
Definition extension (filepath : string) : string :=
  let b := basename filepath in
  match rsplit1 dot b with
  | None => b
  | Some (_, t) => t
  end.

Definition starts_with_slash (p : string) : bool :=
  match p with
  | String c _ => Ascii.eqb c slash
  | EmptyString => false
  end.

Fixpoint ends_with_slash (p : string) : bool :=
  match p with
  | EmptyString => false
  | String c EmptyString => Ascii.eqb c slash
  | String _ p' => ends_with_slash p'
  end.

(** [posixpath.join(a, b)] *)
Definition posix_join (a b : string) : string :=
  if starts_with_slash b then b
  else if String.eqb a "" || ends_with_slash a then a ++ b
  else a ++ "/" ++ b.

(** [path.split("/")] *)
Fixpoint components_from (cur : string) (s : string) : list string :=
  match s with
  | EmptyString => [cur]
  | String c s' =>
      if Ascii.eqb c slash then cur :: components_from "" s'
      else components_from (cur ++ String c "") s'
  end.

Definition components (s : string) : list string := components_from "" s.

(** ["/".join(parts)] *)
Fixpoint slash_join (parts : list string) : string :=
  match parts with
  | [] => ""
  | [p] => p
  | p :: rest => p ++ "/" ++ slash_join rest
  end.

(** The component loop of [fs.path.normpath]: empty and dot components
    are dropped, a double dot pops the last kept component and fails
    (IllegalBackReference) when there is none.  [kept] is in reverse. *)
Fixpoint norm_components (kept : list string) (cs : list string) : option (list string) :=
  match cs with
  | [] => Some (rev kept)
  | c :: cs' =>
      if String.eqb c ".." then
        match kept with
        | [] => None
        | _ :: kept' => norm_components kept' cs'
        end
      else if String.eqb c "." || String.eqb c "" then norm_components kept cs'
      else norm_components (c :: kept) cs'
  end.

Definition normpath (path : string) : option string :=
  if String.eqb path "" || String.eqb path "/" then Some path
  else
    match norm_components [] (components path) with
    | None => None
    | Some cs => Some ((if starts_with_slash path then "/" else "") ++ slash_join cs)
    end.

(** What [fs.path.join] of two paths normalises, and names when that
    fails: empty parts are skipped, an absolute second part discards
    the first, and a slash goes between the parts that are left. *)
Definition joined (a b : string) : string :=
  if String.eqb b "" then a
  else if starts_with_slash b then b
  else if String.eqb a "" then b
  else a ++ "/" ++ b.

(** [fs.path.join] of two paths. *)
Definition join (a b : string) : option string := normpath (joined a b).

(** The last character of a string. *)
Fixpoint last_char (s : string) : option ascii :=
  match s with
  | EmptyString => None
  | String c EmptyString => Some c
  | String _ s' => last_char s'
  end.

(** The directories [makedirs] goes through for [path]: every prefix
    that ends before a slash, then the path itself; the root is left out. *)
Definition prefixes (path : string) : list string :=
  let step (acc : list string * string) (c : string) :=
    if String.eqb c "" then acc
    else
      let p := if String.eqb acc.2 "" then
                 (if starts_with_slash path then "/" ++ c else c)
               else acc.2 ++ "/" ++ c in
      ((acc.1 ++ [p])%list, p) in
  (fold_left step (components path) ([], "")).1.

End Path.

(* ===================================================================== *)
(** * Filesystems

    One filesystem is a finite map from paths to file contents and a
    set of directories.  The world holds every filesystem the program
    can reach, keyed by what [fs.open_fs] was asked for, so that two
    handles on the same filesystem see the same files. *)
(* ===================================================================== *)

Record FS : Type := mkFS {
  files : gmap string bytes;
  folders : gset string;
}.

Definition empty_fs : FS := {| files := ∅; folders := ∅ |}.

#[global] Instance FS_inhabited : Inhabited FS := populate empty_fs.

(** The filesystems behind the handles of the source. *)
Inductive FsKey : Type :=
  | OSFS (root : string)        (* [fs.open_fs(root)], a directory on disk *)
  | SSHHost                     (* the server behind [ssh://user@host:port] *)
  | AzBlob (container : string) (* [azblob://besciences@container] *)
  | MemFS (n : nat)             (* the n-th [fs.open_fs("mem://")] *)
  | TempDir.                    (* the directory of a live [TempFS()] *)

#[global] Instance FsKey_eq_dec : EqDecision FsKey.
Proof. solve_decision. Defined.

Definition FsKey_encode (k : FsKey) : string + (unit + (string + (nat + unit))) :=
  match k with
  | OSFS r => inl r
  | SSHHost => inr (inl tt)
  | AzBlob c => inr (inr (inl c))
  | MemFS n => inr (inr (inr (inl n)))
  | TempDir => inr (inr (inr (inr tt)))
  end.

Definition FsKey_decode (x : string + (unit + (string + (nat + unit)))) : FsKey :=
  match x with
  | inl r => OSFS r
  | inr (inl _) => SSHHost
  | inr (inr (inl c)) => AzBlob c
  | inr (inr (inr (inl n))) => MemFS n
  | inr (inr (inr (inr _))) => TempDir
  end.

#[global] Instance FsKey_countable : Countable FsKey.
Proof.
  refine (inj_countable' FsKey_encode FsKey_decode _).
  intros []; reflexivity.
Defined.

(** A handle: a filesystem opened as it is, or the server seen through
    [WrapSSHFS(base_fs, root)]. *)
Inductive FsRef : Type :=
  | OpenFS (k : FsKey)
  | WrapSSHFS (k : FsKey) (root : string).

#[global] Instance FsRef_eq_dec : EqDecision FsRef.
Proof. solve_decision. Defined.

Definition ref_key (h : FsRef) : FsKey :=
  match h with OpenFS k => k | WrapSSHFS k _ => k end.

(** Modelled from the spec: [WrapSSHFS] of [powersimdata/data_access/ssh_fs.py],
    which is not part of the sources.  Paths are "relative to a configured
    root": a path of the wrapped handle is the server path the source itself
    forms for it in [push], [posixpath.join(self.root, path)]. *)
Definition delegate_path (h : FsRef) (path : string) : string :=
  match h with
  | OpenFS _ => path
  | WrapSSHFS _ root => Path.posix_join root path
  end.

Abbreviation Store := (gmap FsKey FS).

Definition fs_of (st : Store) (k : FsKey) : FS := default empty_fs (st !! k).

(** ** Queries on one filesystem *)

Definition isroot (p : string) : bool := String.eqb p "" || String.eqb p "/".
Definition isfile (f : FS) (p : string) : bool := bool_decide (is_Some (files f !! p)).
Definition isdir (f : FS) (p : string) : bool := isroot p || bool_decide (p ∈ folders f).
Definition fs_exists (f : FS) (p : string) : bool := isfile f p || isdir f p.

(** ** Python exceptions *)

Inductive exn : Type :=
  | OSError (msg : string)
  | IOError (msg : string)
  | ValueError (msg : string)
  | EOFError
  | IllegalBackReference (path : string)
  | ResourceNotFound (path : string)
  | ResourceReadOnly (path : string)
  | FileExpected (path : string)
  | DirectoryExpected (path : string)
  | NoSuchFilesystem (name : string)
  | NoSysPath (path : string)
  | AttributeError (msg : string)
  | ConnectionFailed.

#[global] Instance exn_eq_dec : EqDecision exn.
Proof. solve_decision. Defined.

Inductive outcome (A : Type) : Type :=
  | Return (a : A)
  | Raise (e : exn).

Arguments Return {A} a.
Arguments Raise {A} e.

(** ** Pure steps on one filesystem *)

(** [makedirs(path, recreate=True)]: a file in the way is an error,
    directories that exist are kept. *)
Definition fs_makedirs (f : FS) (path : string) : outcome FS :=
  if existsb (isfile f) (Path.prefixes path) then Raise (DirectoryExpected path)
  else Return {| files := files f;
                 folders := list_to_set (Path.prefixes path) ∪ folders f |}.

(** [openbin(path, "w")]: the file is created empty, or truncated. *)
Definition fs_open_w (f : FS) (path : string) : outcome FS :=
  if isdir f path then Raise (FileExpected path)
  else if negb (isdir f (Path.dirname path)) then Raise (ResourceNotFound path)
  else Return {| files := <[path := []]> (files f); folders := folders f |}.

(** Writing to a file that is open for writing appends to it. *)
Definition fs_append (f : FS) (path : string) (data : bytes) : FS :=
  {| files := <[path := (default [] (files f !! path) ++ data)%list]> (files f);
     folders := folders f |}.

(** [readbytes(path)] *)
Definition fs_read (f : FS) (path : string) : outcome bytes :=
  match files f !! path with
  | Some b => Return b
  | None => if isdir f path then Raise (FileExpected path)
            else Raise (ResourceNotFound path)
  end.

(** [remove(path)] *)
Definition fs_remove (f : FS) (path : string) : outcome FS :=
  match files f !! path with
  | Some _ => Return {| files := delete path (files f); folders := folders f |}
  | None => if isdir f path then Raise (FileExpected path)
            else Raise (ResourceNotFound path)
  end.

(** A file can be put at [path]: the name is not a directory and the
    parent directory is there. *)
Definition can_place (f : FS) (path : string) : bool :=
  negb (isdir f path) && isdir f (Path.dirname path).

(* ===================================================================== *)
(** * The world and the monad of the program

    Methods of the source read and change filesystems, print, ask the
    user and raise.  A computation takes the world and gives an outcome
    and the world after it; an exception keeps the changes made before
    it was raised.  Every filesystem step is journalled with the
    filesystems as they are after it, so that what other readers could
    have seen between two steps can be stated. *)
(* ===================================================================== *)

Inductive FsOp : Type :=
  | Makedirs (k : FsKey) (path : string)
  | OpenW (k : FsKey) (path : string)
  | Append (k : FsKey) (path : string)
  | Remove (k : FsKey) (path : string)
  | RemoveTree (k : FsKey) (path : string)
  | TempOpen
  | TempClose.

Inductive Event : Type :=
  | Stored (op : FsOp) (after : Store)
  | Printed (msg : string)
  | Asked (prompt answer : string).

Record World : Type := mkWorld {
  store : Store;           (* the filesystems *)
  ssh_up : bool;           (* whether the server accepts connections *)
  stdin : list string;     (* the lines the user will type *)
  journal : list Event;    (* what happened, latest first *)
}.

Definition Py (A : Type) : Type := World -> outcome A * World.

#[global] Instance Py_ret : MRet Py := λ A a w, (Return a, w).
#[global] Instance Py_bind : MBind Py := λ A B k m w,
  match m w with
  | (Return a, w') => k a w'
  | (Raise e, w') => (Raise e, w')
  end.

Definition raise {A : Type} (e : exn) : Py A := λ w, (Raise e, w).

Definition get_store : Py Store := λ w, (Return (store w), w).

Definition record (ev : Event) (w : World) : World :=
  {| store := store w; ssh_up := ssh_up w; stdin := stdin w;
     journal := ev :: journal w |}.

Definition print (msg : string) : Py unit := λ w, (Return tt, record (Printed msg) w).

(** [input(prompt)]: the next line of standard input. *)
Definition input (prompt : string) : Py string := λ w,
  match stdin w with
  | [] => (Raise EOFError, record (Printed prompt) w)
  | answer :: rest =>
      (Return answer,
       {| store := store w; ssh_up := ssh_up w; stdin := rest;
          journal := Asked prompt answer :: journal w |})
  end.

(** The world after a filesystem step: the new filesystems replace the
    old ones, and the step is journalled with them. *)
Definition stepped (op : FsOp) (st : Store) (w : World) : World :=
  {| store := st; ssh_up := ssh_up w; stdin := stdin w;
     journal := Stored op st :: journal w |}.

Definition commit (op : FsOp) (st : Store) : Py unit := λ w,
  (Return tt, stepped op st w).

Definition lift_outcome {A : Type} (o : outcome A) : Py A :=
  match o with Return a => mret a | Raise e => raise e end.

(** A step of one filesystem, taken on the filesystem under key [k]. *)
Definition on_fs (k : FsKey) (op : FsOp) (step : FS -> outcome FS) : Py unit :=
  st ← get_store;
  f ← lift_outcome (step (fs_of st k));
  commit op (<[k := f]> st).

(** The filesystems the events of a journal left behind, latest first. *)
Fixpoint snapshots (j : list Event) : list Store :=
  match j with
  | [] => []
  | Stored _ st :: j' => st :: snapshots j'
  | _ :: j' => snapshots j'
  end.

Fixpoint printed (j : list Event) : list string :=
  match j with
  | [] => []
  | Printed m :: j' => m :: printed j'
  | _ :: j' => printed j'
  end.

Fixpoint fs_ops (j : list Event) : list FsOp :=
  match j with
  | [] => []
  | Stored op _ :: j' => op :: fs_ops j'
  | _ :: j' => fs_ops j'
  end.

(** ** Operations through a handle *)

Definition ref_fs (st : Store) (h : FsRef) : FS := fs_of st (ref_key h).

Definition ref_exists (st : Store) (h : FsRef) (path : string) : bool :=
  fs_exists (ref_fs st h) (delegate_path h path).

Definition ref_makedirs (h : FsRef) (path : string) : Py unit :=
  let p := delegate_path h path in
  on_fs (ref_key h) (Makedirs (ref_key h) p) (λ f, fs_makedirs f p).

Definition ref_open_w (h : FsRef) (path : string) : Py unit :=
  let p := delegate_path h path in
  on_fs (ref_key h) (OpenW (ref_key h) p) (λ f, fs_open_w f p).

Definition ref_append (h : FsRef) (path : string) (data : bytes) : Py unit :=
  let p := delegate_path h path in
  on_fs (ref_key h) (Append (ref_key h) p) (λ f, Return (fs_append f p data)).

Definition ref_read (h : FsRef) (path : string) : Py bytes :=
  st ← get_store;
  lift_outcome (fs_read (ref_fs st h) (delegate_path h path)).

Definition ref_remove (h : FsRef) (path : string) : Py unit :=
  let p := delegate_path h path in
  on_fs (ref_key h) (Remove (ref_key h) p) (λ f, fs_remove f p).

(** [getsyspath]: only a directory on disk has system paths. *)
Definition getsyspath (h : FsRef) (path : string) : outcome string :=
  match h with
  | OpenFS (OSFS root) => Return (Path.posix_join root path)
  | _ => Raise (NoSysPath path)
  end.

(** [hassyspath]: true of a directory on disk and of the temporary
    directory, which is one under a name the system chooses; false of
    the server, the blob containers and the filesystems in memory. *)
Definition ref_hassyspath (h : FsRef) : bool :=
  match h with
  | OpenFS (OSFS _) | OpenFS TempDir => true
  | _ => false
  end.

(* ===================================================================== *)
(** * MultiFS: the priority store *)
(* ===================================================================== *)

Record MultiFS : Type := mkMultiFS {
  filesystems : list (string * (Z * nat) * FsRef);  (* name, (priority, order), handle *)
  write_fs : option FsRef;
  write_fs_name : option string;
  sort_index : nat;
}.

Definition new_MultiFS : MultiFS :=
  {| filesystems := []; write_fs := None; write_fs_name := None; sort_index := 0 |}.

(** [mfs.add_fs(name, fs, write, priority)] *)
Definition add_fs (name : string) (h : FsRef) (write : bool) (priority : Z)
    (m : MultiFS) : MultiFS :=
  {| filesystems := (filesystems m ++ [(name, (priority, sort_index m), h)])%list;
     write_fs := if write then Some h else write_fs m;
     write_fs_name := if write then Some name else write_fs_name m;
     sort_index := S (sort_index m) |}.

Definition order_lt (a b : Z * nat) : bool :=
  (a.1 <? b.1)%Z || ((a.1 =? b.1)%Z && (a.2 <? b.2)%nat).

Fixpoint insert_by_priority (e : string * (Z * nat) * FsRef)
    (l : list (string * (Z * nat) * FsRef)) : list (string * (Z * nat) * FsRef) :=
  match l with
  | [] => [e]
  | x :: l' =>
      if order_lt x.1.2 e.1.2 then e :: l else x :: insert_by_priority e l'
  end.

(** [mfs.iterate_fs()]: names and handles, highest (priority, order) first. *)
Definition iterate_fs (m : MultiFS) : list (string * FsRef) :=
  map (λ e, (e.1.1, e.2)) (fold_right insert_by_priority [] (filesystems m)).

(** [mfs.which(path)]: the first filesystem, in that order, where the path exists. *)
Definition which (m : MultiFS) (path : string) (st : Store) : option (string * FsRef) :=
  find (λ nf, ref_exists st nf.2 path) (iterate_fs m).

(** [mfs.get_fs(name)] *)
Definition get_fs (m : MultiFS) (name : string) : option FsRef :=
  snd <$> find (λ e, String.eqb e.1.1 name) (filesystems m).

(** A filesystem object as the library functions take them. *)
Inductive FSObj : Type :=
  | One (h : FsRef)
  | Multi (m : MultiFS).

(** The handle a read of [path] goes to. *)
Definition reader (o : FSObj) (path : string) : Py FsRef :=
  match o with
  | One h => mret h
  | Multi m =>
      st ← get_store;
      match which m path st with
      | Some (_, h) => mret h
      | None => raise (ResourceNotFound path)
      end
  end.

(** The handle changes go to: the priority store writes to the
    filesystem that was added with [write=True], if any. *)
Definition target (o : FSObj) : option FsRef :=
  match o with
  | One h => Some h
  | Multi m => write_fs m
  end.

Definition writer (o : FSObj) (path : string) : Py FsRef :=
  match target o with
  | Some h => mret h
  | None => raise (ResourceReadOnly path)
  end.

Definition obj_read (o : FSObj) (path : string) : Py bytes :=
  h ← reader o path; ref_read h path.
Definition obj_makedirs (o : FSObj) (path : string) : Py unit :=
  h ← writer o path; ref_makedirs h path.
Definition obj_open_w (o : FSObj) (path : string) : Py unit :=
  h ← writer o path; ref_open_w h path.
Definition obj_append (o : FSObj) (path : string) (data : bytes) : Py unit :=
  h ← writer o path; ref_append h path data.
(** [remove] goes to the filesystem that has the path: for the
    priority store, the member [which] names. *)
Definition obj_remove (o : FSObj) (path : string) : Py unit :=
  h ← reader o path; ref_remove h path.

(** [hassyspath] of a filesystem object: the priority store asks the
    member that has the path, and says no when none has it. *)
Definition hassyspath (o : FSObj) (path : string) (st : Store) : bool :=
  match o with
  | One h => ref_hassyspath h
  | Multi m =>
      match which m path st with
      | Some (_, h) => ref_hassyspath h
      | None => false
      end
  end.

(** [fs.copy.copy_file(src_fs, src_path, dst_fs, dst_path)] between two
    filesystem objects that are not one and the same, as every call of
    the source has them.  A destination with system paths is opened for
    writing first and the source is then read into it; any other
    destination is written once the source is open. *)
Definition copy_file (src : FSObj) (src_path : string) (dst : FSObj) (dst_path : string)
    : Py unit :=
  st ← get_store;
  if hassyspath dst dst_path st then
    obj_open_w dst dst_path;;
    data ← obj_read src src_path;
    obj_append dst dst_path data
  else
    data ← obj_read src src_path;
    obj_open_w dst dst_path;;
    obj_append dst dst_path data.

(** [fs.move.move_file(src_fs, src_path, dst_fs, dst_path)] between two
    filesystem objects that are not one and the same: the file is
    copied, then removed from the source. *)
Definition move_file (src : FSObj) (src_path : string) (dst : FSObj) (dst_path : string)
    : Py unit :=
  copy_file src src_path dst dst_path;;
  obj_remove src src_path.

(** [mfs.move(src_path, dst_path, overwrite=True)], the method of the
    base class, which the priority store does not replace: the source
    is read where [which] finds it, written to the filesystem the store
    writes to, and removed where it was found. *)
Definition MultiFS_move (m : MultiFS) (src_path dst_path : string) : Py unit :=
  data ← obj_read (Multi m) src_path;
  obj_open_w (Multi m) dst_path;;
  obj_append (Multi m) dst_path data;;
  obj_remove (Multi m) src_path.

(** [with TempFS() as tmp_fs: body]: a fresh, empty directory that is
    deleted when the block is left, by return or by exception. *)
Definition with_TempFS {A : Type} (body : FsRef -> Py A) : Py A := λ w,
  let '(_, w1) := commit TempOpen (<[TempDir := empty_fs]> (store w)) w in
  let '(r, w2) := body (OpenFS TempDir) w1 in
  let '(_, w3) := commit TempClose (delete TempDir (store w2)) w2 in
  (r, w3).

(** [makedirs(dir)] goes through and leaves a place for a file at [path]. *)
Definition can_write (f : FS) (dir path : string) : bool :=
  match fs_makedirs f dir with
  | Return f' => can_place f' path
  | Raise _ => false
  end.

(** The same through a handle, for the file [filepath] and the
    directory [dirname(filepath)] that [_write] makes for it. *)
Definition ref_can_write (st : Store) (h : FsRef) (filepath : string) : bool :=
  can_write (ref_fs st h) (delegate_path h (Path.dirname filepath))
            (delegate_path h filepath).

(** The bytes of the file a handle shows at [path]. *)
Definition ref_content (st : Store) (h : FsRef) (path : string) : option bytes :=
  files (ref_fs st h) !! delegate_path h path.

(* ===================================================================== *)
(** * What the source imports from outside *)
(* ===================================================================== *)

(** The constants of [powersimdata.utility.server_setup]. *)
Class ServerSetup : Type := {
  SERVER_ADDRESS : string;
  SERVER_SSH_PORT : string;
  LOCAL_DIR : string;
  DATA_ROOT_DIR : string;
  EXECUTE_DIR : string;
  get_server_user : string;
}.

(** What a persistence callback does with the open file: the bytes it
    writes and the exception it ends with, if any. *)
Definition Written : Type := bytes * option exn.

(** The serialisers [_callback] dispatches to: [pickle.dump],
    [DataFrame.to_csv] and [scipy.io.savemat]. *)
Class Codec : Type := {
  Data : Type;
  pickle_dump : Data -> Written;
  to_csv : Data -> Written;
  savemat : Data -> Written;
}.

(** The [checksum] method of [WrapSSHFS], in
    [powersimdata/data_access/ssh_fs.py], which is not part of the
    sources: what it answers for a full path, from the filesystem of
    the server. *)
Class SshBackend : Type := {
  ssh_checksum : FS -> string -> outcome string;
}.

(** [str.lower] on the letters of ASCII. *)
Definition lower_ascii (c : ascii) : ascii :=
  let n := nat_of_ascii c in
  if (65 <=? n)%nat && (n <=? 90)%nat then ascii_of_nat (n + 32) else c.

Fixpoint lower (s : string) : string :=
  match s with
  | EmptyString => EmptyString
  | String c s' => String (lower_ascii c) (lower s')
  end.

(** How an f-string shows a list of strings. *)
Definition repr_list (l : list string) : string :=
  "[" ++ String.concat ", " (map (λ s, "'" ++ s ++ "'") l) ++ "]".

(** Matching of one glob pattern: a star stands for any run of characters
    without a slash, a question mark for any character.  Recursive
    double stars and character classes are not given a meaning of their own. *)
Fixpoint wildcard (pat : string) : string -> bool :=
  match pat with
  | EmptyString => λ s, String.eqb s ""
  | String p pat' =>
      if Ascii.eqb p "*" then
        fix star (s : string) : bool :=
          wildcard pat' s ||
          match s with
          | EmptyString => false
          | String c s' => negb (Ascii.eqb c Path.slash) && star s'
          end
      else if Ascii.eqb p "?" then
        λ s, match s with
             | EmptyString => false
             | String _ s' => wildcard pat' s'
             end
      else
        λ s, match s with
             | EmptyString => false
             | String c s' => Ascii.eqb c p && wildcard pat' s'
             end
  end.

Definition strip_slash (p : string) : string :=
  match p with
  | String c p' => if Ascii.eqb c Path.slash then p' else p
  | EmptyString => p
  end.

Definition glob_match (pattern path : string) : bool :=
  wildcard (strip_slash pattern) (strip_slash path).

(** [removetree(path)]: the directory and everything below it. *)
Definition below (dir path : string) : bool :=
  String.eqb path dir || String.prefix (dir ++ "/") path.

Definition fs_removetree (f : FS) (path : string) : outcome FS :=
  if isdir f path then
    Return {| files := filter (λ kv, below path kv.1 = false) (files f);
              folders := filter (λ d, below path d = false) (folders f) |}
  else Raise (ResourceNotFound path).

(** The path a handle shows for a path of its filesystem: the wrapped
    server shows what lies under its root, without the root. *)
Definition undelegate (h : FsRef) (p : string) : option string :=
  match h with
  | OpenFS _ => Some p
  | WrapSSHFS _ root =>
      let pre := Path.posix_join root "" in
      if String.prefix pre p
      then Some (String.substring (String.length pre)
                                  (String.length p - String.length pre) p)
      else None
  end.

(** What a member shows: its files and directories, by the paths its
    handle gives them. *)
Definition member_paths (st : Store) (h : FsRef) : list string :=
  let f := ref_fs st h in
  (omap (undelegate h) (elements (dom (files f)))
   ++ omap (undelegate h) (elements (folders f)))%list.

(** The paths a walk of the priority store meets: what its members
    show, each path once, as the file or the directory it is in the
    member [which] names for it. *)
Definition walk (m : MultiFS) (st : Store) : list (string * bool) :=
  omap (λ p,
      (λ nf : string * FsRef,
         (p, negb (isfile (ref_fs st nf.2) (delegate_path nf.2 p)))) <$> which m p st)
    (remove_dups (flat_map (λ nf, member_paths st nf.2) (iterate_fs m))).

(** A directory is matched by its path with a slash at the end. *)
Definition glob_subject (pd : string * bool) : string :=
  if pd.2 then pd.1 ++ "/" else pd.1.

(** [mfs.glob(pattern).remove()]: every match is removed through the
    priority store, that is from the member that has it; a directory
    goes with what that member holds below it. *)
Fixpoint remove_all (m : MultiFS) (matches : list (string * bool)) : Py unit :=
  match matches with
  | [] => mret tt
  | (p, is_dir) :: rest =>
      h ← reader (Multi m) p;
      (if is_dir
       then on_fs (ref_key h) (RemoveTree (ref_key h) (delegate_path h p))
                  (λ f, fs_removetree f (delegate_path h p))
       else ref_remove h p);;
      remove_all m rest
  end.

Definition glob_remove (m : MultiFS) (pattern : string) : Py unit :=
  st ← get_store;
  remove_all m (filter (λ pd, glob_match pattern (glob_subject pd) = true) (walk m st)).

(* ===================================================================== *)
(** * The shell command of push

    [push] formats one command for the server:

      (flock -x 200; prev='checksum'; curr=$(sha1sum original);
       if [[ $prev == $curr ]]; then mv updated original -b;
       else echo CONFLICT_ERROR 1>&2; fi) 200>lockfile

    The command is kept as the values it is formatted with.
    [run_push_command] is what it does when the shell of the server
    runs it, on the filesystem of the server.  The three paths stand
    unquoted in the command, and what [sha1sum] prints is the pattern
    of the comparison: the command is given a meaning where the paths
    are plain words, which the shell, the pattern matching and
    [sha1sum] take as they are, and the checksum can stand between
    single quotes. *)
(* ===================================================================== *)

Record PushValues : Type := {
  original : string;
  updated : string;
  lockfile : string;
  checksum_arg : string;
}.






(** What [sha1sum file] prints: the digest, two spaces, the name. *)
Definition sha1sum_line (content : bytes) (name : string) : string :=
  Digest.sha1_hexdigest content ++ "  " ++ name.

(** [sha1sum name]: what it prints, and what it says on the error channel. *)
Definition sha1sum (f : FS) (name : string) : string * list string :=
  match files f !! name with
  | Some content => (sha1sum_line content name, [])
  | None => ("", ["sha1sum: " ++ name ++ ": No such file or directory"])
  end.



(* ===================================================================== *)
(** * DataAccess *)
(* ===================================================================== *)

Inductive Variant : Type := LocalVariant | SSHVariant | MemoryVariant.

(** An object of class [DataAccess]: its root, its local filesystem and
    the priority store behind the property [fs].  For [SSHDataAccess]
    the source builds that store on first use and keeps it; here it is
    built with the object. *)
Record DataAccess : Type := mkDataAccess {
  variant : Variant;
  root : string;
  local_fs : FsRef;
  fs : MultiFS;
}.

Definition get_blob_fs (container : string) : FsRef := OpenFS (AzBlob container).

(** The filesystems an object works on: its local one and the members
    of its priority store. *)
Definition own_filesystems (da : DataAccess) : list FsKey :=
  ref_key (local_fs da) :: map (λ nf, ref_key nf.2) (iterate_fs (fs da)).

Section Facade.
Context `{setup : ServerSetup} `{codec : Codec} `{shell : SshBackend}.

(** [get_ssh_fs(root)]: opening the connection fails when the server is down. *)
Definition get_ssh_fs (root : string) : Py FsRef := λ w,
  if ssh_up w then (Return (WrapSSHFS SSHHost root), w) else (Raise ConnectionFailed, w).

(** [get_multi_fs(root)]: the server when it answers, then the two blob containers. *)
Definition get_multi_fs (root : string) : Py MultiFS := λ w,
  let scenario_data := get_blob_fs "scenariodata" in
  let profiles := get_blob_fs "profiles" in
  let mfs := new_MultiFS in
  let '(mfs, w) :=
    match get_ssh_fs root w with
    | (Return ssh_fs, w') => (add_fs "ssh_fs" ssh_fs true 3 mfs, w')
    | (Raise _, w') => (mfs, record (Printed "Could not connect to ssh server") w')
    end in
  let mfs := add_fs "profile_fs" profiles false 2 mfs in
  let mfs := add_fs "scenario_fs" scenario_data false 1 mfs in
  (Return mfs, w).

(** [LocalDataAccess(root)] *)
Definition LocalDataAccess (root : string) : DataAccess :=
  let local := OpenFS (OSFS root) in
  let mfs := new_MultiFS in
  let mfs := add_fs "profile_fs" (get_blob_fs "profiles") false 2 mfs in
  let mfs := add_fs "local_fs" local true 3 mfs in
  {| variant := LocalVariant; root := root; local_fs := local; fs := mfs |}.

(** [SSHDataAccess(root)] *)
Definition SSHDataAccess (root : string) : Py DataAccess :=
  mfs ← get_multi_fs root;
  mret {| variant := SSHVariant; root := root;
          local_fs := OpenFS (OSFS LOCAL_DIR); fs := mfs |}.

(** [MemoryDataAccess()]: two in-memory filesystems, one local and one
    standing for the server. *)
Definition MemoryDataAccess : DataAccess :=
  {| variant := MemoryVariant; root := "foo";
     local_fs := OpenFS (MemFS 0);
     fs := add_fs "in_memory" (OpenFS (MemFS 1)) true 0 new_MultiFS |}.

(** [self.join], which is [fs.path.join]. *)
Definition join (a b : string) : Py string :=
  match Path.join a b with
  | Some p => mret p
  | None => raise (IllegalBackReference (Path.joined a b))
  end.

Definition _check_file_exists (da : DataAccess) (path : string) (should_exist : bool)
    : Py unit :=
  st ← get_store;
  let location := fst <$> which (fs da) path st in
  let exists_ := bool_decide (location ≠ None) in
  if should_exist && negb exists_ then
    let remotes := (iterate_fs (fs da)).*1 in
    raise (OSError (path ++ " not found on any of " ++ repr_list remotes))
  else if negb should_exist && exists_ then
    raise (OSError (path ++ " already exists on " ++ default "None" location))
  else mret tt.

Definition Callback : Type := string -> Data -> Written.

Definition _callback : Callback := λ filepath data,
  let ext := Path.extension filepath in
  if String.eqb ext "pkl" then pickle_dump data
  else if String.eqb ext "csv" then to_csv data
  else if String.eqb ext "mat" then savemat data
  else ([], Some (ValueError ("Unknown extension! " ++ ext))).

(** [_write]: the file is open while the callback runs, and closed
    whether it returns or raises. *)
Definition _write (fs : FSObj) (filepath : string) (data : Data) (callback : Callback)
    : Py unit :=
  obj_makedirs fs (Path.dirname filepath);;
  obj_open_w fs filepath;;
  let '(out, err) := callback filepath data in
  (if out is [] then mret tt else obj_append fs filepath out);;
  match err with
  | Some e => raise e
  | None => mret tt
  end.

Definition write (da : DataAccess) (filepath : string) (data : Data)
    (save_local : bool) (callback : option Callback) : Py unit :=
  _check_file_exists da filepath false;;
  let callback := default _callback callback in
  print ("Writing " ++ filepath);;
  _write (Multi (fs da)) filepath data callback;;
  if save_local then _write (One (local_fs da)) filepath data callback
  else mret tt.

Definition copy_from (da : DataAccess) (file_name : string) (from_dir : option string)
    : Py unit :=
  let from_dir := default "" from_dir in
  from_path ← join from_dir file_name;
  _check_file_exists da from_path true;;
  st ← get_store;
  let location := fst <$> which (fs da) from_path st in
  print ("Transferring " ++ file_name ++ " from " ++ default "None" location);;
  with_TempFS (λ tmp_fs,
    ref_makedirs (local_fs da) from_dir;;
    ref_makedirs tmp_fs from_dir;;
    copy_file (Multi (fs da)) from_path (One tmp_fs) from_path;;
    move_file (One tmp_fs) from_path (One (local_fs da)) from_path).

(** [get]: a context manager; [body] is the block of the caller, given
    the bytes of the open file and its path on the local machine. *)
Definition get {A : Type} (da : DataAccess) (filepath : string)
    (body : bytes -> string -> Py A) : Py A :=
  st ← get_store;
  (if negb (ref_exists st (local_fs da) filepath) then
     print (filepath ++ " not found on local machine");;
     copy_from da (Path.basename filepath) (Some (Path.dirname filepath))
   else mret tt);;
  f ← ref_read (local_fs da) filepath;
  filepath ← lift_outcome (getsyspath (local_fs da) filepath);
  body f filepath.

Definition tmp_folder (scenario_id : string) : Py string :=
  join EXECUTE_DIR ("scenario_" ++ scenario_id).

Definition remove (da : DataAccess) (pattern : string) (confirm : bool) : Py unit :=
  cancelled ←
    (if confirm then
       confirmed ← input ("Delete '" ++ pattern ++ "'? [y/n] (default is 'n')");
       if negb (String.eqb (lower confirmed) "y") then
         print "Operation cancelled.";; mret true
       else mret false
     else mret false);
  if cancelled : bool then mret tt
  else
    glob_remove (fs da) pattern;;
    print "--> Done!".

(** [DataAccess.checksum]: [self.fs.hash(relative_path, "sha256")]. *)
Definition DataAccess_checksum (da : DataAccess) (relative_path : string) : Py string :=
  data ← obj_read (Multi (fs da)) relative_path;
  mret (Digest.sha256_hexdigest data).

(** [SSHDataAccess.checksum]: the answer is that of the [checksum]
    method of the ssh filesystem, for the full path on the server. *)
Definition SSHDataAccess_checksum (da : DataAccess) (relative_path : string) : Py string :=
  _check_file_exists da relative_path true;;
  full_path ← join (root da) relative_path;
  match get_fs (fs da) "ssh_fs" with
  | None => raise (NoSuchFilesystem "ssh_fs")
  | Some ssh_fs =>
      st ← get_store;
      lift_outcome (ssh_checksum (ref_fs st ssh_fs) full_path)
  end.

(** [checksum], by the class of the object. *)
Definition checksum (da : DataAccess) (relative_path : string) : Py string :=
  match variant da with
  | LocalVariant => DataAccess_checksum da relative_path
  | SSHVariant | MemoryVariant => SSHDataAccess_checksum da relative_path
  end.

(** [LocalDataAccess.push] *)
Definition LocalDataAccess_push (da : DataAccess) (file_name checksum rename : string)
    : Py unit :=
  current ← DataAccess_checksum da rename;
  if negb (String.eqb checksum current) then raise (ValueError "Checksums do not match")
  else MultiFS_move (fs da) file_name rename.

(** [self.fs.exec_command(command)]: [self.fs] is the [MultiFS] that
    [get_multi_fs] has built.  That class has no [exec_command] and
    hands no attribute on to its members; the ssh filesystem, which has
    the method, is reached through [get_fs("ssh_fs")], as [checksum]
    does.  The attribute lookup raises, whatever the command. *)
Definition exec_command (m : MultiFS) (command : PushValues) : Py (list string) :=
  raise (AttributeError "'MultiFS' object has no attribute 'exec_command'").

Fixpoint print_all (lines : list string) : Py unit :=
  match lines with
  | [] => mret tt
  | e :: rest => print e;; print_all rest
  end.

Definition push_values (da : DataAccess) (checksum rename : string) : PushValues :=
  let backup := rename ++ ".temp" in
  {| original := Path.posix_join (root da) rename;
     updated := Path.posix_join (root da) backup;
     lockfile := Path.posix_join (root da) "scenario.lockfile";
     checksum_arg := checksum |}.

(** [SSHDataAccess.push] *)
Definition SSHDataAccess_push (da : DataAccess) (file_name checksum rename : string)
    : Py unit :=
  let backup := rename ++ ".temp" in
  _check_file_exists da backup false;;
  print ("Transferring " ++ rename ++ " to server");;
  move_file (One (local_fs da)) file_name (Multi (fs da)) backup;;
  let values := push_values da checksum rename in
  errors ← exec_command (fs da) values;
  if (0 <? length errors)%nat then
    print_all errors;;
    raise (IOError "Failed to push file - most likely a conflict was detected.")
  else mret tt.

(** [MemoryDataAccess.push] *)
Definition MemoryDataAccess_push (da : DataAccess) (file_name checksum rename : string)
    : Py unit :=
  move_file (One (local_fs da)) file_name (Multi (fs da)) rename.

(** [push], by the class of the object. *)
Definition push (da : DataAccess) (file_name checksum rename : string) : Py unit :=
  match variant da with
  | LocalVariant => LocalDataAccess_push da file_name checksum rename
  | SSHVariant => SSHDataAccess_push da file_name checksum rename
  | MemoryVariant => MemoryDataAccess_push da file_name checksum rename
  end.

End Facade.

(* ===================================================================== *)
(** * A small installation, to run the operations on *)
(* ===================================================================== *)

Module Demo.

#[export] Instance setup : ServerSetup := {|
  SERVER_ADDRESS := "server.example.org";
  SERVER_SSH_PORT := "22";
  LOCAL_DIR := "/home/user/ScenarioData";
  DATA_ROOT_DIR := "/mnt/bes/pcm";
  EXECUTE_DIR := "tmp";
  get_server_user := "user";
|}.

(** Data is a run of bytes; pickling puts a protocol byte in front. *)
#[export] Instance codec : Codec := {|
  Data := bytes;
  pickle_dump := λ d, (x80 :: d, None);
  to_csv := λ d, (d, None);
  savemat := λ d, (d, None);
|}.

(** The ssh filesystem answers with the line [sha1sum] prints. *)
#[export] Instance shell : SshBackend := {|
  ssh_checksum := λ srv full_path,
    match files srv !! full_path with
    | Some content => Return (sha1sum_line content full_path)
    | None => Raise (ResourceNotFound full_path)
    end;
|}.

(** Something to write. *)
Definition payload : @Data codec := [x05].

Definition server : FS :=
  {| files := {[ "/mnt/bes/pcm/grid.pkl" := [x01; x02] ]};
     folders := {[ "/mnt"; "/mnt/bes"; "/mnt/bes/pcm" ]} |}.

Definition laptop : FS :=
  {| files := {[ "edit.pkl" := [x03]; "notes.pkl" := [x04] ]}; folders := ∅ |}.

Definition world : World :=
  {| store := {[ SSHHost := server; OSFS "/home/user/ScenarioData" := laptop ]};
     ssh_up := true;
     stdin := ["n"];
     journal := [] |}.

(** The object [SSHDataAccess("/mnt/bes/pcm")] when the server answers. *)
Definition da : DataAccess :=
  {| variant := SSHVariant; root := "/mnt/bes/pcm";
     local_fs := OpenFS (OSFS "/home/user/ScenarioData");
     fs := add_fs "scenario_fs" (get_blob_fs "scenariodata") false 1
             (add_fs "profile_fs" (get_blob_fs "profiles") false 2
                (add_fs "ssh_fs" (WrapSSHFS SSHHost "/mnt/bes/pcm") true 3 new_MultiFS)) |}.

End Demo.

(** The object [SSHDataAccess(root)] yields when the server answers. *)
Definition remote_shell `{ServerSetup} (root : string) : DataAccess :=
  {| variant := SSHVariant; root := root;
     local_fs := OpenFS (OSFS LOCAL_DIR);
     fs := add_fs "scenario_fs" (get_blob_fs "scenariodata") false 1
             (add_fs "profile_fs" (get_blob_fs "profiles") false 2
                (add_fs "ssh_fs" (WrapSSHFS SSHHost root) true 3 new_MultiFS)) |}.

(* ===================================================================== *)
(** * More of the data access layer *)
(* ===================================================================== *)

(** The object [SSHDataAccess(root)] yields when the server does not
    answer: the two blob containers only, and nothing to write to. *)
Definition object_store_only `{ServerSetup} (root : string) : DataAccess :=
  {| variant := SSHVariant; root := root;
     local_fs := OpenFS (OSFS LOCAL_DIR);
     fs := add_fs "scenario_fs" (get_blob_fs "scenariodata") false 1
             (add_fs "profile_fs" (get_blob_fs "profiles") false 2 new_MultiFS) |}.

(** The two listings [get_profile_version] merges, from
    [powersimdata.data_access.profile_helper], which is not part of the
    sources: each answers with the versions it finds. *)
Class ProfileHelper : Type := {
  get_profile_version_cloud : string -> string -> Py (list string);
  get_profile_version_local : string -> string -> Py (list string);
}.

(** [get_profile_version]: [list(set(blob_version + local_version))].
    The order a set is listed in is left open in Python; here it is the
    order of [elements]. *)
Definition get_profile_version `{ProfileHelper} (grid_model kind : string)
    : Py (list string) :=
  blob_version ← get_profile_version_cloud grid_model kind;
  local_version ← get_profile_version_local grid_model kind;
  mret (elements (list_to_set (blob_version ++ local_version)%list : gset string)).

(* ===================================================================== *)
(** * Reverting a dictionary ([powersimdata/input/import_data.py])

    A Python dictionary keeps its keys in the order they were first
    inserted, and assigning to a key that is there replaces its value in
    place: a list of pairs with distinct keys. *)
(* ===================================================================== *)

Module Dict.

Section WithTypes.
Context {K V : Type} `{EqDecision K} `{EqDecision V}.

(** [d.get(k)] *)
Fixpoint get (k : K) (d : list (K * V)) : option V :=
  match d with
  | [] => None
  | (k', v) :: d' => if decide (k' = k) then Some v else get k d'
  end.

(** [d[k] = v] *)
Fixpoint set (k : K) (v : V) (d : list (K * V)) : list (K * V) :=
  match d with
  | [] => [(k, v)]
  | (k', v') :: d' => if decide (k' = k) then (k, v) :: d' else (k', v') :: set k v d'
  end.

End WithTypes.

(** [revert_dict(d)]: [{v: k for (k, v) in d.items()}] *)
Definition revert_dict {K V : Type} `{EqDecision K} `{EqDecision V}
    (d : list (K * V)) : list (V * K) :=
  fold_left (λ acc kv, set kv.2 kv.1 acc) d [].

(** [df.rename(columns=translators)] on the column names of a frame: a
    column the dictionary has is renamed, the others stay. *)
Definition rename_columns (translators : list (string * string)) (columns : list string)
    : list string :=
  map (λ c, default c (get c translators)) columns.

(** [_translate_df(df, key)] on the column names, [rename] being the
    dictionary [pypsa_export_const[key]["rename"]] of the export module. *)
Definition _translate_df (rename : list (string * string)) (columns : list string)
    : list string :=
  let translators := revert_dict rename in
  rename_columns translators columns.

(** An entry turned round. *)
Definition swap_pair {K V : Type} (kv : K * V) : V * K := (kv.2, kv.1).

End Dict.

(* ===================================================================== *)
(** * The states of a scenario ([powersimdata/scenario/state.py]) *)
(* ===================================================================== *)

Module Scenario.

Inductive error : Type :=
  | TypeError (msg : string)
  | Exception (msg : string)
  | AttributeError (attribute : string).

(** A class of states: [State] itself, or a subclass with its [name]
    and the names of the states it may switch to.  The subclasses are
    taken with the [_enter] and [_leave] of [State]. *)
Inductive Class : Type :=
  | State
  | Subclass (name : string) (allowed : list string).

Definition name (c : Class) : string :=
  match c with State => "state" | Subclass n _ => n end.

Definition allowed (c : Class) : list string :=
  match c with State => [] | Subclass _ a => a end.

Section WithValues.
(** What attributes hold. *)
Context {Value : Type}.
(** [ScenarioListManager(ssh)], from a module that is not part of the sources. *)
Context (ScenarioListManager : Value -> Value).

(** An object: its class, which [switch] reassigns, and its attributes. *)
Record Obj : Type := mkObj {
  class : Class;
  attributes : gmap string Value;
}.

(** [State.__init__(self, scenario)], for an object of class [c] and
    the [ssh] attribute of the scenario. *)
Definition __init__ (c : Class) (scenario_ssh : Value) : error + Obj :=
  match c with
  | State => inl (TypeError "Only subclasses of 'State' can be instantiated directly")
  | _ =>
      inr {| class := c;
             attributes :=
               <["_scenario_list_manager" := ScenarioListManager scenario_ssh]>
                 (<["_ssh" := scenario_ssh]> ∅) |}
  end.

(** [del self.attribute] *)
Definition del (self : Obj) (attribute : string) : option error * Obj :=
  match attributes self !! attribute with
  | Some _ =>
      (None, {| class := class self; attributes := delete attribute (attributes self) |})
  | None => (Some (AttributeError attribute), self)
  end.

Definition _leave (self : Obj) : option error * Obj :=
  if String.eqb (name (class self)) "create" then del self "builder"
  else if String.eqb (name (class self)) "analyze" then
    match del self "grid" with
    | (None, self') => del self' "ct"
    | failed => failed
    end
  else (None, self).

Definition _enter (self : Obj) : option error * Obj := (None, self).

(** [self.switch(state)]: the exception if one is raised, the object
    as it is left, and the lines printed. *)
Definition switch (self : Obj) (state : Class) : option error * Obj * list string :=
  if bool_decide (name state ∈ allowed (class self)) then
    let line := "State switching: " ++ name (class self) ++ " --> " ++ name state in
    match _leave self with
    | (Some e, self') => (Some e, self', [line])
    | (None, self') =>
        let self'' := {| class := state; attributes := attributes self' |} in
        let '(e, self''') := _enter self'' in
        (e, self''', [line])
    end
  else
    (Some (Exception ("State switching: " ++ name (class self) ++ " --> "
                        ++ name state ++ " not permitted")),
     self, []).

End WithValues.

End Scenario.

(** More installations to run on. *)
Module Demo2.

(** The installation of [Demo] with the server down. *)
Definition offline : World :=
  {| store := store Demo.world; ssh_up := false; stdin := []; journal := [] |}.

(** A blob container with a profile. *)
Definition profiles : FS :=
  {| files := {[ "raw/demand.csv" := [x07; x08] ]}; folders := {[ "raw" ]} |}.

Definition with_blob : World :=
  {| store := <[AzBlob "profiles" := profiles]> (store Demo.world);
     ssh_up := true; stdin := ["Y"]; journal := [] |}.

(** A shared volume, for [LocalDataAccess]. *)
Definition volume : FS :=
  {| files := {[ "grid.pkl" := [x01; x02]; "edit.pkl" := [x03] ]}; folders := ∅ |}.

Definition local_world : World :=
  {| store := {[ OSFS "/mnt/volume" := volume ]};
     ssh_up := false; stdin := []; journal := [] |}.

(** The two in-memory filesystems of [MemoryDataAccess]. *)
Definition memory_world : World :=
  {| store := {[ MemFS 0 := {| files := {[ "edit.pkl" := [x03] ]}; folders := ∅ |};
                 MemFS 1 := {| files := {[ "grid.pkl" := [x01; x02] ]}; folders := ∅ |} ]};
     ssh_up := false; stdin := []; journal := [] |}.

#[export] Instance listings : ProfileHelper := {|
  get_profile_version_cloud := λ _ _, mret ["vJan2021"; "vMar2021"];
  get_profile_version_local := λ _ _, mret ["vMar2021"; "vDev"];
|}.

(** A scenario that is being created, and one that is being analyzed
    and has lost its change table. *)
Definition creating : Scenario.Obj (Value := string) :=
  {| Scenario.class := Scenario.Subclass "create" ["execute"];
     Scenario.attributes := {[ "builder" := "a builder"; "_ssh" := "a connection" ]} |}.

Definition analyzing : Scenario.Obj (Value := string) :=
  {| Scenario.class := Scenario.Subclass "analyze" ["delete"; "move"];
     Scenario.attributes := {[ "grid" := "a grid"; "_ssh" := "a connection" ]} |}.

(** A dictionary of column names. *)
Definition column_names : list (string * string) :=
  [("bus_id", "Bus"); ("Pd", "p_set"); ("Qd", "q_set")].

End Demo2.

(** A computation changes no filesystem outside [ks], however it ends. *)
Definition touches_only {A : Type} (ks : list FsKey) (m : Py A) : Prop :=
  ∀ w r w', m w = (r, w') -> ∀ k, k ∉ ks -> store w' !! k = store w !! k.

(** The filesystem changes through an object of the library go to, if any. *)
Definition target_keys (o : FSObj) : list FsKey :=
  match target o with Some h => [ref_key h] | None => [] end.

(** The filesystems a removal through an object of the library can
    reach: for the priority store, those of its members. *)
Definition reach_keys (o : FSObj) : list FsKey :=
  match o with
  | One h => [ref_key h]
  | Multi m => map (λ nf, ref_key nf.2) (iterate_fs m)
  end.

(** An entry of the priority store: name, (priority, order), handle. *)
Abbreviation entry := (string * (Z * nat) * FsRef)%type.



(** The local filesystem of an object is a filesystem of its own: it is
    not a member of the priority store, and neither is the directory of
    temporary filesystems. *)
Definition local_stands_alone (da : DataAccess) : Prop :=
  (TempDir ∉ own_filesystems da)
  ∧ (ref_key (local_fs da) ∉ map (λ nf, ref_key nf.2) (iterate_fs (fs da))).

(** Both the staging area and the local filesystem can take the file
    [from_path] under the directory [dir]. *)
Definition can_stage (da : DataAccess) (st : Store) (dir from_path : string) : bool :=
  (can_write (ref_fs st (local_fs da)) (delegate_path (local_fs da) dir)
             (delegate_path (local_fs da) from_path))
  && (can_write empty_fs dir from_path).

(** A computation removes no file, however it ends. *)
Definition keeps_files {A : Type} (m : Py A) : Prop :=
  ∀ w r w', m w = (r, w') ->
    ∀ k p, isfile (fs_of (store w) k) p = true -> isfile (fs_of (store w') k) p = true.

(* ===================================================================== *)
(** * Properties *)
(* ===================================================================== *)

(** ** The digests are the standard ones *)

Example sha256_empty :
  Digest.sha256_hexdigest [] =
  "e3b0c44298fc1c149afbf4c8996fb92427ae41e4649b934ca495991b7852b855".
Proof. vm_compute. reflexivity. Qed.

Example sha256_abc :
  Digest.sha256_hexdigest [x61; x62; x63] =
  "ba7816bf8f01cfea414140de5dae2223b00361a396177a9cb410ff61f20015ad".
Proof. vm_compute. reflexivity. Qed.

Example sha1_empty :
  Digest.sha1_hexdigest [] = "da39a3ee5e6b4b0d3255bfef95601890afd80709".
Proof. vm_compute. reflexivity. Qed.

Example sha1_abc :
  Digest.sha1_hexdigest [x61; x62; x63] = "a9993e364706816aba3e25717850c26c9cd0d89d".
Proof. vm_compute. reflexivity. Qed.

(** ** Running computations *)

Lemma bind_run {A B : Type} (m : Py A) (k : A -> Py B) (w : World) :
  (m ≫= k) w =
  match m w with
  | (Return a, w') => k a w'
  | (Raise e, w') => (Raise e, w')
  end.
Proof. reflexivity. Qed.

Lemma bind_returns {A B : Type} (m : Py A) (k : A -> Py B) (w w' : World) (a : A) :
  m w = (Return a, w') -> (m ≫= k) w = k a w'.
Proof. intros E. rewrite bind_run, E. reflexivity. Qed.

Lemma bind_raises {A B : Type} (m : Py A) (k : A -> Py B) (w w' : World) (e : exn) :
  m w = (Raise e, w') -> (m ≫= k) w = (Raise e, w').
Proof. intros E. rewrite bind_run, E. reflexivity. Qed.

Lemma bind_return_inv {A B : Type} (m : Py A) (k : A -> Py B) (w w' : World) (b : B) :
  (m ≫= k) w = (Return b, w') ->
  ∃ a w1, m w = (Return a, w1) ∧ k a w1 = (Return b, w').
Proof.
  rewrite bind_run. destruct (m w) as [[a|e] w1]; intros E.
  - exists a, w1. split; [reflexivity | exact E].
  - discriminate E.
Qed.

Section Properties.
Context `{setup : ServerSetup} `{codec : Codec} `{shell : SshBackend}.

(** ** The existence check *)

Lemma check_absent_passes (da : DataAccess) (path : string) (w : World) :
  which (fs da) path (store w) = None ->
  _check_file_exists da path false w = (Return tt, w).
Proof.
  intros E. unfold _check_file_exists. rewrite bind_run. cbn [get_store].
  rewrite E. reflexivity.
Qed.

Lemma check_present_raises (da : DataAccess) (path name : string) (h : FsRef) (w : World) :
  which (fs da) path (store w) = Some (name, h) ->
  _check_file_exists da path false w
  = (Raise (OSError (path ++ " already exists on " ++ name)), w).
Proof.
  intros E. unfold _check_file_exists. rewrite bind_run. cbn [get_store].
  rewrite E. reflexivity.
Qed.

Lemma check_present_passes (da : DataAccess) (path name : string) (h : FsRef) (w : World) :
  which (fs da) path (store w) = Some (name, h) ->
  _check_file_exists da path true w = (Return tt, w).
Proof.
  intros E. unfold _check_file_exists. rewrite bind_run. cbn [get_store].
  rewrite E. reflexivity.
Qed.

Lemma check_missing_raises (da : DataAccess) (path : string) (w : World) :
  which (fs da) path (store w) = None ->
  _check_file_exists da path true w
  = (Raise (OSError (path ++ " not found on any of "
                       ++ repr_list (iterate_fs (fs da)).*1)), w).
Proof.
  intros E. unfold _check_file_exists. rewrite bind_run. cbn [get_store].
  rewrite E. reflexivity.
Qed.

(** A path that some member of the priority store has is located. *)
Lemma which_finds (m : MultiFS) (path name : string) (h : FsRef) (st : Store) :
  In (name, h) (iterate_fs m) -> ref_exists st h path = true ->
  ∃ name' h', which m path st = Some (name', h').
Proof.
  intros Hin Hex. unfold which.
  destruct (find (λ nf, ref_exists st nf.2 path) (iterate_fs m)) as [[n' h']|] eqn:F.
  - eauto.
  - exfalso. pose proof (find_none _ _ F _ Hin) as Hn. cbn in Hn. congruence.
Qed.

(** C4. Writing to a path that some backend of the priority store
    already has raises the already-exists [OSError] and leaves the world
    as it was: no filesystem, the local one included, is changed. *)
Theorem write_existing_path_is_rejected
    (da : DataAccess) (filepath : string) (data : Data) (save_local : bool)
    (callback : option Callback) (name : string) (h : FsRef) (w : World) :
  In (name, h) (iterate_fs (fs da)) ->
  ref_exists (store w) h filepath = true ->
  ∃ location,
    write da filepath data save_local callback w
    = (Raise (OSError (filepath ++ " already exists on " ++ location)), w).
Proof.
  intros Hin Hex.
  destruct (which_finds _ _ _ _ _ Hin Hex) as (location & h' & Hw).
  exists location. unfold write.
  apply bind_raises. apply check_present_raises with (h := h'). exact Hw.
Qed.

(** C7. With [confirm=True] and an answer other than y (in either
    case), [remove] returns without deleting: the filesystems are what
    they were and no filesystem step was taken. *)
Theorem remove_declined_deletes_nothing
    (da : DataAccess) (pattern answer : string) (rest : list string) (w : World) :
  stdin w = answer :: rest ->
  lower answer ≠ "y" ->
  ∃ w', remove da pattern true w = (Return tt, w')
        ∧ store w' = store w
        ∧ fs_ops (journal w') = fs_ops (journal w)
        ∧ printed (journal w') = "Operation cancelled." :: printed (journal w).
Proof.
  intros Hin Hno. apply String.eqb_neq in Hno.
  unfold remove. rewrite bind_run. rewrite bind_run.
  unfold input. rewrite Hin. rewrite Hno. cbn.
  eexists. repeat split.
Qed.

(** ** Single steps *)

Lemma fs_of_insert (st : Store) (k : FsKey) (f : FS) : fs_of (<[k := f]> st) k = f.
Proof. unfold fs_of. rewrite lookup_insert_eq. reflexivity. Qed.

Lemma fs_of_insert_ne (st : Store) (k k' : FsKey) (f : FS) :
  k ≠ k' -> fs_of (<[k := f]> st) k' = fs_of st k'.
Proof. intros Hne. unfold fs_of. rewrite lookup_insert_ne by exact Hne. reflexivity. Qed.

Lemma on_fs_returns (k : FsKey) (op : FsOp) (step : FS -> outcome FS) (f : FS) (w : World) :
  step (fs_of (store w) k) = Return f ->
  on_fs k op step w = (Return tt, stepped op (<[k := f]> (store w)) w).
Proof. intros E. unfold on_fs. rewrite bind_run. cbn [get_store]. rewrite bind_run, E. reflexivity. Qed.

Lemma on_fs_raises (k : FsKey) (op : FsOp) (step : FS -> outcome FS) (e : exn) (w : World) :
  step (fs_of (store w) k) = Raise e ->
  on_fs k op step w = (Raise e, w).
Proof. intros E. unfold on_fs. rewrite bind_run. cbn [get_store]. rewrite bind_run, E. reflexivity. Qed.

Lemma fs_open_w_places (f : FS) (path : string) :
  can_place f path = true ->
  fs_open_w f path = Return {| files := <[path := []]> (files f); folders := folders f |}.
Proof.
  unfold can_place, fs_open_w. intros H.
  apply andb_true_iff in H as [H1 H2]. apply negb_true_iff in H1.
  rewrite H1, H2. reflexivity.
Qed.

Lemma writer_target (o : FSObj) (h : FsRef) (path : string) (w : World) :
  target o = Some h -> writer o path w = (Return h, w).
Proof. intros E. unfold writer. rewrite E. reflexivity. Qed.

(** What [_write] does when the directory can be made and the file
    opened: three steps at most, then the exception of the callback. *)
Lemma _write_runs (o : FSObj) (h : FsRef) (filepath : string) (data : Data)
    (callback : Callback) (w : World) (f1 : FS) :
  target o = Some h ->
  fs_makedirs (ref_fs (store w) h) (delegate_path h (Path.dirname filepath)) = Return f1 ->
  can_place f1 (delegate_path h filepath) = true ->
  let k := ref_key h in
  let p := delegate_path h filepath in
  let out := (callback filepath data).1 in
  let st1 := <[k := f1]> (store w) in
  let st2 := <[k := {| files := <[p := []]> (files f1); folders := folders f1 |}]> (store w) in
  let st3 := <[k := {| files := <[p := out]> (files f1); folders := folders f1 |}]> (store w) in
  let w2 := stepped (OpenW k p) st2
              (stepped (Makedirs k (delegate_path h (Path.dirname filepath))) st1 w) in
  _write o filepath data callback w
  = (match (callback filepath data).2 with Some e => Raise e | None => Return tt end,
     if out is [] then w2 else stepped (Append k p) st3 w2).
Proof.
  intros Ht Hmk Hpl k p out st1 st2 st3 w2.
  unfold _write, obj_makedirs, obj_open_w, obj_append.
  rewrite bind_run, bind_run, (writer_target _ _ _ _ Ht).
  unfold ref_makedirs. rewrite (on_fs_returns _ _ _ f1) by exact Hmk.
  rewrite bind_run, bind_run, (writer_target _ _ _ _ Ht).
  unfold ref_open_w.
  rewrite (on_fs_returns _ _ _ {| files := <[p := []]> (files f1); folders := folders f1 |}).
  2:{ cbn [store stepped]. rewrite fs_of_insert. apply fs_open_w_places. exact Hpl. }
  cbn [store stepped]. rewrite insert_insert_eq. fold k p st1 st2 w2.
  subst out. destruct (callback filepath data) as [out err]. cbn [fst snd].
  destruct out as [|b out].
  - rewrite bind_run. cbn. destruct err; reflexivity.
  - rewrite bind_run, bind_run, (writer_target _ _ _ _ Ht).
    unfold ref_append. erewrite on_fs_returns by reflexivity.
    replace (<[ref_key h := fs_append (fs_of (store w2) (ref_key h)) (delegate_path h filepath) (b :: out)]> (store w2)) with st3.
    + destruct err; reflexivity.
    + subst w2 st3 st2. cbn [store stepped]. fold k p.
      rewrite fs_of_insert, insert_insert_eq. unfold fs_append. cbn [files folders].
      rewrite lookup_insert_eq, insert_insert_eq. reflexivity.
Qed.

Lemma can_write_inv (f : FS) (dir path : string) :
  can_write f dir path = true ->
  ∃ f1, fs_makedirs f dir = Return f1 ∧ can_place f1 path = true.
Proof.
  unfold can_write. destruct (fs_makedirs f dir) as [f1|e]; intros H.
  - exists f1. split; [reflexivity | exact H].
  - discriminate H.
Qed.

Lemma fs_makedirs_files (f f1 : FS) (dir : string) :
  fs_makedirs f dir = Return f1 -> files f1 = files f.
Proof.
  unfold fs_makedirs. destruct (existsb _ _); intros E; [discriminate E|].
  injection E as <-. reflexivity.
Qed.

Lemma _callback_unknown (filepath : string) (data : Data) :
  Path.extension filepath ≠ "pkl" ->
  Path.extension filepath ≠ "csv" ->
  Path.extension filepath ≠ "mat" ->
  _callback filepath data
  = ([], Some (ValueError ("Unknown extension! " ++ Path.extension filepath))).
Proof.
  intros H1 H2 H3. unfold _callback.
  apply String.eqb_neq in H1, H2, H3. rewrite H1, H2, H3. reflexivity.
Qed.

(** C9. For an absent path whose extension is none of pkl, csv and mat,
    [write] makes the parent directories on the filesystem the priority
    store writes to, opens the file there, and only then raises the
    unknown-extension [ValueError]: the file stays behind, empty. *)
Theorem write_unknown_extension_leaves_empty_file
    (da : DataAccess) (filepath : string) (data : Data) (save_local : bool)
    (h : FsRef) (w : World) :
  which (fs da) filepath (store w) = None ->
  Path.extension filepath ≠ "pkl" ->
  Path.extension filepath ≠ "csv" ->
  Path.extension filepath ≠ "mat" ->
  write_fs (fs da) = Some h ->
  ref_can_write (store w) h filepath = true ->
  ∃ w',
    write da filepath data save_local None w
    = (Raise (ValueError ("Unknown extension! " ++ Path.extension filepath)), w')
    ∧ ref_content (store w') h filepath = Some []
    ∧ isdir (ref_fs (store w') h) (Path.dirname (delegate_path h filepath)) = true
    ∧ fs_ops (journal w')
      = OpenW (ref_key h) (delegate_path h filepath)
        :: Makedirs (ref_key h) (delegate_path h (Path.dirname filepath))
        :: fs_ops (journal w).
Proof.
  intros Habs E1 E2 E3 Hw Hcan.
  destruct (can_write_inv _ _ _ Hcan) as (f1 & Hmk & Hpl).
  unfold write.
  rewrite (bind_returns _ _ _ _ _ (check_absent_passes _ _ _ Habs)).
  rewrite bind_run. cbn [print default].
  rewrite bind_run.
  rewrite (_write_runs (Multi (fs da)) h filepath data _callback
             (record (Printed ("Writing " ++ filepath)) w) f1 Hw Hmk Hpl).
  rewrite (_callback_unknown _ _ E1 E2 E3). cbn [fst snd].
  eexists. split; [reflexivity|].
  cbn [store stepped journal record fs_ops].
  unfold ref_content, ref_fs. rewrite fs_of_insert. cbn [files folders].
  rewrite lookup_insert_eq.
  split; [reflexivity|]. split; [|reflexivity].
  unfold can_place in Hpl. apply andb_true_iff in Hpl as [_ Hd]. exact Hd.
Qed.

(** C10. In the remote-shell variant the existence check of [write]
    looks at the priority store only: for a path that only the local
    filesystem has, the check passes, and with [save_local=True] the
    local copy is overwritten with the new bytes. *)
Theorem write_overwrites_local_only_copy
    (root filepath : string) (data : Data) (callback : option Callback)
    (old out : bytes) (w : World) :
  let da := remote_shell root in
  ref_content (store w) (local_fs da) filepath = Some old ->
  which (fs da) filepath (store w) = None ->
  default _callback callback filepath data = (out, None) ->
  ref_can_write (store w) (WrapSSHFS SSHHost root) filepath = true ->
  ref_can_write (store w) (local_fs da) filepath = true ->
  _check_file_exists da filepath false w = (Return tt, w)
  ∧ ∃ w',
      write da filepath data true callback w = (Return tt, w')
      ∧ ref_content (store w') (local_fs da) filepath = Some out
      ∧ ref_content (store w') (WrapSSHFS SSHHost root) filepath = Some out.
Proof.
  intros da Hold Habs Hcb Hssh Hloc.
  split; [apply check_absent_passes; exact Habs|].
  destruct (can_write_inv _ _ _ Hssh) as (f1 & Hmk & Hpl).
  destruct (can_write_inv _ _ _ Hloc) as (g1 & Hmk' & Hpl').
  unfold write.
  rewrite (bind_returns _ _ _ _ _ (check_absent_passes _ _ _ Habs)).
  rewrite bind_run. cbn [print].
  rewrite bind_run.
  rewrite (_write_runs (Multi (fs da)) (WrapSSHFS SSHHost root) filepath data _
             (record (Printed ("Writing " ++ filepath)) w) f1 eq_refl Hmk Hpl).
  rewrite Hcb. cbn [fst snd].
  set (w1 := if out is [] then _ else _).
  assert (∃ f, store w1 = <[SSHHost := f]> (store w)
               ∧ files f !! Path.posix_join root filepath = Some out) as (f & Hst & Hf).
  { subst w1. destruct out; cbn [store stepped ref_key delegate_path];
      eexists; (split; [reflexivity|]); cbn [files]; apply lookup_insert_eq. }
  assert (Hfs : ref_fs (store w1) (local_fs da) = ref_fs (store w) (local_fs da)).
  { unfold ref_fs. rewrite Hst. apply fs_of_insert_ne. discriminate. }
  rewrite (_write_runs (One (local_fs da)) (local_fs da) filepath data _ w1 g1 eq_refl).
  2:{ rewrite Hfs. exact Hmk'. }
  2:{ exact Hpl'. }
  rewrite Hcb. cbn [fst snd].
  eexists. split; [reflexivity|].
  unfold ref_content, ref_fs.
  destruct out; cbn [store stepped ref_key delegate_path local_fs da remote_shell].
  - rewrite fs_of_insert. cbn [files]. rewrite lookup_insert_eq.
    split; [reflexivity|].
    rewrite fs_of_insert_ne by discriminate. rewrite Hst, fs_of_insert. exact Hf.
  - rewrite fs_of_insert. cbn [files]. rewrite lookup_insert_eq.
    split; [reflexivity|].
    rewrite fs_of_insert_ne by discriminate. rewrite Hst, fs_of_insert. exact Hf.
Qed.

(** ** Strings and paths *)

Lemma append_cons (c : ascii) (s t : string) : String c s ++ t = String c (s ++ t).
Proof. reflexivity. Qed.

Lemma append_nil_l (t : string) : "" ++ t = t.
Proof. reflexivity. Qed.

Lemma append_nil_r (s : string) : s ++ "" = s.
Proof.
  induction s as [|c s IH]; [reflexivity|].
  rewrite append_cons, IH. reflexivity.
Qed.

Lemma append_assoc (s t u : string) : (s ++ t) ++ u = s ++ (t ++ u).
Proof.
  induction s as [|c s IH]; [reflexivity|].
  rewrite !append_cons, IH. reflexivity.
Qed.

Lemma append_inj_l (s a b : string) : s ++ a = s ++ b -> a = b.
Proof.
  induction s as [|c s IH]; intros E; [exact E|].
  rewrite !append_cons in E. injection E as E. apply IH. exact E.
Qed.

Lemma append_ne_self (s a : string) : a ≠ "" -> s ++ a ≠ s.
Proof.
  intros Ha E. apply Ha. apply (append_inj_l s). rewrite append_nil_r. exact E.
Qed.

Lemma last_char_append (s t : string) :
  t ≠ "" -> Path.last_char (s ++ t) = Path.last_char t.
Proof.
  intros Ht. induction s as [|c s IH]; [reflexivity|].
  rewrite append_cons. rewrite <- IH. destruct (s ++ t) eqn:E; [|reflexivity].
  destruct s; [rewrite append_nil_l in E; congruence | rewrite append_cons in E; discriminate E].
Qed.

Lemma starts_with_slash_append (b s : string) :
  b ≠ "" -> Path.starts_with_slash (b ++ s) = Path.starts_with_slash b.
Proof. destruct b; [congruence | reflexivity]. Qed.

(** Joining commutes with a suffix that does not start with a slash. *)
Lemma posix_join_suffix (a b s : string) :
  Path.starts_with_slash s = false ->
  Path.posix_join a (b ++ s) = Path.posix_join a b ++ s.
Proof.
  intros Hs. unfold Path.posix_join.
  assert (E : Path.starts_with_slash (b ++ s) = Path.starts_with_slash b).
  { destruct b; [exact Hs | reflexivity]. }
  rewrite E. destruct (Path.starts_with_slash b); [reflexivity|].
  destruct (_ || _).
  - rewrite append_assoc. reflexivity.
  - rewrite !append_assoc. reflexivity.
Qed.

Lemma posix_join_relative (a b : string) :
  Path.starts_with_slash b = false ->
  ∃ pre, Path.posix_join a b = pre ++ b.
Proof.
  intros Hb. unfold Path.posix_join. rewrite Hb.
  destruct (_ || _).
  - exists a. reflexivity.
  - exists (a ++ "/"). rewrite append_assoc. reflexivity.
Qed.

Section PushPaths.
Variables (da : DataAccess) (checksum rename : string).
Let v := push_values da checksum rename.

Lemma updated_is_original_temp : updated v = original v ++ ".temp".
Proof. apply posix_join_suffix. reflexivity. Qed.

Lemma updated_ne_original : updated v ≠ original v.
Proof. rewrite updated_is_original_temp. apply append_ne_self. discriminate. Qed.

Lemma updated_ne_tilde : updated v ≠ original v ++ "~".
Proof.
  rewrite updated_is_original_temp. intros E. apply append_inj_l in E. discriminate E.
Qed.

End PushPaths.

(** ** Moving a file between two filesystems *)

Lemma ref_read_file (h : FsRef) (path : string) (data : bytes) (w : World) :
  ref_content (store w) h path = Some data ->
  ref_read h path w = (Return data, w).
Proof.
  intros E. unfold ref_read. rewrite bind_run. cbn [get_store].
  unfold fs_read. unfold ref_content in E. rewrite E. reflexivity.
Qed.

(** A copy from one handle to the write target of [dst], on another
    filesystem: the destination is opened, empty, and then filled. *)
Lemma copy_file_runs (hs hd : FsRef) (dst : FSObj) (sp dp : string) (data : bytes)
    (w : World) :
  ref_content (store w) hs sp = Some data ->
  target dst = Some hd ->
  ref_key hs ≠ ref_key hd ->
  can_place (ref_fs (store w) hd) (delegate_path hd dp) = true ->
  let fs_d := ref_fs (store w) hd in
  let p := delegate_path hd dp in
  let st1 := <[ref_key hd := {| files := <[p := []]> (files fs_d);
                               folders := folders fs_d |}]> (store w) in
  let st2 := <[ref_key hd := {| files := <[p := data]> (files fs_d);
                               folders := folders fs_d |}]> st1 in
  copy_file (One hs) sp dst dp w
  = (Return tt, stepped (Append (ref_key hd) p) st2 (stepped (OpenW (ref_key hd) p) st1 w)).
Proof.
  intros Hsrc Htgt Hne Hpl fs_d p st1 st2.
  assert (Hopen : obj_open_w dst dp w = (Return tt, stepped (OpenW (ref_key hd) p) st1 w)).
  { unfold obj_open_w. rewrite bind_run, (writer_target dst hd) by exact Htgt.
    unfold ref_open_w. apply on_fs_returns. apply fs_open_w_places. exact Hpl. }
  assert (Hread : ∀ op, obj_read (One hs) sp (stepped op st1 w)
                        = (Return data, stepped op st1 w)).
  { intros op. unfold obj_read. rewrite bind_run. cbn [reader mret Py_ret].
    apply ref_read_file. unfold ref_content, ref_fs. cbn [store stepped]. unfold st1.
    rewrite fs_of_insert_ne by (intros E; apply Hne; symmetry; exact E). exact Hsrc. }
  assert (Happ : obj_append dst dp data (stepped (OpenW (ref_key hd) p) st1 w)
                 = (Return tt, stepped (Append (ref_key hd) p) st2
                                 (stepped (OpenW (ref_key hd) p) st1 w))).
  { unfold obj_append. rewrite bind_run, (writer_target dst hd) by exact Htgt.
    unfold ref_append. fold p. erewrite on_fs_returns; [reflexivity|].
    cbn [store stepped]. unfold st1 at 1. rewrite fs_of_insert.
    unfold fs_append. cbn [files folders]. rewrite lookup_insert_eq. cbn [default app].
    rewrite insert_insert_eq. reflexivity. }
  unfold copy_file. rewrite bind_run. cbn [get_store].
  destruct (hassyspath dst dp (store w)).
  - rewrite bind_run, Hopen. rewrite bind_run, Hread. exact Happ.
  - rewrite bind_run.
    assert (Hread0 : obj_read (One hs) sp w = (Return data, w)).
    { unfold obj_read. rewrite bind_run. cbn [reader mret Py_ret].
      apply ref_read_file. exact Hsrc. }
    rewrite Hread0. rewrite bind_run, Hopen. exact Happ.
Qed.

(** A move from one handle to the write target of [dst], on another
    filesystem: the file is copied there, then removed from the source. *)
Lemma move_file_runs (hs hd : FsRef) (dst : FSObj) (sp dp : string) (data : bytes)
    (w : World) :
  ref_content (store w) hs sp = Some data ->
  target dst = Some hd ->
  ref_key hs ≠ ref_key hd ->
  can_place (ref_fs (store w) hd) (delegate_path hd dp) = true ->
  let fs_s := ref_fs (store w) hs in
  let fs_d := ref_fs (store w) hd in
  let p := delegate_path hd dp in
  let st1 := <[ref_key hd := {| files := <[p := []]> (files fs_d);
                               folders := folders fs_d |}]> (store w) in
  let st2 := <[ref_key hd := {| files := <[p := data]> (files fs_d);
                               folders := folders fs_d |}]> st1 in
  let st3 := <[ref_key hs := {| files := delete (delegate_path hs sp) (files fs_s);
                               folders := folders fs_s |}]> st2 in
  move_file (One hs) sp dst dp w
  = (Return tt,
     stepped (Remove (ref_key hs) (delegate_path hs sp)) st3
       (stepped (Append (ref_key hd) p) st2 (stepped (OpenW (ref_key hd) p) st1 w))).
Proof.
  intros Hsrc Htgt Hne Hpl fs_s fs_d p st1 st2 st3.
  unfold move_file. rewrite bind_run.
  rewrite (copy_file_runs hs hd dst sp dp data w Hsrc Htgt Hne Hpl).
  fold fs_d p st1 st2.
  unfold obj_remove. rewrite bind_run. cbn [reader mret Py_ret].
  unfold ref_remove. apply on_fs_returns.
  cbn [store stepped]. unfold st2, st1.
  rewrite !fs_of_insert_ne by (intros E; apply Hne; symmetry; exact E).
  unfold fs_remove. unfold ref_content, ref_fs in Hsrc. rewrite Hsrc. reflexivity.
Qed.

(** ** The priority store of the remote-shell variant *)


Lemma SSHDataAccess_connected (root : string) (w : World) :
  ssh_up w = true -> SSHDataAccess root w = (Return (remote_shell root), w).
Proof.
  intros Hup. unfold SSHDataAccess. rewrite bind_run.
  unfold get_multi_fs, get_ssh_fs. rewrite Hup. reflexivity.
Qed.



(** ** Staging, and the call that fails *)

Section PushRun.
Variables (root file_name checksum rename : string) (new : bytes) (w : World).
Let da := remote_shell root.
Let v := push_values da checksum rename.
Let srv := fs_of (store w) SSHHost.
Let loc := fs_of (store w) (OSFS LOCAL_DIR).
Let st1 := <[SSHHost := {| files := <[updated v := []]> (files srv);
                           folders := folders srv |}]> (store w).
Let st2 := <[SSHHost := {| files := <[updated v := new]> (files srv);
                           folders := folders srv |}]> st1.
Let st3 := <[OSFS LOCAL_DIR := {| files := delete file_name (files loc);
                                  folders := folders loc |}]> st2.
Let w3 := stepped (Remove (OSFS LOCAL_DIR) file_name) st3
            (stepped (Append SSHHost (updated v)) st2
               (stepped (OpenW SSHHost (updated v)) st1
                  (record (Printed ("Transferring " ++ rename ++ " to server")) w))).

Hypothesis Hlocal : files loc !! file_name = Some new.
Hypothesis Hfree : which (fs da) (rename ++ ".temp") (store w) = None.
Hypothesis Hstage : can_place srv (updated v) = true.

(** The check passes and the local file is moved to the backup path on
    the server; then [exec_command] is looked up on the priority store,
    and that is where [push] ends. *)
Lemma push_stops_at_exec_command :
  SSHDataAccess_push da file_name checksum rename w
  = (Raise (AttributeError "'MultiFS' object has no attribute 'exec_command'"), w3).
Proof.
  unfold SSHDataAccess_push.
  rewrite (bind_returns _ _ _ _ _ (check_absent_passes _ _ _ Hfree)).
  rewrite bind_run. cbn [print].
  rewrite bind_run.
  rewrite (move_file_runs (local_fs da) (WrapSSHFS SSHHost root) (Multi (fs da))
             file_name (rename ++ ".temp") new);
    [| exact Hlocal | reflexivity | discriminate | exact Hstage].
  reflexivity.
Qed.

Lemma pushed_server_view :
  fs_of (store w3) SSHHost
  = {| files := <[updated v := new]> (files srv); folders := folders srv |}.
Proof.
  unfold w3, st3, st2. cbn [store stepped].
  rewrite fs_of_insert_ne by discriminate. apply fs_of_insert.
Qed.

Lemma pushed_local_view :
  fs_of (store w3) (OSFS LOCAL_DIR)
  = {| files := delete file_name (files loc); folders := folders loc |}.
Proof. unfold w3, st3. cbn [store stepped]. apply fs_of_insert. Qed.



End PushRun.

(** C1 (where the code departs from it). Remote-shell variant: [push]
    with the checksum the server would recompute for the canonical file
    does not get to its command.  The local file is moved to the backup
    path, then [exec_command] is called on the priority store, which
    has no such method, and [push] ends in [AttributeError]: the
    canonical file keeps the bytes it had, no copy of them is set
    aside, and the pushed bytes stay at the backup path. *)
Theorem push_with_current_checksum_installs_nothing
    (root file_name checksum rename : string) (new current : bytes) (w : World) :
  let da := remote_shell root in
  let v := push_values da checksum rename in
  let srv := fs_of (store w) SSHHost in
  files (fs_of (store w) (OSFS LOCAL_DIR)) !! file_name = Some new ->
  which (fs da) (rename ++ ".temp") (store w) = None ->
  files srv !! original v = Some current ->
  checksum = (sha1sum srv (original v)).1 ->
  can_place srv (updated v) = true ->
  ∃ w',
    push da file_name checksum rename w
    = (Raise (AttributeError "'MultiFS' object has no attribute 'exec_command'"), w')
    ∧ files (fs_of (store w') SSHHost) !! original v = Some current
    ∧ files (fs_of (store w') SSHHost) !! (original v ++ "~")
      = files srv !! (original v ++ "~")
    ∧ files (fs_of (store w') SSHHost) !! updated v = Some new
    ∧ files (fs_of (store w') (OSFS LOCAL_DIR)) !! file_name = None.
Proof.
  intros da v srv Hlocal Hfree Hcur _ Hstage.
  pose proof (updated_ne_original da checksum rename) as Huo.
  pose proof (updated_ne_tilde da checksum rename) as Hut.
  pose proof (push_stops_at_exec_command root file_name checksum rename new w
                Hlocal Hfree Hstage) as Hrun.
  pose proof (pushed_server_view root file_name checksum rename new w) as Hsrv.
  pose proof (pushed_local_view root file_name checksum rename new w) as Hloc.
  cbv zeta in Huo, Hut, Hrun, Hsrv, Hloc. subst da v srv.
  change (push (remote_shell root) file_name checksum rename w)
    with (SSHDataAccess_push (remote_shell root) file_name checksum rename w).
  rewrite Hrun. eexists. split; [reflexivity|].
  rewrite Hsrv, Hloc. cbn [files].
  split; [rewrite lookup_insert_ne by exact Huo; exact Hcur|].
  split; [rewrite lookup_insert_ne by exact Hut; reflexivity|].
  split; [apply lookup_insert_eq | apply lookup_delete_eq].
Qed.

(** C3 (where the code departs from it). Remote-shell variant: when the
    canonical file on the server no longer has the checksum [push] is
    given, [push] raises, and the canonical file has the bytes it had.
    What it raises is not the conflict error: the command that would
    detect the conflict is never run, [push] ends in the
    [AttributeError] of [exec_command], and no CONFLICT_ERROR line is
    printed. *)
Theorem push_with_stale_checksum_reports_no_conflict
    (root file_name checksum rename : string) (new current : bytes) (w : World) :
  let da := remote_shell root in
  let v := push_values da checksum rename in
  let srv := fs_of (store w) SSHHost in
  files (fs_of (store w) (OSFS LOCAL_DIR)) !! file_name = Some new ->
  which (fs da) (rename ++ ".temp") (store w) = None ->
  files srv !! original v = Some current ->
  checksum ≠ (sha1sum srv (original v)).1 ->
  can_place srv (updated v) = true ->
  ∃ w',
    push da file_name checksum rename w
    = (Raise (AttributeError "'MultiFS' object has no attribute 'exec_command'"), w')
    ∧ files (fs_of (store w') SSHHost) !! original v = Some current
    ∧ printed (journal w')
      = ("Transferring " ++ rename ++ " to server") :: printed (journal w).
Proof.
  intros da v srv Hlocal Hfree Hcur _ Hstage.
  pose proof (updated_ne_original da checksum rename) as Huo.
  pose proof (push_stops_at_exec_command root file_name checksum rename new w
                Hlocal Hfree Hstage) as Hrun.
  pose proof (pushed_server_view root file_name checksum rename new w) as Hsrv.
  cbv zeta in Huo, Hrun, Hsrv. subst da v srv.
  change (push (remote_shell root) file_name checksum rename w)
    with (SSHDataAccess_push (remote_shell root) file_name checksum rename w).
  rewrite Hrun. eexists. split; [reflexivity|].
  rewrite Hsrv. cbn [files].
  split; [rewrite lookup_insert_ne by exact Huo; exact Hcur|].
  reflexivity.
Qed.


Lemma isfile_lookup (f : FS) (path : string) (data : bytes) :
  files f !! path = Some data -> isfile f path = true.
Proof. intros E. unfold isfile. rewrite E. apply bool_decide_eq_true. eauto. Qed.



(** ** Reading back what a computation did *)

Lemma on_fs_return_inv (k : FsKey) (op : FsOp) (step : FS -> outcome FS) (w w' : World) :
  on_fs k op step w = (Return tt, w') ->
  ∃ f, step (fs_of (store w) k) = Return f ∧ w' = stepped op (<[k := f]> (store w)) w.
Proof.
  unfold on_fs. rewrite bind_run. cbn [get_store]. rewrite bind_run.
  destruct (step (fs_of (store w) k)) as [f|e]; cbn; intros E; [|discriminate E].
  exists f. split; [reflexivity|]. injection E as <-. reflexivity.
Qed.

Lemma ref_read_inv (h : FsRef) (path : string) (data : bytes) (w w' : World) :
  ref_read h path w = (Return data, w') ->
  w' = w ∧ ref_content (store w) h path = Some data.
Proof.
  unfold ref_read. rewrite bind_run. cbn [get_store]. unfold fs_read, ref_content.
  destruct (files (ref_fs (store w) h) !! delegate_path h path) as [b|].
  - cbn. intros E. injection E as <- <-. split; reflexivity.
  - destruct (isdir _ _); cbn; intros E; discriminate E.
Qed.

Lemma reader_inv (o : FSObj) (path : string) (h : FsRef) (w w' : World) :
  reader o path w = (Return h, w') ->
  w' = w ∧ match o with
           | One h' => h' = h
           | Multi m => ∃ name, which m path (store w) = Some (name, h)
           end.
Proof.
  destruct o as [h'|m]; cbn.
  - intros E. injection E as <- <-. split; reflexivity.
  - rewrite bind_run. cbn [get_store].
    destruct (which m path (store w)) as [[name h']|]; cbn; intros E; [|discriminate E].
    injection E as <- <-. split; [reflexivity | eauto].
Qed.

Lemma writer_inv (o : FSObj) (path : string) (h : FsRef) (w w' : World) :
  writer o path w = (Return h, w') -> w' = w ∧ target o = Some h.
Proof.
  unfold writer. destruct (target o) as [h'|]; cbn; intros E; [|discriminate E].
  injection E as <- <-. split; reflexivity.
Qed.

Lemma lift_outcome_inv {A : Type} (o : outcome A) (a : A) (w w' : World) :
  lift_outcome o w = (Return a, w') -> w' = w ∧ o = Return a.
Proof.
  destruct o as [a'|e]; cbn; intros E; [|discriminate E].
  injection E as <- <-. split; reflexivity.
Qed.

Lemma check_exists_inv (da : DataAccess) (path : string) (w w' : World) :
  _check_file_exists da path true w = (Return tt, w') ->
  w' = w ∧ ∃ name h, which (fs da) path (store w) = Some (name, h).
Proof.
  unfold _check_file_exists. rewrite bind_run. cbn [get_store].
  destruct (which (fs da) path (store w)) as [[name h]|]; cbn; intros E.
  - injection E as <-. split; [reflexivity | eauto].
  - discriminate E.
Qed.

Lemma fs_open_w_inv (f f' : FS) (path : string) :
  fs_open_w f path = Return f' ->
  f' = {| files := <[path := []]> (files f); folders := folders f |}.
Proof.
  unfold fs_open_w. destruct (isdir f path); [discriminate|].
  destruct (negb _); [discriminate|]. intros E. injection E as <-. reflexivity.
Qed.

Lemma fs_remove_inv (f f' : FS) (path : string) :
  fs_remove f path = Return f' ->
  f' = {| files := delete path (files f); folders := folders f |}.
Proof.
  unfold fs_remove. destruct (files f !! path).
  - intros E. injection E as <-. reflexivity.
  - destruct (isdir f path); discriminate.
Qed.

Lemma fs_makedirs_inv (f f' : FS) (path : string) :
  fs_makedirs f path = Return f' ->
  files f' = files f ∧ folders f ⊆ folders f'.
Proof.
  unfold fs_makedirs. destruct (existsb _ _); [discriminate|].
  intros E. injection E as <-. cbn. split; [reflexivity | set_solver].
Qed.

(** The first match of a search stays the first match under a stronger
    test, when it passes the stronger test too. *)
Lemma find_stable {A : Type} (P Q : A -> bool) (l : list A) (x : A) :
  (∀ y, In y l -> Q y = true -> P y = true) ->
  find P l = Some x -> Q x = true -> find Q l = Some x.
Proof.
  induction l as [|y l IH]; cbn; intros HQP; [discriminate|].
  destruct (P y) eqn:Py.
  - intros E Qx. injection E as ->. rewrite Qx. reflexivity.
  - intros E Qx. destruct (Q y) eqn:Qy.
    + apply HQP in Qy; [congruence | left; reflexivity].
    + apply IH; [|assumption..]. intros z Hz. apply HQP. right. exact Hz.
Qed.

(** ** copy_from *)

Lemma copy_from_missing (da : DataAccess) (file_name : string) (from_dir : option string)
    (from_path : string) (w : World) :
  Path.join (default "" from_dir) file_name = Some from_path ->
  which (fs da) from_path (store w) = None ->
  copy_from da file_name from_dir w
  = (Raise (OSError (from_path ++ " not found on any of "
                       ++ repr_list (iterate_fs (fs da)).*1)), w).
Proof.
  intros Hj Hw. unfold copy_from, join. rewrite Hj. rewrite bind_run. cbn [mret Py_ret].
  apply bind_raises. apply check_missing_raises. exact Hw.
Qed.

Lemma copy_from_returns_inv (da : DataAccess) (file_name : string)
    (from_dir : option string) (w w' : World) :
  copy_from da file_name from_dir w = (Return tt, w') ->
  ∃ from_path name h w1 w2 w3 w4,
    Path.join (default "" from_dir) file_name = Some from_path
    ∧ which (fs da) from_path (store w) = Some (name, h)
    ∧ w1 = stepped TempOpen (<[TempDir := empty_fs]> (store w))
             (record (Printed ("Transferring " ++ file_name ++ " from " ++ name)) w)
    ∧ ref_makedirs (local_fs da) (default "" from_dir) w1 = (Return tt, w2)
    ∧ ref_makedirs (OpenFS TempDir) (default "" from_dir) w2 = (Return tt, w3)
    ∧ copy_file (Multi (fs da)) from_path (One (OpenFS TempDir)) from_path w3
      = (Return tt, w4)
    ∧ ∃ w5, move_file (One (OpenFS TempDir)) from_path (One (local_fs da)) from_path w4
            = (Return tt, w5)
            ∧ w' = stepped TempClose (delete TempDir (store w5)) w5.
Proof.
  unfold copy_from, join.
  destruct (Path.join (default "" from_dir) file_name) as [from_path|];
    [|rewrite bind_run; cbn; discriminate].
  rewrite bind_run. cbn [mret Py_ret].
  intros E. apply bind_return_inv in E as ([] & w0 & Hc & E).
  apply check_exists_inv in Hc as (-> & name & h & Hw).
  rewrite bind_run in E. cbn [get_store] in E. rewrite Hw in E. cbn [fmap option_fmap option_map fst default] in E.
  rewrite bind_run in E. cbn [print] in E.
  unfold with_TempFS in E. cbn [commit] in E.
  match type of E with
  | (let '(r, w2) := ?body ?w1 in _) = _ =>
      destruct (body w1) as [r wb] eqn:Hb
  end.
  injection E as -> <-.
  apply bind_return_inv in Hb as ([] & w2 & H2 & Hb).
  apply bind_return_inv in Hb as ([] & w3 & H3 & Hb).
  apply bind_return_inv in Hb as ([] & w4 & H4 & Hb).
  exists from_path, name, h. do 4 eexists.
  split; [reflexivity|]. split; [exact Hw|]. split; [reflexivity|].
  split; [exact H2|]. split; [exact H3|]. split; [exact H4|].
  exists wb. split; [exact Hb | reflexivity].
Qed.

Lemma ref_fs_insert (st : Store) (h : FsRef) (f : FS) :
  ref_fs (<[ref_key h := f]> st) h = f.
Proof. apply fs_of_insert. Qed.

Lemma ref_fs_insert_ne (st : Store) (k : FsKey) (h : FsRef) (f : FS) :
  k ≠ ref_key h -> ref_fs (<[k := f]> st) h = ref_fs st h.
Proof. apply fs_of_insert_ne. Qed.

Lemma ref_exists_grows (st st' : Store) (h : FsRef) (path : string) :
  files (ref_fs st' h) = files (ref_fs st h) ->
  folders (ref_fs st h) ⊆ folders (ref_fs st' h) ->
  ref_exists st h path = true -> ref_exists st' h path = true.
Proof.
  intros Hf Hd. unfold ref_exists, fs_exists, isfile, isdir. rewrite Hf.
  intros E. apply orb_true_iff in E as [E|E]; [rewrite E; reflexivity|].
  apply orb_true_iff in E as [E|E]; [rewrite E; apply orb_true_r|].
  apply bool_decide_eq_true in E.
  apply orb_true_iff. right. apply orb_true_iff. right.
  apply bool_decide_eq_true. set_solver.
Qed.

(** A copy into a handle that has returned: the destination was opened,
    empty, and then filled with what the source gave, read before the
    destination was opened or after. *)
Lemma copy_file_into_inv (src : FSObj) (hd : FsRef) (sp dp : string) (w w' : World) :
  copy_file src sp (One hd) dp w = (Return tt, w') ->
  let fs_d := ref_fs (store w) hd in
  let p := delegate_path hd dp in
  let st1 := <[ref_key hd := {| files := <[p := []]> (files fs_d);
                               folders := folders fs_d |}]> (store w) in
  let w1 := stepped (OpenW (ref_key hd) p) st1 w in
  ∃ data wr,
    (wr = w ∨ wr = w1)
    ∧ obj_read src sp wr = (Return data, wr)
    ∧ w' = stepped (Append (ref_key hd) p)
             (<[ref_key hd := {| files := <[p := data]> (files fs_d);
                                 folders := folders fs_d |}]> st1) w1.
Proof.
  intros Hrun fs_d p st1 w1.
  assert (Hopen : ∀ wo, obj_open_w (One hd) dp w = (Return tt, wo) -> wo = w1).
  { intros wo E. unfold obj_open_w in E. rewrite bind_run in E.
    cbn [writer target mret Py_ret] in E.
    apply on_fs_return_inv in E as (f & Hf & ->).
    apply fs_open_w_inv in Hf as ->. reflexivity. }
  assert (Happ : ∀ data wa, obj_append (One hd) dp data w1 = (Return tt, wa) ->
            wa = stepped (Append (ref_key hd) p)
                   (<[ref_key hd := {| files := <[p := data]> (files fs_d);
                                       folders := folders fs_d |}]> st1) w1).
  { intros data wa E. unfold obj_append in E. rewrite bind_run in E.
    cbn [writer target mret Py_ret] in E.
    apply on_fs_return_inv in E as (f & Hf & ->).
    cbn [store stepped w1] in Hf. unfold st1 in Hf at 1. rewrite fs_of_insert in Hf.
    injection Hf as <-. unfold fs_append. cbn [files folders].
    rewrite lookup_insert_eq. cbn [default app]. rewrite insert_insert_eq. reflexivity. }
  unfold copy_file in Hrun. rewrite bind_run in Hrun. cbn [get_store] in Hrun.
  destruct (hassyspath (One hd) dp (store w)).
  - apply bind_return_inv in Hrun as ([] & wo & Ho & Hrun).
    apply Hopen in Ho as ->.
    apply bind_return_inv in Hrun as (data & wr & Hr & Hrun).
    assert (wr = w1) as ->.
    { unfold obj_read in Hr. apply bind_return_inv in Hr as (h & wx & Hreader & Hr).
      apply reader_inv in Hreader as (-> & _). apply ref_read_inv in Hr as (-> & _).
      reflexivity. }
    exists data, w1. split; [right; reflexivity|]. split; [exact Hr|].
    apply Happ. exact Hrun.
  - apply bind_return_inv in Hrun as (data & wr & Hr & Hrun).
    assert (wr = w) as ->.
    { unfold obj_read in Hr. apply bind_return_inv in Hr as (h & wx & Hreader & Hr).
      apply reader_inv in Hreader as (-> & _). apply ref_read_inv in Hr as (-> & _).
      reflexivity. }
    apply bind_return_inv in Hrun as ([] & wo & Ho & Hrun).
    apply Hopen in Ho as ->.
    exists data, w. split; [left; reflexivity|]. split; [exact Hr|].
    apply Happ. exact Hrun.
Qed.

(** C5 (as the code has it). [copy_from] first brings the whole file
    into a fresh temporary filesystem; until that copy is complete the
    files of the local filesystem are what they were.  The move into
    the local filesystem then opens the final path, empty, fills it
    with the complete staged bytes and removes the staged file.  When
    no filesystem of the priority store has the file, [copy_from]
    raises the not-found [OSError] and changes nothing. *)
Theorem copy_from_stages_before_it_moves
    (da : DataAccess) (file_name : string) (from_dir : option string) (w : World) :
  TempDir ∉ own_filesystems da ->
  let dir := default "" from_dir in
  let loc := local_fs da in
  (∀ from_path,
     Path.join dir file_name = Some from_path ->
     which (fs da) from_path (store w) = None ->
     copy_from da file_name from_dir w
     = (Raise (OSError (from_path ++ " not found on any of "
                          ++ repr_list (iterate_fs (fs da)).*1)), w))
  ∧ (∀ w',
       copy_from da file_name from_dir w = (Return tt, w') ->
       ∃ from_path name h data s1 s2 s3 s4 s5 s6 s7 s8,
         Path.join dir file_name = Some from_path
         ∧ which (fs da) from_path (store w) = Some (name, h)
         ∧ ref_content (store w) h from_path = Some data
         ∧ journal w'
           = ([ Stored TempClose (delete TempDir s8);
               Stored (Remove TempDir from_path) s8;
               Stored (Append (ref_key loc) (delegate_path loc from_path)) s7;
               Stored (OpenW (ref_key loc) (delegate_path loc from_path)) s6;
               Stored (Append TempDir from_path) s5;
               Stored (OpenW TempDir from_path) s4;
               Stored (Makedirs TempDir dir) s3;
               Stored (Makedirs (ref_key loc) (delegate_path loc dir)) s2;
               Stored TempOpen s1;
               Printed ("Transferring " ++ file_name ++ " from " ++ name) ]
             ++ journal w)%list
         ∧ store w' = delete TempDir s8
         ∧ Forall (λ s, files (ref_fs s loc) = files (ref_fs (store w) loc))
                  [s1; s2; s3; s4; s5]
         ∧ files (fs_of s5 TempDir) !! from_path = Some data
         ∧ files (ref_fs s6 loc)
           = <[delegate_path loc from_path := []]> (files (ref_fs (store w) loc))
         ∧ files (ref_fs s7 loc)
           = <[delegate_path loc from_path := data]> (files (ref_fs (store w) loc))
         ∧ files (fs_of s7 TempDir) !! from_path = Some data
         ∧ files (fs_of s8 TempDir) !! from_path = None
         ∧ files (ref_fs s8 loc) = files (ref_fs s7 loc)
         ∧ ref_content (store w') loc from_path = Some data).
Proof.
  intros Htemp dir loc. split.
  { intros from_path Hj Hw. apply copy_from_missing; assumption. }
  intros w' Hrun.
  assert (Hloc : TempDir ≠ ref_key loc).
  { intros E. apply Htemp. unfold own_filesystems. fold loc. rewrite <- E. left. }
  assert (Hmem : ∀ nf, In nf (iterate_fs (fs da)) -> TempDir ≠ ref_key nf.2).
  { intros nf Hin E. apply Htemp. unfold own_filesystems. right.
    rewrite E. apply list_elem_of_In. apply in_map_iff. exists nf. split; [reflexivity|exact Hin]. }
  apply copy_from_returns_inv in Hrun
    as (from_path & name & h & w1 & w2 & w3 & w4 & Hj & Hw & -> & H2 & H3 & H4 & w5 & H5 & ->).
  fold dir loc in H2, H3, H4, H5.
  set (st0 := store w) in *.
  (* the local directories *)
  apply on_fs_return_inv in H2 as (f2 & Hf2 & ->).
  cbn [store stepped record] in Hf2.
  rewrite fs_of_insert_ne in Hf2 by exact Hloc.
  apply fs_makedirs_inv in Hf2 as [Hf2 Hd2].
  (* the directories of the staging area *)
  apply on_fs_return_inv in H3 as (f3 & Hf3 & ->).
  cbn [store stepped record ref_key] in Hf3.
  rewrite fs_of_insert_ne in Hf3 by (intros E; apply Hloc; symmetry; exact E).
  rewrite fs_of_insert in Hf3.
  apply fs_makedirs_inv in Hf3 as [Hf3 _]. cbn [files empty_fs] in Hf3.
  (* the copy into the staging area: it has system paths, and is opened first *)
  unfold copy_file in H4. rewrite bind_run in H4.
  cbn [get_store hassyspath ref_hassyspath] in H4.
  apply bind_return_inv in H4 as ([] & w4a & Hopen & H4).
  unfold obj_open_w in Hopen. rewrite bind_run in Hopen. cbn [writer target mret Py_ret] in Hopen.
  apply on_fs_return_inv in Hopen as (f4 & Hf4 & ->).
  cbn [store stepped record ref_key delegate_path] in Hf4.
  rewrite fs_of_insert in Hf4. apply fs_open_w_inv in Hf4 as ->.
  apply bind_return_inv in H4 as (data & w3' & Hread & Happ).
  unfold obj_read in Hread.
  apply bind_return_inv in Hread as (h' & w3'' & Hreader & Hread).
  apply reader_inv in Hreader as (-> & name' & Hw').
  apply ref_read_inv in Hread as (-> & Hdata).
  unfold obj_append in Happ. rewrite bind_run in Happ. cbn [writer target mret Py_ret] in Happ.
  apply on_fs_return_inv in Happ as (f5 & Hf5 & ->).
  cbn [store stepped record ref_key delegate_path] in Hf5.
  rewrite fs_of_insert in Hf5. injection Hf5 as <-.
  (* the move into the local filesystem *)
  unfold move_file in H5.
  apply bind_return_inv in H5 as ([] & w6 & Hcopy & Hrem).
  apply copy_file_into_inv in Hcopy as (data' & wr & Hwr & Hread & ->).
  unfold obj_read in Hread. rewrite bind_run in Hread. cbn [reader mret Py_ret] in Hread.
  apply ref_read_inv in Hread as (_ & Hdata').
  assert (Hstaged : data' = data).
  { unfold ref_content, ref_fs in Hdata'. cbn [ref_key delegate_path] in Hdata'.
    destruct Hwr as [-> | ->]; cbn [store stepped] in Hdata'.
    - rewrite fs_of_insert in Hdata'. unfold fs_append in Hdata'. cbn [files] in Hdata'.
      rewrite lookup_insert_eq in Hdata'. rewrite lookup_insert_eq in Hdata'.
      cbn [default app] in Hdata'. injection Hdata' as <-. reflexivity.
    - rewrite fs_of_insert_ne in Hdata' by (intros E; apply Hloc; symmetry; exact E).
      rewrite fs_of_insert in Hdata'. unfold fs_append in Hdata'. cbn [files] in Hdata'.
      rewrite lookup_insert_eq in Hdata'. rewrite lookup_insert_eq in Hdata'.
      cbn [default app] in Hdata'. injection Hdata' as <-. reflexivity. }
  subst data'. clear Hwr Hdata' wr.
  unfold obj_remove in Hrem. rewrite bind_run in Hrem. cbn [reader mret Py_ret] in Hrem.
  apply on_fs_return_inv in Hrem as (f8 & Hf8 & ->).
  cbn [store stepped ref_key delegate_path] in Hf8.
  rewrite fs_of_insert_ne in Hf8 by (intros E; apply Hloc; symmetry; exact E).
  rewrite fs_of_insert_ne in Hf8 by (intros E; apply Hloc; symmetry; exact E).
  rewrite fs_of_insert in Hf8.
  apply fs_remove_inv in Hf8 as ->.
  (* the owner of the file, seen from the world before the call *)
  cbn [store stepped record ref_key] in Hw', Hdata.
  set (st3 := <[TempDir := f3]> (<[ref_key loc := f2]> (<[TempDir := empty_fs]> st0))) in *.
  set (f4 := {| files := <[from_path := []]> (files f3); folders := folders f3 |}) in *.
  set (st4 := <[TempDir := f4]> st3) in *.
  assert (Hsame : ∀ nf, In nf (iterate_fs (fs da)) ->
            files (ref_fs st4 nf.2) = files (ref_fs st0 nf.2)
            ∧ folders (ref_fs st0 nf.2) ⊆ folders (ref_fs st4 nf.2)).
  { intros nf Hin. pose proof (Hmem nf Hin) as Hne.
    unfold st4, st3. rewrite !ref_fs_insert_ne by exact Hne.
    destruct (decide (ref_key loc = ref_key nf.2)) as [E|E].
    - unfold ref_fs. rewrite <- E. rewrite fs_of_insert. split; assumption.
    - rewrite ref_fs_insert_ne by exact E. rewrite ref_fs_insert_ne by exact Hne.
      split; [reflexivity | set_solver]. }
  assert (Hin' : In (name', h') (iterate_fs (fs da))).
  { unfold which in Hw'. apply find_some in Hw'. apply Hw'. }
  assert (Hdata0 : ref_content st0 h' from_path = Some data).
  { unfold ref_content in *. destruct (Hsame _ Hin') as [E _]. cbn [snd] in E.
    rewrite <- E. exact Hdata. }
  assert (Hown : which (fs da) from_path st0 = Some (name', h')).
  { unfold which in *.
    eapply find_stable; [| exact Hw' |].
    - intros nf Hin. destruct (Hsame nf Hin) as [Hf Hd]. apply ref_exists_grows; assumption.
    - cbn [snd]. unfold ref_exists, fs_exists. unfold ref_content in Hdata0.
      rewrite (isfile_lookup _ _ _ Hdata0). reflexivity. }
  rewrite Hw in Hown. injection Hown as <- <-.
  set (f5 := fs_append f4 from_path data) in *.
  set (st5 := <[TempDir := f5]> st4) in *.
  assert (Hl5 : files (ref_fs st5 loc) = files (ref_fs st0 loc)).
  { unfold st5, st4, st3. rewrite !ref_fs_insert_ne by exact Hloc.
    rewrite ref_fs_insert. exact Hf2. }
  assert (Ht5 : files (fs_of st5 TempDir) !! from_path = Some data).
  { unfold st5. rewrite fs_of_insert. unfold f5, fs_append. cbn [files f4].
    rewrite lookup_insert_eq. rewrite lookup_insert_eq. reflexivity. }
  exists from_path, name, h, data. do 8 eexists.
  split; [exact Hj|]. split; [exact Hw|]. split; [exact Hdata0|].
  split; [reflexivity|]. split; [reflexivity|].
  cbn [store stepped record ref_key delegate_path]. fold st0 st3 st4 st5.
  split.
  { repeat (apply Forall_cons_2; [cbv beta|]); [..|apply Forall_nil_2].
    - rewrite ref_fs_insert_ne by exact Hloc. reflexivity.
    - rewrite ref_fs_insert. exact Hf2.
    - unfold st3. rewrite ref_fs_insert_ne by exact Hloc.
      rewrite ref_fs_insert. exact Hf2.
    - unfold st4, st3. rewrite !ref_fs_insert_ne by exact Hloc.
      rewrite ref_fs_insert. exact Hf2.
    - exact Hl5. }
  split; [exact Ht5|].
  split.
  { rewrite ref_fs_insert. cbn [files]. rewrite Hl5. reflexivity. }
  split.
  { rewrite ref_fs_insert. cbn [files]. rewrite Hl5. reflexivity. }
  split.
  { rewrite !fs_of_insert_ne by (intros E; apply Hloc; symmetry; exact E). exact Ht5. }
  split.
  { rewrite fs_of_insert. cbn [files]. apply lookup_delete_eq. }
  split.
  { rewrite ref_fs_insert_ne by exact Hloc. reflexivity. }
  unfold ref_content, ref_fs. cbn [store stepped]. unfold fs_of.
  rewrite lookup_delete_ne by exact Hloc.
  rewrite lookup_insert_ne by exact Hloc. rewrite lookup_insert_eq. cbn [default files].
  apply lookup_insert_eq.
Qed.

(** ** get *)

Lemma ref_exists_file (st : Store) (h : FsRef) (path : string) (data : bytes) :
  ref_content st h path = Some data -> ref_exists st h path = true.
Proof.
  intros E. unfold ref_exists, fs_exists. unfold ref_content in E.
  rewrite (isfile_lookup _ _ _ E). reflexivity.
Qed.

(** With the file in the local filesystem, [get] goes straight to the
    block of the caller: nothing is printed, nothing is copied. *)
Lemma get_of_local_file {A : Type} (da : DataAccess) (filepath : string)
    (content : bytes) (body : bytes -> string -> Py A) (w : World) :
  ref_content (store w) (local_fs da) filepath = Some content ->
  get da filepath body w
  = (p ← lift_outcome (getsyspath (local_fs da) filepath); body content p) w.
Proof.
  intros Hc. unfold get. rewrite bind_run. cbn [get_store].
  rewrite (ref_exists_file _ _ _ _ Hc). cbn [negb].
  rewrite bind_run. cbn [mret Py_ret].
  rewrite bind_run. rewrite (ref_read_file _ _ _ _ Hc). reflexivity.
Qed.

(** C6 (as the code has it). The check for a local copy is in [get]:
    once a call of [get] for a path has returned, a second call for the
    same path returns the same local path and leaves the world as it
    is: nothing is transferred, nothing printed. *)
Theorem second_get_transfers_nothing
    (da : DataAccess) (filepath local_path : string) (w w1 : World) :
  get da filepath (λ _ p, mret p) w = (Return local_path, w1) ->
  get da filepath (λ _ p, mret p) w1 = (Return local_path, w1).
Proof.
  intros Hfirst. unfold get in Hfirst.
  rewrite bind_run in Hfirst. cbn [get_store] in Hfirst.
  apply bind_return_inv in Hfirst as ([] & wc & _ & Hrest).
  apply bind_return_inv in Hrest as (content & wc' & Hread & Hrest).
  apply ref_read_inv in Hread as (-> & Hc).
  apply bind_return_inv in Hrest as (p & wc' & Hpath & Hret).
  apply lift_outcome_inv in Hpath as (-> & Hpath).
  cbn in Hret. injection Hret as -> ->.
  rewrite (get_of_local_file da filepath content _ _ Hc).
  rewrite Hpath. reflexivity.
Qed.

(** ** The two digests *)



(** ** The checksum of the shared volume *)

Lemma iterate_fs_LocalDataAccess (root : string) :
  iterate_fs (fs (LocalDataAccess root))
  = [("local_fs", OpenFS (OSFS root)); ("profile_fs", OpenFS (AzBlob "profiles"))].
Proof. reflexivity. Qed.

Lemma which_LocalDataAccess_local (root path : string) (data : bytes) (st : Store) :
  files (fs_of st (OSFS root)) !! path = Some data ->
  which (fs (LocalDataAccess root)) path st = Some ("local_fs", OpenFS (OSFS root)).
Proof.
  intros E. unfold which. rewrite iterate_fs_LocalDataAccess. cbn [find snd].
  unfold ref_exists, fs_exists, ref_fs. cbn [ref_key delegate_path].
  rewrite (isfile_lookup _ _ _ E). reflexivity.
Qed.

Lemma local_checksum_runs (root path : string) (data : bytes) (w : World) :
  files (fs_of (store w) (OSFS root)) !! path = Some data ->
  DataAccess_checksum (LocalDataAccess root) path w
  = (Return (Digest.sha256_hexdigest data), w).
Proof.
  intros E. unfold DataAccess_checksum, obj_read.
  rewrite bind_run, bind_run. cbn [reader]. rewrite bind_run. cbn [get_store].
  rewrite (which_LocalDataAccess_local _ _ _ _ E). cbn [mret Py_ret].
  rewrite (ref_read_file _ _ data) by exact E. reflexivity.
Qed.


End Properties.

(* ===================================================================== *)
(** * The properties on the small installation *)
(* ===================================================================== *)

Section OnDemo.
Import Demo.

Lemma write_existing_path_is_rejected_on_demo :
  ∃ location,
    write Demo.da "grid.pkl" Demo.payload true None Demo.world
    = (Raise (OSError ("grid.pkl" ++ " already exists on " ++ location)), Demo.world).
Proof.
  apply (write_existing_path_is_rejected Demo.da "grid.pkl" Demo.payload true None
           "ssh_fs" (WrapSSHFS SSHHost "/mnt/bes/pcm") Demo.world).
  - vm_compute. left. reflexivity.
  - vm_compute. reflexivity.
Defined.

Lemma remove_declined_deletes_nothing_on_demo :
  ∃ w', remove Demo.da "*.pkl" true Demo.world = (Return tt, w')
        ∧ store w' = store Demo.world
        ∧ fs_ops (journal w') = fs_ops (journal Demo.world)
        ∧ printed (journal w') = "Operation cancelled." :: printed (journal Demo.world).
Proof.
  apply (remove_declined_deletes_nothing Demo.da "*.pkl" "n" [] Demo.world).
  - reflexivity.
  - vm_compute. discriminate.
Defined.

Lemma write_unknown_extension_leaves_empty_file_on_demo :
  ∃ w',
    write Demo.da "a/b/new.txt" Demo.payload true None Demo.world
    = (Raise (ValueError "Unknown extension! txt"), w')
    ∧ ref_content (store w') (WrapSSHFS SSHHost "/mnt/bes/pcm") "a/b/new.txt" = Some []
    ∧ isdir (fs_of (store w') SSHHost) "/mnt/bes/pcm/a/b" = true
    ∧ fs_ops (journal w')
      = [OpenW SSHHost "/mnt/bes/pcm/a/b/new.txt"; Makedirs SSHHost "/mnt/bes/pcm/a/b"].
Proof.
  apply (write_unknown_extension_leaves_empty_file Demo.da "a/b/new.txt" Demo.payload true
           (WrapSSHFS SSHHost "/mnt/bes/pcm") Demo.world).
  - vm_compute. reflexivity.
  - vm_compute. discriminate.
  - vm_compute. discriminate.
  - vm_compute. discriminate.
  - reflexivity.
  - vm_compute. reflexivity.
Defined.

Lemma write_overwrites_local_only_copy_on_demo :
  _check_file_exists Demo.da "edit.pkl" false Demo.world = (Return tt, Demo.world)
  ∧ ∃ w',
      write Demo.da "edit.pkl" Demo.payload true None Demo.world = (Return tt, w')
      ∧ ref_content (store w') (local_fs Demo.da) "edit.pkl" = Some [x80; x05]
      ∧ ref_content (store w') (WrapSSHFS SSHHost "/mnt/bes/pcm") "edit.pkl"
        = Some [x80; x05].
Proof.
  apply (write_overwrites_local_only_copy (setup := Demo.setup) (codec := Demo.codec) "/mnt/bes/pcm" "edit.pkl" Demo.payload None
           [x03] [x80; x05] Demo.world).
  - vm_compute. reflexivity.
  - vm_compute. reflexivity.
  - vm_compute. reflexivity.
  - vm_compute. reflexivity.
  - vm_compute. reflexivity.
Defined.


Lemma push_with_current_checksum_installs_nothing_on_demo :
  ∃ w',
    push Demo.da "edit.pkl"
      "0ca623e2855f2c75c842ad302fe820e41b4d197d  /mnt/bes/pcm/grid.pkl" "grid.pkl"
      Demo.world
    = (Raise (AttributeError "'MultiFS' object has no attribute 'exec_command'"), w')
    ∧ files (fs_of (store w') SSHHost) !! "/mnt/bes/pcm/grid.pkl" = Some [x01; x02]
    ∧ files (fs_of (store w') SSHHost) !! "/mnt/bes/pcm/grid.pkl~" = None
    ∧ files (fs_of (store w') SSHHost) !! "/mnt/bes/pcm/grid.pkl.temp" = Some [x03]
    ∧ files (fs_of (store w') (OSFS "/home/user/ScenarioData")) !! "edit.pkl" = None.
Proof.
  apply (push_with_current_checksum_installs_nothing (setup := Demo.setup)
           "/mnt/bes/pcm" "edit.pkl"
           "0ca623e2855f2c75c842ad302fe820e41b4d197d  /mnt/bes/pcm/grid.pkl" "grid.pkl"
           [x03] [x01; x02] Demo.world).
  - vm_compute. reflexivity.
  - vm_compute. reflexivity.
  - vm_compute. reflexivity.
  - vm_compute. reflexivity.
  - vm_compute. reflexivity.
Defined.

Lemma push_with_stale_checksum_reports_no_conflict_on_demo :
  ∃ w',
    push Demo.da "edit.pkl" "an older checksum" "grid.pkl" Demo.world
    = (Raise (AttributeError "'MultiFS' object has no attribute 'exec_command'"), w')
    ∧ files (fs_of (store w') SSHHost) !! "/mnt/bes/pcm/grid.pkl" = Some [x01; x02]
    ∧ printed (journal w')
      = ("Transferring " ++ "grid.pkl" ++ " to server") :: printed (journal Demo.world).
Proof.
  apply (push_with_stale_checksum_reports_no_conflict (setup := Demo.setup)
           "/mnt/bes/pcm" "edit.pkl" "an older checksum" "grid.pkl"
           [x03] [x01; x02] Demo.world).
  - vm_compute. reflexivity.
  - vm_compute. reflexivity.
  - vm_compute. reflexivity.
  - vm_compute. discriminate.
  - vm_compute. reflexivity.
Defined.


Lemma copy_from_stages_before_it_moves_on_demo :
  ∃ w',
    copy_from Demo.da "grid.pkl" None Demo.world = (Return tt, w')
    ∧ ref_content (store w') (local_fs Demo.da) "grid.pkl" = Some [x01; x02]
    ∧ fs_ops (journal w')
      = [ TempClose;
          Remove TempDir "grid.pkl";
          Append (OSFS "/home/user/ScenarioData") "grid.pkl";
          OpenW (OSFS "/home/user/ScenarioData") "grid.pkl";
          Append TempDir "grid.pkl"; OpenW TempDir "grid.pkl";
          Makedirs TempDir ""; Makedirs (OSFS "/home/user/ScenarioData") "";
          TempOpen ]
    ∧ copy_from Demo.da "absent.pkl" None Demo.world
      = (Raise (OSError
           "absent.pkl not found on any of ['ssh_fs', 'profile_fs', 'scenario_fs']"),
         Demo.world).
Proof.
  set (w' := (copy_from Demo.da "grid.pkl" None Demo.world).2).
  assert (Hrun : copy_from Demo.da "grid.pkl" None Demo.world = (Return tt, w')).
  { assert (E : (copy_from Demo.da "grid.pkl" None Demo.world).1 = Return tt)
      by (vm_compute; reflexivity).
    rewrite <- E. apply surjective_pairing. }
  exists w'.
  destruct (copy_from_stages_before_it_moves Demo.da "grid.pkl" None Demo.world)
    as [_ Hstaged].
  { apply (bool_decide_unpack _). vm_compute. exact I. }
  destruct (copy_from_stages_before_it_moves Demo.da "absent.pkl" None Demo.world)
    as [Hmissing _].
  { apply (bool_decide_unpack _). vm_compute. exact I. }
  destruct (Hstaged w' Hrun)
    as (from_path & name & h & data & s1 & s2 & s3 & s4 & s5 & s6 & s7 & s8 &
        Hj & Hw & Hdata & _ & _ & _ & _ & _ & _ & _ & _ & _ & Hfinal).
  vm_compute in Hj. injection Hj as <-.
  vm_compute in Hw. injection Hw as <- <-.
  vm_compute in Hdata. injection Hdata as <-.
  split; [exact Hrun|]. split; [exact Hfinal|].
  split; [vm_compute; reflexivity|].
  apply (Hmissing "absent.pkl"); vm_compute; reflexivity.
Defined.

Lemma second_get_transfers_nothing_on_demo :
  let w1 := (get Demo.da "grid.pkl" (λ _ p, mret p) Demo.world).2 in
  get Demo.da "grid.pkl" (λ _ p, mret p) w1
  = (Return "/home/user/ScenarioData/grid.pkl", w1).
Proof.
  intros w1.
  apply (second_get_transfers_nothing Demo.da "grid.pkl"
           "/home/user/ScenarioData/grid.pkl" Demo.world w1).
  assert (E : (get Demo.da "grid.pkl" (λ _ p, mret p) Demo.world).1
              = Return "/home/user/ScenarioData/grid.pkl") by (vm_compute; reflexivity).
  rewrite <- E. apply surjective_pairing.
Defined.


(** ** Where the code departs from the wording *)

(** Against C5 as worded: the move that ends [copy_from] writes at the
    final path of the local filesystem.  Between the step that opens
    that path and the step that fills it, the local filesystem shows
    the file [grid.pkl] with no bytes, where the file has two. *)
Lemma copy_from_opens_the_local_path_empty :
  ∃ w',
    copy_from Demo.da "grid.pkl" None Demo.world = (Return tt, w')
    ∧ ref_content (store Demo.world) (WrapSSHFS SSHHost "/mnt/bes/pcm") "grid.pkl"
      = Some [x01; x02]
    ∧ map (λ s, ref_content s (local_fs Demo.da) "grid.pkl") (snapshots (journal w'))
      = [ Some [x01; x02]; Some [x01; x02]; Some [x01; x02]; Some [];
          None; None; None; None; None ]
    ∧ nth_error (fs_ops (journal w')) 3
      = Some (OpenW (OSFS "/home/user/ScenarioData") "grid.pkl").
Proof.
  exists (copy_from Demo.da "grid.pkl" None Demo.world).2.
  split.
  { assert (E : (copy_from Demo.da "grid.pkl" None Demo.world).1 = Return tt)
      by (vm_compute; reflexivity).
    rewrite <- E. apply surjective_pairing. }
  split; [vm_compute; reflexivity|].
  split; vm_compute; reflexivity.
Qed.

(** Against C6 as worded: [copy_from] does not look at the local
    filesystem.  Called again for a file that the first call has put
    there, it transfers the file once more, through the staging area,
    and it returns nothing. *)
Lemma copy_from_twice_transfers_twice :
  ∃ w1 w2,
    copy_from Demo.da "grid.pkl" None Demo.world = (Return tt, w1)
    ∧ ref_content (store w1) (local_fs Demo.da) "grid.pkl" = Some [x01; x02]
    ∧ copy_from Demo.da "grid.pkl" None w1 = (Return tt, w2)
    ∧ fs_ops (journal w2)
      = ([ TempClose;
           Remove TempDir "grid.pkl";
           Append (OSFS "/home/user/ScenarioData") "grid.pkl";
           OpenW (OSFS "/home/user/ScenarioData") "grid.pkl";
           Append TempDir "grid.pkl"; OpenW TempDir "grid.pkl";
           Makedirs TempDir ""; Makedirs (OSFS "/home/user/ScenarioData") "";
           TempOpen ] ++ fs_ops (journal w1))%list
    ∧ printed (journal w2)
      = "Transferring grid.pkl from ssh_fs" :: printed (journal w1).
Proof.
  exists (copy_from Demo.da "grid.pkl" None Demo.world).2.
  exists (copy_from Demo.da "grid.pkl" None
            (copy_from Demo.da "grid.pkl" None Demo.world).2).2.
  split.
  { assert (E : (copy_from Demo.da "grid.pkl" None Demo.world).1 = Return tt)
      by (vm_compute; reflexivity).
    rewrite <- E. apply surjective_pairing. }
  split; [vm_compute; reflexivity|].
  split.
  { assert (E : (copy_from Demo.da "grid.pkl" None
                   (copy_from Demo.da "grid.pkl" None Demo.world).2).1 = Return tt)
      by (vm_compute; reflexivity).
    rewrite <- E. apply surjective_pairing. }
  split; vm_compute; reflexivity.
Qed.


End OnDemo.

(* ===================================================================== *)
(** * Further properties

    What the operations leave alone, how they fail, and how they
    compose; then the dictionaries of the import module and the states
    of a scenario. *)
(* ===================================================================== *)

(** Inclusion of one explicit list of keys in another. *)
Ltac list_incl :=
  let x := fresh "x" in
  let H := fresh "H" in
  intros x H;
  repeat first [ rewrite elem_of_app in * | rewrite elem_of_cons in *
               | rewrite elem_of_nil in * ];
  tauto.

Section Frames.

(** ** What a computation leaves alone *)

Lemma touches_weaken {A : Type} (ks ks' : list FsKey) (m : Py A) :
  ks ⊆ ks' -> touches_only ks m -> touches_only ks' m.
Proof.
  intros Hsub Hm w r w' E k Hk. apply (Hm w r w' E). intros Hin. apply Hk, Hsub, Hin.
Qed.

Lemma touches_nothing {A : Type} (ks : list FsKey) (m : Py A) :
  (∀ w, store (m w).2 = store w) -> touches_only ks m.
Proof. intros Hm w r w' E k _. specialize (Hm w). rewrite E in Hm. cbn in Hm. rewrite Hm. reflexivity. Qed.

Lemma touches_ret {A : Type} (ks : list FsKey) (a : A) : touches_only ks (mret a : Py A).
Proof. apply touches_nothing. reflexivity. Qed.

Lemma touches_raise {A : Type} (ks : list FsKey) (e : exn) : touches_only ks (raise e : Py A).
Proof. apply touches_nothing. reflexivity. Qed.

Lemma touches_print (ks : list FsKey) (msg : string) : touches_only ks (print msg).
Proof. apply touches_nothing. reflexivity. Qed.

Lemma touches_get_store (ks : list FsKey) : touches_only ks get_store.
Proof. apply touches_nothing. reflexivity. Qed.

Lemma touches_lift {A : Type} (ks : list FsKey) (o : outcome A) :
  touches_only ks (lift_outcome o).
Proof. apply touches_nothing. destruct o; reflexivity. Qed.

Lemma touches_bind {A B : Type} (ks : list FsKey) (m : Py A) (f : A -> Py B) :
  touches_only ks m -> (∀ a, touches_only ks (f a)) -> touches_only ks (m ≫= f).
Proof.
  intros Hm Hf w r w' E k Hk. rewrite bind_run in E.
  destruct (m w) as [[a|e] w1] eqn:Em.
  - rewrite (Hf a w1 r w' E k Hk). apply (Hm w _ w1 Em k Hk).
  - injection E as <- <-. apply (Hm w _ w1 Em k Hk).
Qed.

Lemma touches_on_fs (k : FsKey) (op : FsOp) (step : FS -> outcome FS) :
  touches_only [k] (on_fs k op step).
Proof.
  intros w r w' E k' Hk'. unfold on_fs in E. rewrite bind_run in E. cbn [get_store] in E.
  rewrite bind_run in E. destruct (step (fs_of (store w) k)) as [f|e]; cbn in E.
  - injection E as <- <-. cbn. apply lookup_insert_ne. intros Heq. apply Hk'. rewrite Heq. left.
  - injection E as <- <-. reflexivity.
Qed.

Lemma touches_reader (ks : list FsKey) (o : FSObj) (path : string) :
  touches_only ks (reader o path).
Proof.
  apply touches_nothing. intros w. destruct o as [h|m]; [reflexivity|].
  cbn. rewrite bind_run. cbn. destruct (which m path (store w)) as [[? ?]|]; reflexivity.
Qed.

Lemma touches_writer (ks : list FsKey) (o : FSObj) (path : string) :
  touches_only ks (writer o path).
Proof.
  apply touches_nothing. intros w. unfold writer. destruct (target o); reflexivity.
Qed.

Lemma touches_ref_read (ks : list FsKey) (h : FsRef) (path : string) :
  touches_only ks (ref_read h path).
Proof.
  apply touches_bind; [apply touches_get_store | intros st; apply touches_lift].
Qed.

Lemma touches_obj_read (ks : list FsKey) (o : FSObj) (path : string) :
  touches_only ks (obj_read o path).
Proof.
  apply touches_bind; [apply touches_reader | intros h; apply touches_ref_read].
Qed.

(** The filesystem an object as the library takes them writes to. *)
Lemma touches_via_writer {A : Type} (o : FSObj) (path : string) (f : FsRef -> Py A)
    (ks : list FsKey) :
  (∀ h, target o = Some h -> touches_only ks (f h)) ->
  touches_only ks (h ← writer o path; f h).
Proof.
  intros Hf w r w' E k Hk. rewrite bind_run in E. unfold writer in E.
  destruct (target o) as [h|] eqn:Ht; cbn in E.
  - apply (Hf h eq_refl w r w' E k Hk).
  - injection E as <- <-. reflexivity.
Qed.


Lemma touches_obj_step (o : FSObj) (path : string) (f : FsRef -> Py unit) :
  (∀ h, touches_only [ref_key h] (f h)) ->
  touches_only (target_keys o) (h ← writer o path; f h).
Proof.
  intros Hf. apply touches_via_writer. intros h Ht. unfold target_keys. rewrite Ht. apply Hf.
Qed.

Lemma touches_obj_makedirs (o : FSObj) (path : string) :
  touches_only (target_keys o) (obj_makedirs o path).
Proof. apply touches_obj_step. intros h. apply touches_on_fs. Qed.

Lemma touches_obj_open_w (o : FSObj) (path : string) :
  touches_only (target_keys o) (obj_open_w o path).
Proof. apply touches_obj_step. intros h. apply touches_on_fs. Qed.

Lemma touches_obj_append (o : FSObj) (path : string) (data : bytes) :
  touches_only (target_keys o) (obj_append o path data).
Proof. apply touches_obj_step. intros h. apply touches_on_fs. Qed.

Lemma touches_obj_remove (o : FSObj) (path : string) :
  touches_only (reach_keys o) (obj_remove o path).
Proof.
  intros w r w' E k Hk. unfold obj_remove in E. rewrite bind_run in E.
  destruct (reader o path w) as [[h|e] w1] eqn:Er.
  - assert (Hin : ref_key h ∈ reach_keys o).
    { destruct o as [h'|m].
      - apply reader_inv in Er as (_ & ->). left.
      - apply reader_inv in Er as (_ & name & Hw). unfold which in Hw.
        apply find_some in Hw as [Hin _]. cbn [reach_keys].
        apply list_elem_of_In. apply in_map_iff. exists (name, h).
        split; [reflexivity | exact Hin]. }
    rewrite <- (touches_reader [] o path w _ _ Er k) by apply not_elem_of_nil.
    apply (touches_on_fs _ _ _ w1 r w' E).
    intros Hk'. apply list_elem_of_singleton in Hk'. subst k. exact (Hk Hin).
  - injection E as <- <-.
    apply (touches_reader [] o path w _ _ Er k). apply not_elem_of_nil.
Qed.

Lemma touches_copy_file (src dst : FSObj) (sp dp : string) :
  touches_only (target_keys dst) (copy_file src sp dst dp).
Proof.
  unfold copy_file. apply touches_bind; [apply touches_get_store | intros st].
  destruct (hassyspath dst dp st).
  - apply touches_bind; [apply touches_obj_open_w | intros _].
    apply touches_bind; [apply touches_obj_read | intros data].
    apply touches_obj_append.
  - apply touches_bind; [apply touches_obj_read | intros data].
    apply touches_bind; [apply touches_obj_open_w | intros _].
    apply touches_obj_append.
Qed.

Lemma touches_move_file (src dst : FSObj) (sp dp : string) :
  touches_only (reach_keys src ++ target_keys dst) (move_file src sp dst dp).
Proof.
  unfold move_file. apply touches_bind.
  - eapply touches_weaken; [|apply touches_copy_file]. list_incl.
  - intros _. eapply touches_weaken; [|apply touches_obj_remove]. list_incl.
Qed.

Lemma touches_with_TempFS {A : Type} (ks : list FsKey) (body : FsRef -> Py A) :
  touches_only ks (body (OpenFS TempDir)) ->
  touches_only (TempDir :: ks) (with_TempFS body).
Proof.
  intros Hb w r w' E k Hk. unfold with_TempFS in E. cbn [commit] in E.
  destruct (body (OpenFS TempDir) _) as [r2 w2] eqn:Eb.
  injection E as <- <-. cbn [store stepped].
  rewrite lookup_delete_ne by (intros Heq; apply Hk; rewrite <- Heq; left).
  rewrite (Hb _ _ _ Eb k) by (intros Hin; apply Hk; right; exact Hin).
  cbn [store stepped]. apply lookup_insert_ne. intros Heq. apply Hk. rewrite <- Heq. left.
Qed.

End Frames.

Section FacadeFrames.
Context `{setup : ServerSetup} `{codec : Codec} `{shell : SshBackend}.

Lemma touches_check (ks : list FsKey) (da : DataAccess) (path : string) (b : bool) :
  touches_only ks (_check_file_exists da path b).
Proof.
  apply touches_nothing. intros w. unfold _check_file_exists. rewrite bind_run.
  cbn [get_store]. destruct (_ && _); [reflexivity|]. destruct (_ && _); reflexivity.
Qed.

Lemma touches__write (o : FSObj) (filepath : string) (data : Data) (callback : Callback) :
  touches_only (target_keys o) (_write o filepath data callback).
Proof.
  unfold _write.
  apply touches_bind; [apply touches_obj_makedirs | intros _].
  apply touches_bind; [apply touches_obj_open_w | intros _].
  destruct (callback filepath data) as [out err].
  apply touches_bind.
  - destruct out; [apply touches_ret | apply touches_obj_append].
  - intros _. destruct err; [apply touches_raise | apply touches_ret].
Qed.

Lemma touches_write (da : DataAccess) (filepath : string) (data : Data)
    (save_local : bool) (callback : option Callback) :
  touches_only (target_keys (Multi (fs da))
                ++ (if save_local then [ref_key (local_fs da)] else []))
    (write da filepath data save_local callback).
Proof.
  unfold write.
  apply touches_bind; [apply touches_check | intros _].
  apply touches_bind; [apply touches_print | intros _].
  apply touches_bind.
  - eapply touches_weaken; [|apply touches__write]. list_incl.
  - intros _. destruct save_local; [|apply touches_ret].
    eapply touches_weaken; [|apply touches__write]. cbn. list_incl.
Qed.

Lemma touches_copy_from (da : DataAccess) (file_name : string) (from_dir : option string) :
  touches_only [TempDir; ref_key (local_fs da)] (copy_from da file_name from_dir).
Proof.
  unfold copy_from.
  apply touches_bind.
  { unfold join. destruct (Path.join _ _); [apply touches_ret | apply touches_raise]. }
  intros from_path.
  apply touches_bind; [apply touches_check | intros _].
  apply touches_bind; [apply touches_get_store | intros st].
  apply touches_bind; [apply touches_print | intros _].
  apply (touches_weaken (TempDir :: [TempDir; ref_key (local_fs da)])); [list_incl|].
  apply touches_with_TempFS.
  apply touches_bind.
  { eapply touches_weaken; [|apply touches_on_fs]. list_incl. }
  intros _. apply touches_bind.
  { eapply touches_weaken; [|apply touches_on_fs]. cbn. list_incl. }
  intros _. apply touches_bind.
  { eapply touches_weaken; [|apply touches_copy_file]. cbn. list_incl. }
  intros _. eapply touches_weaken; [|apply touches_move_file]. cbn. list_incl.
Qed.

Lemma touches_print_all (ks : list FsKey) (lines : list string) :
  touches_only ks (print_all lines).
Proof.
  induction lines as [|l lines IH]; cbn [print_all]; [apply touches_ret|].
  apply touches_bind; [apply touches_print | intros _; exact IH].
Qed.

Lemma touches_SSH_push (da : DataAccess) (file_name checksum rename : string) :
  touches_only (ref_key (local_fs da) :: target_keys (Multi (fs da)))
    (SSHDataAccess_push da file_name checksum rename).
Proof.
  unfold SSHDataAccess_push.
  apply touches_bind; [apply touches_check | intros _].
  apply touches_bind; [apply touches_print | intros _].
  apply touches_bind.
  { eapply touches_weaken; [|apply touches_move_file]. cbn. list_incl. }
  intros _. apply touches_bind; [apply touches_raise|].
  intros errors. destruct (_ <? _)%nat; [|apply touches_ret].
  apply touches_bind; [apply touches_print_all | intros _; apply touches_raise].
Qed.

End FacadeFrames.

(** ** The order of the priority store *)

Section Priority.
















End Priority.

Section Untouched.
Context `{setup : ServerSetup} `{codec : Codec} `{shell : SshBackend}.

Lemma touches_only_run {A : Type} (ks : list FsKey) (m : Py A) (w : World) (k : FsKey) :
  touches_only ks m -> k ∉ ks -> store (m w).2 !! k = store w !! k.
Proof. intros Hm Hk. destruct (m w) as [r w'] eqn:E. apply (Hm w r w' E k Hk). Qed.

(** X2. Remote-shell variant, with the server or without it: [write],
    [copy_from] and [push] never change a blob container, however
    they end. *)
Theorem blob_containers_are_never_written
    (root : string) (da : DataAccess) (container : string) (w : World) :
  da = remote_shell root ∨ da = object_store_only root ->
  (∀ filepath data save_local callback,
     store (write da filepath data save_local callback w).2 !! AzBlob container
     = store w !! AzBlob container)
  ∧ (∀ file_name from_dir,
       store (copy_from da file_name from_dir w).2 !! AzBlob container
       = store w !! AzBlob container)
  ∧ (∀ file_name checksum rename,
       store (push da file_name checksum rename w).2 !! AzBlob container
       = store w !! AzBlob container).
Proof.
  intros Hda. repeat split.
  - intros filepath data save_local callback.
    apply (touches_only_run _ _ _ _ (touches_write da _ _ _ _)).
    destruct Hda as [-> | ->]; destruct save_local; cbn;
      repeat first [ rewrite elem_of_app | rewrite elem_of_cons | rewrite elem_of_nil ];
      intros H; repeat destruct H as [H|H]; try discriminate H; exact H.
  - intros file_name from_dir.
    apply (touches_only_run _ _ _ _ (touches_copy_from da _ _)).
    destruct Hda as [-> | ->]; cbn;
      repeat first [ rewrite elem_of_app | rewrite elem_of_cons | rewrite elem_of_nil ];
      intros H; repeat destruct H as [H|H]; try discriminate H; exact H.
  - intros file_name sum rename.
    assert (Hp : push da file_name sum rename
                 = SSHDataAccess_push da file_name sum rename)
      by (destruct Hda as [-> | ->]; reflexivity).
    rewrite Hp.
    apply (touches_only_run _ _ _ _ (touches_SSH_push da _ _ _)).
    destruct Hda as [-> | ->]; cbn;
      repeat first [ rewrite elem_of_app | rewrite elem_of_cons | rewrite elem_of_nil ];
      intros H; repeat destruct H as [H|H]; try discriminate H; exact H.
Qed.


Lemma copy_from_leaves_no_temp (da : DataAccess) (file_name : string)
    (from_dir : option string) (w : World) :
  store w !! TempDir = None ->
  store (copy_from da file_name from_dir w).2 !! TempDir = None.
Proof.
  intros Hno. unfold copy_from, join.
  destruct (Path.join _ _) as [from_path|]; [|exact Hno].
  rewrite bind_run. cbn [mret Py_ret]. rewrite bind_run.
  destruct (_check_file_exists da from_path true w) as [[[]|e] w1] eqn:Ec.
  - rewrite bind_run. cbn [get_store]. rewrite bind_run. cbn [print].
    unfold with_TempFS. cbn [commit].
    destruct (_ ≫= _) as [r w2]. cbn [snd store stepped]. apply lookup_delete_eq.
  - cbn [snd].
    rewrite (touches_check [] da from_path true w _ _ Ec TempDir) by apply not_elem_of_nil.
    exact Hno.
Qed.

(** X3. [copy_from] changes no filesystem but the local one, and the
    temporary filesystem it stages the file in is gone when it is done,
    whether it returns or raises. *)
Theorem copy_from_changes_only_the_local_filesystem
    (da : DataAccess) (file_name : string) (from_dir : option string) (w : World)
    (k : FsKey) :
  store w !! TempDir = None ->
  k ≠ ref_key (local_fs da) ->
  store (copy_from da file_name from_dir w).2 !! k = store w !! k.
Proof.
  intros Hno Hk. destruct (decide (k = TempDir)) as [->|Hne].
  - rewrite Hno. apply copy_from_leaves_no_temp. exact Hno.
  - apply (touches_only_run _ _ _ _ (touches_copy_from da _ _)).
    repeat first [ rewrite elem_of_cons | rewrite elem_of_nil ]. tauto.
Qed.

(** X4. With [save_local=False], [write] changes no filesystem but the
    one the priority store writes to, however it ends: the local
    filesystem of the remote-shell variant stays as it is. *)
Theorem write_without_save_local_changes_only_the_store
    (da : DataAccess) (filepath : string) (data : Data) (callback : option Callback)
    (w : World) (k : FsKey) :
  k ∉ target_keys (Multi (fs da)) ->
  store (write da filepath data false callback w).2 !! k = store w !! k.
Proof.
  intros Hk. apply (touches_only_run _ _ _ _ (touches_write da _ _ false _)).
  rewrite app_nil_r. exact Hk.
Qed.

(** ** Without the server *)

Lemma SSHDataAccess_offline (root : string) (w : World) :
  ssh_up w = false ->
  SSHDataAccess root w
  = (Return (object_store_only root),
     record (Printed "Could not connect to ssh server") w).
Proof.
  intros Hup. unfold SSHDataAccess. rewrite bind_run.
  unfold get_multi_fs, get_ssh_fs. rewrite Hup. reflexivity.
Qed.

(** X5. When the server does not answer, [SSHDataAccess] is still
    built, says so, and has nothing to write to: [write] of a path that
    the blob containers do not have raises [ResourceReadOnly] and
    changes no filesystem, the local one included. *)
Theorem offline_store_refuses_writes
    (root filepath : string) (data : Data) (save_local : bool)
    (callback : option Callback) (w : World) :
  ssh_up w = false ->
  which (fs (object_store_only root)) filepath (store w) = None ->
  ∃ da w1,
    SSHDataAccess root w = (Return da, w1)
    ∧ printed (journal w1) = "Could not connect to ssh server" :: printed (journal w)
    ∧ write_fs (fs da) = None
    ∧ ∃ w2,
        write da filepath data save_local callback w1
        = (Raise (ResourceReadOnly (Path.dirname filepath)), w2)
        ∧ store w2 = store w.
Proof.
  intros Hup Habs. exists (object_store_only root).
  exists (record (Printed "Could not connect to ssh server") w).
  split; [apply SSHDataAccess_offline, Hup|].
  split; [reflexivity|]. split; [reflexivity|].
  unfold write.
  rewrite (bind_returns _ _ _ _ _
             (check_absent_passes (object_store_only root) filepath
                (record (Printed "Could not connect to ssh server") w) Habs)).
  rewrite bind_run. cbn [print]. rewrite bind_run.
  unfold _write. rewrite bind_run. unfold obj_makedirs. rewrite bind_run.
  cbn. eexists. split; reflexivity.
Qed.

(** X6. When the server does not answer, [push] raises
    [ResourceReadOnly] and the file stays in the local filesystem:
    nothing is changed. *)
Theorem offline_push_keeps_the_local_file
    (root file_name checksum rename : string) (new : bytes) (w : World) :
  let da := object_store_only root in
  files (fs_of (store w) (OSFS LOCAL_DIR)) !! file_name = Some new ->
  which (fs da) (rename ++ ".temp") (store w) = None ->
  ∃ w',
    push da file_name checksum rename w
    = (Raise (ResourceReadOnly (rename ++ ".temp")), w')
    ∧ store w' = store w.
Proof.
  intros da Hlocal Hfree.
  change (push da file_name checksum rename w)
    with (SSHDataAccess_push da file_name checksum rename w).
  unfold SSHDataAccess_push.
  rewrite (bind_returns _ _ _ _ _ (check_absent_passes _ _ _ Hfree)).
  rewrite bind_run. cbn [print]. rewrite bind_run.
  unfold move_file. rewrite bind_run.
  unfold copy_file. rewrite bind_run. cbn [get_store].
  cbn [hassyspath store record]. rewrite Hfree.
  rewrite bind_run.
  unfold obj_read. rewrite bind_run. cbn [reader mret Py_ret].
  rewrite (ref_read_file (local_fs da) file_name new) by exact Hlocal.
  rewrite bind_run. cbn. eexists. split; reflexivity.
Qed.

End Untouched.

Section Fetching.
Context `{setup : ServerSetup} `{codec : Codec} `{shell : SshBackend}.

Lemma find_ext_in {A : Type} (P Q : A -> bool) (l : list A) :
  (∀ x, In x l -> P x = Q x) -> find P l = find Q l.
Proof.
  induction l as [|a l IH]; cbn; intros H; [reflexivity|].
  rewrite (H a) by (left; reflexivity). destruct (Q a); [reflexivity|].
  apply IH. intros x Hx. apply H. right. exact Hx.
Qed.

(** [which] only looks at the members of the store. *)
Lemma which_same_members (m : MultiFS) (path : string) (st st' : Store) :
  (∀ nf, In nf (iterate_fs m) -> ref_fs st' nf.2 = ref_fs st nf.2) ->
  which m path st' = which m path st.
Proof.
  intros H. unfold which. apply find_ext_in. intros nf Hin.
  unfold ref_exists. rewrite (H nf Hin). reflexivity.
Qed.

Lemma with_TempFS_run {A : Type} (body : FsRef -> Py A) (w : World) (r : outcome A)
    (w2 : World) :
  body (OpenFS TempDir) (stepped TempOpen (<[TempDir := empty_fs]> (store w)) w) = (r, w2) ->
  with_TempFS body w = (r, stepped TempClose (delete TempDir (store w2)) w2).
Proof. intros E. unfold with_TempFS. cbn [commit]. rewrite E. reflexivity. Qed.

(** What [copy_from] does when the file is in the store and both the
    staging area and the local filesystem can take it, for an object
    whose local filesystem is not a member of its store. *)
Lemma copy_from_runs (da : DataAccess) (file_name : string) (from_dir : option string)
    (from_path name : string) (h : FsRef) (data : bytes) (w : World) :
  let dir := default "" from_dir in
  let loc := local_fs da in
  Path.join dir file_name = Some from_path ->
  which (fs da) from_path (store w) = Some (name, h) ->
  ref_content (store w) h from_path = Some data ->
  TempDir ∉ own_filesystems da ->
  ref_key loc ∉ map (λ nf, ref_key nf.2) (iterate_fs (fs da)) ->
  can_write (ref_fs (store w) loc) (delegate_path loc dir) (delegate_path loc from_path)
  = true ->
  can_write empty_fs dir from_path = true ->
  ∃ w',
    copy_from da file_name from_dir w = (Return tt, w')
    ∧ ref_content (store w') loc from_path = Some data
    ∧ printed (journal w')
      = ("Transferring " ++ file_name ++ " from " ++ name) :: printed (journal w)
    ∧ ∀ k, k ≠ ref_key loc -> k ≠ TempDir -> store w' !! k = store w !! k.
Proof.
  intros dir loc Hj Hw Hd Htemp Hsep Hl Ht.
  assert (Hloc : TempDir ≠ ref_key loc).
  { intros E. apply Htemp. unfold own_filesystems. fold loc. rewrite <- E. left. }
  assert (Hmem : ∀ nf, In nf (iterate_fs (fs da)) ->
                       TempDir ≠ ref_key nf.2 ∧ ref_key loc ≠ ref_key nf.2).
  { intros nf Hin. split; intros E.
    - apply Htemp. unfold own_filesystems. right. rewrite E.
      apply list_elem_of_In, in_map_iff. exists nf. split; [reflexivity|exact Hin].
    - apply Hsep. rewrite E.
      apply list_elem_of_In, in_map_iff. exists nf. split; [reflexivity|exact Hin]. }
  destruct (can_write_inv _ _ _ Hl) as (l1 & Hl1 & Hpl).
  destruct (can_write_inv _ _ _ Ht) as (t1 & Ht1 & Hpt).
  pose proof (fs_makedirs_files _ _ _ Hl1) as Hl1f.
  pose proof (fs_makedirs_files _ _ _ Ht1) as Ht1f. cbn [files empty_fs] in Ht1f.
  set (w0 := record (Printed ("Transferring " ++ file_name ++ " from " ++ name)) w).
  set (st0 := store w) in *.
  set (st1 := <[TempDir := empty_fs]> st0).
  set (w1 := stepped TempOpen st1 w0).
  set (st2 := <[ref_key loc := l1]> st1).
  set (w2 := stepped (Makedirs (ref_key loc) (delegate_path loc dir)) st2 w1).
  set (st3 := <[TempDir := t1]> st2).
  set (w3 := stepped (Makedirs TempDir dir) st3 w2).
  set (t2 := {| files := <[from_path := []]> (files t1); folders := folders t1 |}).
  set (st4 := <[TempDir := t2]> st3).
  set (w4 := stepped (OpenW TempDir from_path) st4 w3).
  set (t3 := fs_append t2 from_path data).
  set (st5 := <[TempDir := t3]> st4).
  set (w5 := stepped (Append TempDir from_path) st5 w4).
  (* the two makedirs *)
  assert (E2 : ref_makedirs loc dir w1 = (Return tt, w2)).
  { unfold ref_makedirs. apply on_fs_returns. cbn [store stepped w1].
    unfold st1. rewrite fs_of_insert_ne by exact Hloc. exact Hl1. }
  assert (E3 : ref_makedirs (OpenFS TempDir) dir w2 = (Return tt, w3)).
  { unfold ref_makedirs. apply on_fs_returns. cbn [store stepped w2 ref_key delegate_path].
    unfold st2, st1. rewrite fs_of_insert_ne by (intros E; apply Hloc; symmetry; exact E).
    rewrite fs_of_insert. exact Ht1. }
  (* the members of the store are as they were *)
  assert (Hsame : ∀ nf, In nf (iterate_fs (fs da)) -> ref_fs st3 nf.2 = ref_fs st0 nf.2).
  { intros nf Hin. destruct (Hmem nf Hin) as [Hn1 Hn2].
    unfold st3, st2, st1. rewrite ref_fs_insert_ne by exact Hn1.
    rewrite ref_fs_insert_ne by exact Hn2. apply ref_fs_insert_ne. exact Hn1. }
  assert (Hin : In (name, h) (iterate_fs (fs da))).
  { unfold which in Hw. apply find_some in Hw. apply Hw. }
  assert (E4 : copy_file (Multi (fs da)) from_path (One (OpenFS TempDir)) from_path w3
               = (Return tt, w5)).
  { assert (Hsame4 : ∀ nf, In nf (iterate_fs (fs da)) -> ref_fs st4 nf.2 = ref_fs st0 nf.2).
    { intros nf Hin'. destruct (Hmem nf Hin') as [Hn1 _].
      unfold st4. rewrite ref_fs_insert_ne by exact Hn1. apply Hsame, Hin'. }
    unfold copy_file. rewrite bind_run. cbn [get_store hassyspath ref_hassyspath].
    rewrite bind_run.
    unfold obj_open_w. rewrite bind_run. cbn [writer target mret Py_ret].
    unfold ref_open_w. cbn [ref_key delegate_path].
    rewrite (on_fs_returns _ _ _ t2).
    2:{ cbn [store stepped w3]. unfold st3. rewrite fs_of_insert.
        apply fs_open_w_places. exact Hpt. }
    cbn [store stepped w3]. fold st4 w4.
    unfold obj_read. rewrite bind_run, bind_run. cbn [reader].
    rewrite bind_run. cbn [get_store store stepped w4].
    rewrite (which_same_members _ _ st0 st4 Hsame4), Hw. cbn [mret Py_ret].
    rewrite (ref_read_file h from_path data).
    2:{ unfold ref_content. cbn [store stepped w4].
        pose proof (Hsame4 _ Hin) as Hh. cbn [snd] in Hh. rewrite Hh. exact Hd. }
    unfold obj_append. rewrite bind_run. cbn [writer target mret Py_ret].
    unfold ref_append. cbn [ref_key delegate_path].
    rewrite (on_fs_returns _ _ _ t3).
    2:{ cbn [store stepped w4]. unfold st4. rewrite fs_of_insert. reflexivity. }
    reflexivity. }
  (* the move *)
  assert (Hstaged : ref_content (store w5) (OpenFS TempDir) from_path = Some data).
  { unfold ref_content, ref_fs. cbn [store stepped w5 ref_key delegate_path].
    unfold st5. rewrite fs_of_insert. unfold t3, fs_append, t2. cbn [files].
    rewrite lookup_insert_eq, lookup_insert_eq. reflexivity. }
  assert (Hl5 : ref_fs (store w5) loc = l1).
  { unfold ref_fs. cbn [store stepped w5]. unfold st5, st4, st3.
    rewrite !fs_of_insert_ne by exact Hloc. unfold st2. apply fs_of_insert. }
  pose proof (move_file_runs (OpenFS TempDir) loc (One loc) from_path from_path data w5
                Hstaged eq_refl Hloc) as E5.
  rewrite Hl5 in E5. specialize (E5 Hpl). cbv zeta in E5.
  destruct (move_file (One (OpenFS TempDir)) from_path (One loc) from_path w5)
    as [r6 w6] eqn:E6. injection E5 as -> ->.
  eexists. split.
  { unfold copy_from, join. fold dir. rewrite Hj. rewrite bind_run. cbn [mret Py_ret].
    rewrite (bind_returns _ _ _ _ _ (check_present_passes _ _ _ _ _ Hw)).
    rewrite bind_run. cbn [get_store]. fold st0. rewrite Hw.
    cbn [fmap option_fmap option_map fst default].
    rewrite bind_run. cbn [print]. fold w0.
    apply with_TempFS_run. fold loc st0 st1 w1.
    rewrite (bind_returns _ _ _ _ _ E2), (bind_returns _ _ _ _ _ E3),
            (bind_returns _ _ _ _ _ E4).
    exact E6. }
  cbn [store stepped journal printed record w5 w4 w3 w2 w1 w0 ref_key delegate_path].
  split; [|split; [reflexivity|]].
  - unfold ref_content, ref_fs, fs_of. fold loc.
    rewrite lookup_delete_ne by exact Hloc.
    rewrite lookup_insert_ne by exact Hloc. rewrite lookup_insert_eq. cbn [default files].
    apply lookup_insert_eq.
  - intros k Hk1 Hk2.
    rewrite lookup_delete_ne by (intros E; apply Hk2; symmetry; exact E).
    rewrite lookup_insert_ne by (intros E; apply Hk2; symmetry; exact E).
    rewrite lookup_insert_ne by (intros E; apply Hk1; symmetry; exact E).
    unfold st5, st4, st3, st2, st1.
    rewrite !lookup_insert_ne;
      first [ reflexivity
            | intros E; apply Hk2; symmetry; exact E
            | intros E; apply Hk1; symmetry; exact E ].
Qed.

End Fetching.

Section GetAndWrite.
Context `{setup : ServerSetup} `{codec : Codec} `{shell : SshBackend}.

(** X7. With the file in the priority store, and a local filesystem
    that is not part of that store, [copy_from] returns: the local
    filesystem then holds the bytes of the member [which] names, the
    other filesystems are as they were, and the member is reported. *)
Theorem copy_from_fetches_from_the_owner
    (da : DataAccess) (file_name : string) (from_dir : option string)
    (from_path name : string) (h : FsRef) (data : bytes) (w : World) :
  Path.join (default "" from_dir) file_name = Some from_path ->
  which (fs da) from_path (store w) = Some (name, h) ->
  ref_content (store w) h from_path = Some data ->
  local_stands_alone da ->
  can_stage da (store w) (default "" from_dir) from_path = true ->
  ∃ w',
    copy_from da file_name from_dir w = (Return tt, w')
    ∧ ref_content (store w') (local_fs da) from_path = Some data
    ∧ printed (journal w')
      = ("Transferring " ++ file_name ++ " from " ++ name) :: printed (journal w)
    ∧ ∀ k, k ≠ ref_key (local_fs da) -> k ≠ TempDir -> store w' !! k = store w !! k.
Proof.
  intros Hj Hw Hd [Htemp Hsep] Hcan. apply andb_true_iff in Hcan as [Hl Ht].
  apply (copy_from_runs da file_name from_dir from_path name h data w); assumption.
Qed.

(** X8. [get] of a path that neither the local filesystem nor any
    member of the priority store has raises the not-found [OSError];
    the block of the caller is not run and no filesystem is changed. *)
Theorem get_of_absent_file_raises {A : Type}
    (da : DataAccess) (filepath from_path : string) (body : bytes -> string -> Py A)
    (w : World) :
  ref_exists (store w) (local_fs da) filepath = false ->
  Path.join (Path.dirname filepath) (Path.basename filepath) = Some from_path ->
  which (fs da) from_path (store w) = None ->
  get da filepath body w
  = (Raise (OSError (from_path ++ " not found on any of "
                       ++ repr_list (iterate_fs (fs da)).*1)),
     record (Printed (filepath ++ " not found on local machine")) w).
Proof.
  intros Hloc Hj Hw. unfold get. rewrite bind_run. cbn [get_store].
  rewrite Hloc. cbn [negb]. rewrite bind_run, bind_run. cbn [print].
  rewrite (copy_from_missing da _ _ from_path); [reflexivity | exact Hj | exact Hw].
Qed.

(** X9. [get] of a path that only the priority store has fetches it:
    the block of the caller is given the bytes of the member [which]
    names and the local path, and runs in a world where the local
    filesystem holds those bytes and the other filesystems are as they were. *)
Theorem get_fetches_a_missing_file {A : Type}
    (da : DataAccess) (filepath name local_path : string) (h : FsRef) (data : bytes)
    (body : bytes -> string -> Py A) (w : World) :
  ref_exists (store w) (local_fs da) filepath = false ->
  Path.join (Path.dirname filepath) (Path.basename filepath) = Some filepath ->
  which (fs da) filepath (store w) = Some (name, h) ->
  ref_content (store w) h filepath = Some data ->
  local_stands_alone da ->
  can_stage da (store w) (Path.dirname filepath) filepath = true ->
  getsyspath (local_fs da) filepath = Return local_path ->
  ∃ w',
    get da filepath body w = body data local_path w'
    ∧ ref_content (store w') (local_fs da) filepath = Some data
    ∧ (∀ k, k ≠ ref_key (local_fs da) -> k ≠ TempDir -> store w' !! k = store w !! k)
    ∧ printed (journal w')
      = ("Transferring " ++ Path.basename filepath ++ " from " ++ name)
        :: (filepath ++ " not found on local machine") :: printed (journal w).
Proof.
  intros Hloc Hj Hw Hd [Htemp Hsep] Hcan Hsys. apply andb_true_iff in Hcan as [Hl Ht].
  destruct (copy_from_runs da (Path.basename filepath) (Some (Path.dirname filepath))
              filepath name h data
              (record (Printed (filepath ++ " not found on local machine")) w)
              Hj Hw Hd Htemp Hsep Hl Ht) as (w' & Hrun & Hc & Hp & Hk).
  exists w'. split; [|split; [exact Hc|split; [exact Hk|exact Hp]]].
  unfold get. rewrite bind_run. cbn [get_store]. rewrite Hloc. cbn [negb].
  rewrite bind_run, bind_run. cbn [print]. rewrite Hrun.
  rewrite bind_run, (ref_read_file _ _ _ _ Hc).
  rewrite bind_run, Hsys. reflexivity.
Qed.

(** ** What a write leaves behind *)

Lemma _write_returns_inv (o : FSObj) (filepath : string) (data : Data)
    (callback : Callback) (w w' : World) :
  _write o filepath data callback w = (Return tt, w') ->
  ∃ h, target o = Some h
       ∧ (callback filepath data).2 = None
       ∧ ref_content (store w') h filepath = Some (callback filepath data).1.
Proof.
  unfold _write. intros E.
  apply bind_return_inv in E as ([] & w1 & Hmk & E).
  unfold obj_makedirs in Hmk. apply bind_return_inv in Hmk as (h & w0 & Hwr & Hmk).
  apply writer_inv in Hwr as (-> & Ht).
  apply on_fs_return_inv in Hmk as (f1 & Hf1 & ->).
  apply bind_return_inv in E as ([] & w2 & Hop & E).
  unfold obj_open_w in Hop. rewrite bind_run, (writer_target _ _ _ _ Ht) in Hop.
  apply on_fs_return_inv in Hop as (f2 & Hf2 & ->).
  cbn [store stepped] in Hf2. rewrite fs_of_insert in Hf2. apply fs_open_w_inv in Hf2 as ->.
  exists h. split; [exact Ht|].
  destruct (callback filepath data) as [out err]. cbn [fst snd].
  apply bind_return_inv in E as ([] & w3 & Hap & E).
  destruct err as [e|]; [discriminate E|]. injection E as <-.
  split; [reflexivity|].
  unfold ref_content, ref_fs. destruct out as [|b out].
  - injection Hap as <-. cbn [store stepped]. rewrite fs_of_insert. cbn [files].
    apply lookup_insert_eq.
  - unfold obj_append in Hap. rewrite bind_run, (writer_target _ _ _ _ Ht) in Hap.
    apply on_fs_return_inv in Hap as (f3 & Hf3 & ->).
    cbn [store stepped] in Hf3. rewrite fs_of_insert in Hf3. injection Hf3 as <-.
    cbn [store stepped]. rewrite fs_of_insert. unfold fs_append. cbn [files].
    rewrite lookup_insert_eq, lookup_insert_eq. reflexivity.
Qed.

Lemma keeps_files_same {A : Type} (m : Py A) :
  (∀ w, store (m w).2 = store w) -> keeps_files m.
Proof.
  intros Hm w r w' E k p H. specialize (Hm w). rewrite E in Hm. cbn in Hm.
  rewrite Hm. exact H.
Qed.

Lemma keeps_files_bind {A B : Type} (m : Py A) (f : A -> Py B) :
  keeps_files m -> (∀ a, keeps_files (f a)) -> keeps_files (m ≫= f).
Proof.
  intros Hm Hf w r w' E k p H. rewrite bind_run in E.
  destruct (m w) as [[a|e] w1] eqn:Em.
  - apply (Hf a w1 r w' E). apply (Hm w _ w1 Em). exact H.
  - injection E as <- <-. apply (Hm w _ w1 Em). exact H.
Qed.

Lemma keeps_files_on_fs (k : FsKey) (op : FsOp) (step : FS -> outcome FS) :
  (∀ f f' p, step f = Return f' -> isfile f p = true -> isfile f' p = true) ->
  keeps_files (on_fs k op step).
Proof.
  intros Hstep w r w' E k' p H. unfold on_fs in E. rewrite bind_run in E.
  cbn [get_store] in E. rewrite bind_run in E.
  destruct (step (fs_of (store w) k)) as [f|e] eqn:Es; cbn in E.
  - injection E as <- <-. cbn [store stepped].
    destruct (decide (k = k')) as [<-|Hne].
    + rewrite fs_of_insert. apply (Hstep _ _ _ Es H).
    + rewrite fs_of_insert_ne by exact Hne. exact H.
  - injection E as <- <-. exact H.
Qed.

Lemma isfile_insert (fl : gmap string bytes) (d : gset string) (f : FS) (q p : string)
    (b : bytes) :
  isfile f p = true ->
  isfile {| files := <[q := b]> (files f); folders := d |} p = true.
Proof.
  unfold isfile. cbn [files]. intros H. apply bool_decide_eq_true in H.
  apply bool_decide_eq_true. destruct (decide (q = p)) as [->|Hne].
  - rewrite lookup_insert_eq. eauto.
  - rewrite lookup_insert_ne by exact Hne. exact H.
Qed.

Lemma keeps_files__write (o : FSObj) (filepath : string) (data : Data)
    (callback : Callback) :
  keeps_files (_write o filepath data callback).
Proof.
  assert (Hw : ∀ (f : FsRef -> Py unit),
             (∀ h, keeps_files (f h)) -> ∀ path, keeps_files (h ← writer o path; f h)).
  { intros f Hf path. apply keeps_files_bind; [|exact Hf].
    apply keeps_files_same. intros w. unfold writer. destruct (target o); reflexivity. }
  unfold _write.
  apply keeps_files_bind.
  { apply Hw. intros h. apply keeps_files_on_fs. intros f f' p Hs H.
    unfold isfile in *. rewrite (fs_makedirs_files _ _ _ Hs). exact H. }
  intros _. apply keeps_files_bind.
  { apply Hw. intros h. apply keeps_files_on_fs. intros f f' p Hs H.
    apply fs_open_w_inv in Hs as ->. apply (isfile_insert ∅ _ _ _ _ _ H). }
  intros _. destruct (callback filepath data) as [out err].
  apply keeps_files_bind.
  - destruct out; [apply keeps_files_same; reflexivity|].
    apply Hw. intros h. apply keeps_files_on_fs. intros f f' p Hs H.
    injection Hs as <-. apply (isfile_insert ∅ _ _ _ _ _ H).
  - intros _. apply keeps_files_same. destruct err; reflexivity.
Qed.

(** X10. [write] is create-only: once a call has returned, any further
    [write] to the same path, with whatever data, raises the
    already-exists [OSError] and changes nothing. *)
Theorem write_is_create_only
    (da : DataAccess) (filepath : string) (data data' : Data) (save_local save_local' : bool)
    (callback callback' : option Callback) (name : string) (h : FsRef) (w w1 : World) :
  write_fs (fs da) = Some h ->
  In (name, h) (iterate_fs (fs da)) ->
  write da filepath data save_local callback w = (Return tt, w1) ->
  ∃ location,
    write da filepath data' save_local' callback' w1
    = (Raise (OSError (filepath ++ " already exists on " ++ location)), w1).
Proof.
  intros Hh Hin Hrun. unfold write in Hrun.
  apply bind_return_inv in Hrun as ([] & w0 & _ & Hrun).
  apply bind_return_inv in Hrun as ([] & wp & _ & Hrun).
  apply bind_return_inv in Hrun as ([] & wa & Hfirst & Hsecond).
  apply _write_returns_inv in Hfirst as (h' & Ht & _ & Hc).
  cbn [target] in Ht. rewrite Hh in Ht. injection Ht as <-.
  assert (Hfile : isfile (ref_fs (store w1) h) (delegate_path h filepath) = true).
  { pose proof (isfile_lookup _ _ _ Hc) as Hf. destruct save_local.
    - apply (keeps_files__write _ _ _ _ _ _ _ Hsecond). exact Hf.
    - injection Hsecond as <-. exact Hf. }
  destruct (which_finds (fs da) filepath name h (store w1) Hin) as (location & h' & Hw).
  { unfold ref_exists, fs_exists. rewrite Hfile. reflexivity. }
  exists location. unfold write. apply bind_raises.
  apply check_present_raises with (h := h'). exact Hw.
Qed.

(** X11. After a [write] with [save_local=True] has returned, [get] of
    the same path reads the local copy: the block of the caller gets
    the bytes the callback wrote, and nothing is fetched or printed
    before it runs. *)
Theorem get_after_write_reads_the_local_copy {A : Type}
    (da : DataAccess) (filepath : string) (data : Data) (callback : option Callback)
    (body : bytes -> string -> Py A) (w w1 : World) :
  write da filepath data true callback w = (Return tt, w1) ->
  get da filepath body w1
  = (p ← lift_outcome (getsyspath (local_fs da) filepath);
     body (default _callback callback filepath data).1 p) w1.
Proof.
  intros Hrun. unfold write in Hrun.
  apply bind_return_inv in Hrun as ([] & w0 & _ & Hrun).
  apply bind_return_inv in Hrun as ([] & wp & _ & Hrun).
  apply bind_return_inv in Hrun as ([] & wa & _ & Hsecond).
  apply _write_returns_inv in Hsecond as (h' & Ht & _ & Hc).
  cbn [target] in Ht. injection Ht as <-.
  apply get_of_local_file. exact Hc.
Qed.

(** X12. When the callback raises while the file of the priority store
    is open, [write] raises the same exception: what the callback had
    written stays in that file, and the local copy is not written. *)
Theorem failed_callback_leaves_local_copy_unwritten
    (da : DataAccess) (filepath : string) (data : Data) (callback : option Callback)
    (out : bytes) (e : exn) (h : FsRef) (w : World) :
  which (fs da) filepath (store w) = None ->
  write_fs (fs da) = Some h ->
  ref_can_write (store w) h filepath = true ->
  default _callback callback filepath data = (out, Some e) ->
  ref_key (local_fs da) ≠ ref_key h ->
  ∃ w',
    write da filepath data true callback w = (Raise e, w')
    ∧ ref_content (store w') h filepath = Some out
    ∧ store w' !! ref_key (local_fs da) = store w !! ref_key (local_fs da).
Proof.
  intros Habs Hh Hcan Hcb Hne.
  destruct (can_write_inv _ _ _ Hcan) as (f1 & Hmk & Hpl).
  unfold write.
  rewrite (bind_returns _ _ _ _ _ (check_absent_passes _ _ _ Habs)).
  rewrite bind_run. cbn [print]. rewrite bind_run.
  rewrite (_write_runs (Multi (fs da)) h filepath data _
             (record (Printed ("Writing " ++ filepath)) w) f1 Hh Hmk Hpl).
  rewrite Hcb. cbn [fst snd].
  eexists. split; [reflexivity|].
  unfold ref_content, ref_fs.
  destruct out; cbn [store stepped record]; rewrite fs_of_insert; cbn [files];
    (split; [apply lookup_insert_eq|]);
    apply lookup_insert_ne; intros E; apply Hne; symmetry; exact E.
Qed.

End GetAndWrite.

Section Dispatch.
Context `{setup : ServerSetup} `{codec : Codec} `{shell : SshBackend}.

(** ** The extension of a path *)

Lemma rsplit1_append (c : ascii) (s t : string) :
  Path.rsplit1 c t = None ->
  Path.rsplit1 c (s ++ t) = (λ hu, (hu.1, hu.2 ++ t)) <$> Path.rsplit1 c s.
Proof.
  intros Ht. induction s as [|a s IH].
  - rewrite append_nil_l, Ht. reflexivity.
  - rewrite append_cons. cbn [Path.rsplit1]. rewrite IH.
    destruct (Path.rsplit1 c s) as [[hd tl]|]; cbn; [reflexivity|].
    destruct (Ascii.eqb a c); reflexivity.
Qed.

Lemma rsplit1_at_separator (c : ascii) (s t : string) :
  Path.rsplit1 c t = None ->
  Path.rsplit1 c (s ++ String c t) = Some (s, t).
Proof.
  intros Ht. induction s as [|a s IH].
  - rewrite append_nil_l. cbn [Path.rsplit1]. rewrite Ht, Ascii.eqb_refl. reflexivity.
  - rewrite append_cons. cbn [Path.rsplit1]. rewrite IH. reflexivity.
Qed.

Lemma basename_append (s t : string) :
  Path.rsplit1 Path.slash t = None ->
  Path.basename (s ++ t) = Path.basename s ++ t.
Proof.
  intros Ht. unfold Path.basename, Path.split. rewrite (rsplit1_append _ _ _ Ht).
  destruct (Path.rsplit1 Path.slash s) as [[hd tl]|]; reflexivity.
Qed.

Lemma extension_of_suffix (stem ext : string) :
  Path.rsplit1 Path.slash ext = None ->
  Path.rsplit1 Path.dot ext = None ->
  Path.extension (stem ++ String Path.dot ext) = ext.
Proof.
  intros Hs Hd. unfold Path.extension.
  rewrite basename_append.
  - rewrite (rsplit1_at_separator _ _ _ Hd). reflexivity.
  - cbn [Path.rsplit1]. rewrite Hs. reflexivity.
Qed.

(** X13. [_callback] goes by what follows the last dot of the file
    name, whatever comes before it, dots and directories included;
    a file without a dot that is called pkl, csv or mat is taken by
    its whole name. *)
Theorem callback_goes_by_the_last_extension (stem dir : string) (data : Data) :
  _callback (stem ++ ".pkl") data = pickle_dump data
  ∧ _callback (stem ++ ".csv") data = to_csv data
  ∧ _callback (stem ++ ".mat") data = savemat data
  ∧ _callback (dir ++ "/pkl") data = pickle_dump data
  ∧ _callback (stem ++ ".pkl.bak") data
    = ([], Some (ValueError "Unknown extension! bak")).
Proof.
  unfold _callback.
  change (stem ++ ".pkl") with (stem ++ String Path.dot "pkl").
  change (stem ++ ".csv") with (stem ++ String Path.dot "csv").
  change (stem ++ ".mat") with (stem ++ String Path.dot "mat").
  rewrite (extension_of_suffix stem "pkl"), (extension_of_suffix stem "csv"),
          (extension_of_suffix stem "mat") by reflexivity.
  change (stem ++ ".pkl.bak") with (stem ++ (".pkl" ++ String Path.dot "bak")).
  rewrite <- (append_assoc stem ".pkl" (String Path.dot "bak")).
  rewrite (extension_of_suffix (stem ++ ".pkl") "bak") by reflexivity.
  assert (E : Path.extension (dir ++ "/pkl") = "pkl").
  { unfold Path.extension, Path.basename, Path.split.
    change (dir ++ "/pkl") with (dir ++ String Path.slash "pkl").
    rewrite rsplit1_at_separator by reflexivity. reflexivity. }
  rewrite E. repeat split; reflexivity.
Qed.

(** ** Checksums of what is not there *)

(** X14. The checksum of a path that no member of the priority store
    has is an error that changes nothing: [ResourceNotFound] from
    [DataAccess.checksum], the not-found [OSError] from the checksum of
    the remote-shell class. *)
Theorem checksum_of_absent_file_raises (da : DataAccess) (path : string) (w : World) :
  which (fs da) path (store w) = None ->
  checksum da path w
  = (Raise (match variant da with
            | LocalVariant => ResourceNotFound path
            | _ => OSError (path ++ " not found on any of "
                              ++ repr_list (iterate_fs (fs da)).*1)
            end), w).
Proof.
  intros Hw. unfold checksum. destruct (variant da).
  - unfold DataAccess_checksum, obj_read. rewrite bind_run, bind_run.
    cbn [reader]. rewrite bind_run. cbn [get_store]. rewrite Hw. reflexivity.
  - unfold SSHDataAccess_checksum. apply bind_raises. apply check_missing_raises, Hw.
  - unfold SSHDataAccess_checksum. apply bind_raises. apply check_missing_raises, Hw.
Qed.

(** X15. [MemoryDataAccess] takes its [checksum] from the remote-shell
    class, which asks the store for the filesystem named ssh_fs; its
    store has none: the checksum of any path ends in an exception and
    changes nothing. *)
Theorem memory_checksum_never_returns (path : string) (w : World) :
  ∃ e, checksum MemoryDataAccess path w = (Raise e, w).
Proof.
  unfold checksum. cbn [variant MemoryDataAccess]. unfold SSHDataAccess_checksum.
  rewrite bind_run.
  destruct (_check_file_exists MemoryDataAccess path true w) as [[[]|e] w1] eqn:Ec.
  - assert (w1 = w) as ->.
    { unfold _check_file_exists in Ec. rewrite bind_run in Ec. cbn [get_store] in Ec.
      destruct (_ && _); [discriminate Ec|]. destruct (_ && _); [discriminate Ec|].
      injection Ec as <-. reflexivity. }
    rewrite bind_run. unfold join.
    destruct (Path.join _ _) as [full_path|]; cbn; eauto.
  - assert (w1 = w) as ->.
    { unfold _check_file_exists in Ec. rewrite bind_run in Ec. cbn [get_store] in Ec.
      destruct (_ && _); [injection Ec as _ <-; reflexivity|].
      destruct (_ && _); [injection Ec as _ <-; reflexivity|]. discriminate Ec. }
    eauto.
Qed.

End Dispatch.

Section Pushing.
Context `{setup : ServerSetup} `{codec : Codec} `{shell : SshBackend}.

(** ** The push of the remote-shell variant *)

Lemma bind_never_returns {A B : Type} (m : Py A) (k : A -> Py B) (w : World) :
  (∀ a w1, ∀ b, (k a w1).1 ≠ Return b) -> ∀ b, ((m ≫= k) w).1 ≠ Return b.
Proof.
  intros H b. rewrite bind_run. destruct (m w) as [[a|e] w1]; [apply H|].
  cbn. discriminate.
Qed.

(** X16. [SSHDataAccess.push] cannot put a first version on the
    server: when the canonical file is not there, [push] raises for
    every checksum, with the [AttributeError] of [exec_command]; the
    local file is gone, the pushed bytes stay at the backup name and
    there is still nothing at the canonical path. *)
Theorem push_without_canonical_file_fails
    (root file_name checksum rename : string) (new : bytes) (w : World) :
  let da := remote_shell root in
  let v := push_values da checksum rename in
  let srv := fs_of (store w) SSHHost in
  files (fs_of (store w) (OSFS LOCAL_DIR)) !! file_name = Some new ->
  which (fs da) (rename ++ ".temp") (store w) = None ->
  files srv !! original v = None ->
  can_place srv (updated v) = true ->
  ∃ w',
    push da file_name checksum rename w
    = (Raise (AttributeError "'MultiFS' object has no attribute 'exec_command'"), w')
    ∧ files (fs_of (store w') (OSFS LOCAL_DIR)) !! file_name = None
    ∧ files (fs_of (store w') SSHHost) !! original v = None
    ∧ files (fs_of (store w') SSHHost) !! updated v = Some new.
Proof.
  intros da v srv Hlocal Hfree Hnone Hstage.
  pose proof (updated_ne_original da checksum rename) as Huo.
  pose proof (push_stops_at_exec_command root file_name checksum rename new w
                Hlocal Hfree Hstage) as Hrun.
  pose proof (pushed_server_view root file_name checksum rename new w) as Hsrv.
  pose proof (pushed_local_view root file_name checksum rename new w) as Hloc.
  cbv zeta in Huo, Hrun, Hsrv, Hloc. subst da v srv.
  change (push (remote_shell root) file_name checksum rename w)
    with (SSHDataAccess_push (remote_shell root) file_name checksum rename w).
  rewrite Hrun. eexists. split; [reflexivity|].
  rewrite Hsrv, Hloc. cbn [files].
  split; [apply lookup_delete_eq|].
  split; [rewrite lookup_insert_ne by exact Huo; exact Hnone|].
  apply lookup_insert_eq.
Qed.

(** X17. [SSHDataAccess.push] never returns, whatever the file, the
    checksum (the empty one included) and the filesystems: where the
    check and the transfer to the backup name succeed, the call of
    [exec_command] on the priority store raises [AttributeError], and
    the command that compares the checksums is not run. *)
Theorem remote_shell_push_never_returns
    (root file_name checksum rename : string) (w : World) :
  ∀ r, (push (remote_shell root) file_name checksum rename w).1 ≠ Return r.
Proof.
  change (push (remote_shell root) file_name checksum rename w)
    with (SSHDataAccess_push (remote_shell root) file_name checksum rename w).
  unfold SSHDataAccess_push.
  apply bind_never_returns. intros _ w1.
  apply bind_never_returns. intros _ w2.
  apply bind_never_returns. intros _ w3 r.
  rewrite bind_run. cbn. discriminate.
Qed.

(** X18. [SSHDataAccess.push] of a file the local filesystem does not
    have ends in [ResourceNotFound] once the transfer is announced; no
    filesystem has changed. *)
Theorem push_of_missing_local_file_raises
    (root file_name checksum rename : string) (w : World) :
  let da := remote_shell root in
  ref_exists (store w) (local_fs da) file_name = false ->
  which (fs da) (rename ++ ".temp") (store w) = None ->
  push da file_name checksum rename w
  = (Raise (ResourceNotFound file_name),
     record (Printed ("Transferring " ++ rename ++ " to server")) w).
Proof.
  intros da Hmiss Hfree.
  change (push da file_name checksum rename w)
    with (SSHDataAccess_push da file_name checksum rename w).
  unfold SSHDataAccess_push.
  rewrite (bind_returns _ _ _ _ _ (check_absent_passes _ _ _ Hfree)).
  rewrite bind_run. cbn [print].
  apply bind_raises. unfold move_file. apply bind_raises.
  unfold copy_file. rewrite bind_run. cbn [get_store hassyspath store record].
  rewrite Hfree. apply bind_raises.
  unfold obj_read. rewrite bind_run. cbn [reader mret Py_ret].
  unfold ref_read. rewrite bind_run. cbn [get_store store record].
  unfold ref_exists, fs_exists in Hmiss. apply orb_false_iff in Hmiss as [Hf Hd].
  unfold fs_read. cbn [local_fs da remote_shell] in Hf, Hd |- *.
  destruct (files (ref_fs (store w) (OpenFS (OSFS LOCAL_DIR)))
              !! delegate_path (OpenFS (OSFS LOCAL_DIR)) file_name) as [b|] eqn:El.
  - rewrite (isfile_lookup _ _ _ El) in Hf. discriminate Hf.
  - rewrite Hd. reflexivity.
Qed.

(** ** The push of the shared volume *)

(** X19. [LocalDataAccess.push] goes by the SHA-256 of the file that
    has the new name: with any other checksum it raises [ValueError]
    and changes nothing. *)
Theorem local_push_with_other_checksum_changes_nothing
    (root file_name checksum rename : string) (current : bytes) (w : World) :
  files (fs_of (store w) (OSFS root)) !! rename = Some current ->
  checksum ≠ Digest.sha256_hexdigest current ->
  push (LocalDataAccess root) file_name checksum rename w
  = (Raise (ValueError "Checksums do not match"), w).
Proof.
  intros Hcur Hsum.
  change (push (LocalDataAccess root) file_name checksum rename w)
    with (LocalDataAccess_push (LocalDataAccess root) file_name checksum rename w).
  unfold LocalDataAccess_push.
  rewrite (bind_returns _ _ _ _ _ (local_checksum_runs _ _ _ _ Hcur)).
  destruct (String.eqb checksum (Digest.sha256_hexdigest current)) eqn:Ee.
  - apply String.eqb_eq in Ee. contradiction.
  - reflexivity.
Qed.

(** X20. With the checksum of the file that has the new name,
    [LocalDataAccess.push] replaces that file by the pushed one on the
    volume: the old name is gone, the old bytes are kept nowhere, and
    no file other than the two has changed. *)
Theorem local_push_replaces_without_backup
    (root file_name rename : string) (new current : bytes) (w : World) :
  let loc := fs_of (store w) (OSFS root) in
  files loc !! file_name = Some new ->
  files loc !! rename = Some current ->
  file_name ≠ rename ->
  can_place loc rename = true ->
  ∃ w',
    push (LocalDataAccess root) file_name (Digest.sha256_hexdigest current) rename w
    = (Return tt, w')
    ∧ files (fs_of (store w') (OSFS root))
      = delete file_name (<[rename := new]> (files loc))
    ∧ (∀ k, k ≠ OSFS root -> store w' !! k = store w !! k).
Proof.
  intros loc Hnew Hcur Hne Hplace.
  change (push (LocalDataAccess root) file_name (Digest.sha256_hexdigest current) rename w)
    with (LocalDataAccess_push (LocalDataAccess root) file_name
            (Digest.sha256_hexdigest current) rename w).
  unfold LocalDataAccess_push.
  rewrite (bind_returns _ _ _ _ _ (local_checksum_runs _ _ _ _ Hcur)).
  rewrite String.eqb_refl. cbn [negb].
  set (m := fs (LocalDataAccess root)).
  set (l1 := {| files := <[rename := []]> (files loc); folders := folders loc |}).
  set (l2 := {| files := <[rename := new]> (files loc); folders := folders loc |}).
  set (l3 := {| files := delete file_name (files l2); folders := folders loc |}).
  set (w1 := stepped (OpenW (OSFS root) rename) (<[OSFS root := l1]> (store w)) w).
  set (w2 := stepped (Append (OSFS root) rename) (<[OSFS root := l2]> (store w1)) w1).
  set (w3 := stepped (Remove (OSFS root) file_name) (<[OSFS root := l3]> (store w2)) w2).
  assert (E1 : obj_read (Multi m) file_name w = (Return new, w)).
  { unfold obj_read. rewrite bind_run. cbn [reader]. rewrite bind_run. cbn [get_store].
    unfold m. rewrite (which_LocalDataAccess_local _ _ _ _ Hnew). cbn [mret Py_ret].
    apply ref_read_file. exact Hnew. }
  assert (E2 : obj_open_w (Multi m) rename w = (Return tt, w1)).
  { unfold obj_open_w. rewrite bind_run.
    rewrite (writer_target (Multi m) (OpenFS (OSFS root))) by reflexivity.
    unfold ref_open_w. apply on_fs_returns. apply fs_open_w_places. exact Hplace. }
  assert (E3 : obj_append (Multi m) rename new w1 = (Return tt, w2)).
  { unfold obj_append. rewrite bind_run.
    rewrite (writer_target (Multi m) (OpenFS (OSFS root))) by reflexivity.
    unfold ref_append. apply on_fs_returns. cbn [store stepped w1 ref_key delegate_path].
    rewrite fs_of_insert. unfold fs_append, l1, l2. cbn [files folders].
    rewrite lookup_insert_eq. cbn [default app]. rewrite insert_insert_eq. reflexivity. }
  assert (Hl2 : files (fs_of (store w2) (OSFS root)) !! file_name = Some new).
  { cbn [store stepped w2]. rewrite fs_of_insert. unfold l2. cbn [files].
    rewrite lookup_insert_ne by (intros X; apply Hne; symmetry; exact X). exact Hnew. }
  assert (E4 : obj_remove (Multi m) file_name w2 = (Return tt, w3)).
  { unfold obj_remove. rewrite bind_run. cbn [reader]. rewrite bind_run. cbn [get_store].
    unfold m. rewrite (which_LocalDataAccess_local _ _ _ _ Hl2). cbn [mret Py_ret].
    unfold ref_remove. apply on_fs_returns. cbn [ref_key delegate_path].
    unfold fs_remove. rewrite Hl2.
    cbn [store stepped w2]. rewrite fs_of_insert. reflexivity. }
  exists w3. split.
  { unfold MultiFS_move. fold m.
    rewrite (bind_returns _ _ _ _ _ E1), (bind_returns _ _ _ _ _ E2),
            (bind_returns _ _ _ _ _ E3). exact E4. }
  cbn [store stepped w3 w2 w1]. rewrite fs_of_insert. cbn [files l3 l2].
  split; [reflexivity|].
  intros k Hk. rewrite !lookup_insert_ne by (intros X; apply Hk; symmetry; exact X).
  reflexivity.
Qed.

(** ** The push of the in-memory variant *)

(** X21. [MemoryDataAccess.push] does not look at the checksum: for
    every checksum the local file goes to the other filesystem under
    the new name, over whatever was there, and leaves the local one. *)
Theorem memory_push_ignores_the_checksum
    (file_name checksum rename : string) (new : bytes) (w : World) :
  files (fs_of (store w) (MemFS 0)) !! file_name = Some new ->
  can_place (fs_of (store w) (MemFS 1)) rename = true ->
  ∃ w',
    push MemoryDataAccess file_name checksum rename w = (Return tt, w')
    ∧ files (fs_of (store w') (MemFS 1))
      = <[rename := new]> (files (fs_of (store w) (MemFS 1)))
    ∧ files (fs_of (store w') (MemFS 0))
      = delete file_name (files (fs_of (store w) (MemFS 0))).
Proof.
  intros Hnew Hplace.
  change (push MemoryDataAccess file_name checksum rename w)
    with (move_file (One (OpenFS (MemFS 0))) file_name
            (Multi (fs MemoryDataAccess)) rename w).
  rewrite (move_file_runs (OpenFS (MemFS 0)) (OpenFS (MemFS 1)) _ _ _ new);
    [| exact Hnew | reflexivity | discriminate | exact Hplace].
  eexists. split; [reflexivity|].
  cbn [store stepped ref_key delegate_path]. unfold ref_fs. cbn [ref_key].
  split.
  - rewrite fs_of_insert_ne by discriminate. rewrite fs_of_insert. reflexivity.
  - rewrite fs_of_insert. reflexivity.
Qed.

End Pushing.

(* ===================================================================== *)
(** * Reverted dictionaries *)
(* ===================================================================== *)

Section Reverting.
Context {K V : Type} `{EqDecision K} `{EqDecision V}.

Lemma get_set_eq (k : K) (v : V) (d : list (K * V)) :
  Dict.get k (Dict.set k v d) = Some v.
Proof.
  induction d as [|[k' v'] d IH]; cbn [Dict.set Dict.get].
  - rewrite decide_True by reflexivity. reflexivity.
  - destruct (decide (k' = k)) as [->|Hne]; cbn [Dict.get].
    + rewrite decide_True by reflexivity. reflexivity.
    + rewrite decide_False by exact Hne. exact IH.
Qed.

Lemma get_set_ne (k k' : K) (v : V) (d : list (K * V)) :
  k ≠ k' -> Dict.get k' (Dict.set k v d) = Dict.get k' d.
Proof.
  intros Hne. induction d as [|[k0 v0] d IH]; cbn [Dict.set Dict.get].
  - rewrite decide_False by exact Hne. reflexivity.
  - destruct (decide (k0 = k)) as [->|Hne0]; cbn [Dict.get].
    + rewrite !decide_False by exact Hne. reflexivity.
    + destruct (decide (k0 = k')); [reflexivity | exact IH].
Qed.

Lemma get_None (k : K) (d : list (K * V)) :
  Dict.get k d = None <-> k ∉ d.*1.
Proof.
  induction d as [|[k' v'] d IH]; cbn [Dict.get fmap list_fmap fst].
  - split; [intros _; apply not_elem_of_nil | reflexivity].
  - rewrite not_elem_of_cons. destruct (decide (k' = k)) as [->|Hne].
    + split; [discriminate | intros [X _]; contradiction].
    + rewrite IH. split; [intros X; split; [intros Y; apply Hne; symmetry; exact Y | exact X]
                         | intros [_ X]; exact X].
Qed.

Lemma get_Some_In (k : K) (v : V) (d : list (K * V)) :
  Dict.get k d = Some v -> In (k, v) d.
Proof.
  induction d as [|[k' v'] d IH]; cbn [Dict.get]; [discriminate|].
  destruct (decide (k' = k)) as [->|Hne].
  - intros E. injection E as ->. left. reflexivity.
  - intros E. right. apply IH, E.
Qed.

Lemma In_get (k : K) (v : V) (d : list (K * V)) :
  NoDup d.*1 -> In (k, v) d -> Dict.get k d = Some v.
Proof.
  induction d as [|[k' v'] d IH]; cbn [Dict.get fmap list_fmap fst]; [intros _ []|].
  intros Hnd [E|Hin].
  - injection E as -> ->. rewrite decide_True by reflexivity. reflexivity.
  - apply NoDup_cons in Hnd as [Hk Hnd].
    destruct (decide (k' = k)) as [->|Hne].
    + exfalso. apply Hk. apply list_elem_of_fmap. exists (k, v).
      split; [reflexivity | apply list_elem_of_In, Hin].
    + apply IH; assumption.
Qed.

Lemma set_fresh (k : K) (v : V) (d : list (K * V)) :
  k ∉ d.*1 -> Dict.set k v d = (d ++ [(k, v)])%list.
Proof.
  induction d as [|[k' v'] d IH]; cbn [Dict.set fmap list_fmap fst]; [reflexivity|].
  rewrite not_elem_of_cons. intros [Hne Hk].
  rewrite decide_False by (intros X; apply Hne; symmetry; exact X).
  rewrite IH by exact Hk. reflexivity.
Qed.

Lemma set_keys (k : K) (v : V) (d : list (K * V)) :
  (Dict.set k v d).*1 = if decide (k ∈ d.*1) then d.*1 else (d.*1 ++ [k])%list.
Proof.
  induction d as [|[k' v'] d IH]; cbn [Dict.set].
  - rewrite decide_False by apply not_elem_of_nil. reflexivity.
  - destruct (decide (k' = k)) as [->|Hne]; rewrite !fmap_cons; cbn [fst].
    + rewrite decide_True by apply list_elem_of_here. reflexivity.
    + rewrite IH. destruct (decide (k ∈ d.*1)) as [Hin|Hout].
      * rewrite decide_True by (apply list_elem_of_further, Hin). reflexivity.
      * rewrite decide_False; [reflexivity|].
        rewrite not_elem_of_cons. split; [intros X; apply Hne; symmetry; exact X | exact Hout].
Qed.

Lemma set_keeps_NoDup (k : K) (v : V) (d : list (K * V)) :
  NoDup d.*1 -> NoDup (Dict.set k v d).*1.
Proof.
  intros Hnd. rewrite set_keys. destruct (decide (k ∈ d.*1)) as [Hin|Hout]; [exact Hnd|].
  apply NoDup_app. split; [exact Hnd|]. split; [|apply NoDup_singleton].
  intros x Hx Hx'. apply list_elem_of_singleton in Hx'. subst x. contradiction.
Qed.

Lemma set_length (k : K) (v : V) (d : list (K * V)) :
  (length (Dict.set k v d) <= S (length d))%nat.
Proof.
  induction d as [|[k' v'] d IH]; cbn [Dict.set length]; [lia|].
  destruct (decide (k' = k)); cbn [length]; lia.
Qed.

End Reverting.

Section Reverted.
Context {K V : Type} `{EqDecision K} `{EqDecision V}.

Lemma revert_dict_snoc (d : list (K * V)) (k : K) (v : V) :
  Dict.revert_dict (d ++ [(k, v)]) = Dict.set v k (Dict.revert_dict d).
Proof. unfold Dict.revert_dict. rewrite fold_left_app. reflexivity. Qed.

Lemma revert_dict_nil : Dict.revert_dict ([] : list (K * V)) = [].
Proof. reflexivity. Qed.

Lemma revert_dict_injective (d : list (K * V)) :
  NoDup d.*2 -> Dict.revert_dict d = map Dict.swap_pair d.
Proof.
  induction d as [|[k v] d IH] using rev_ind; intros Hnd; [reflexivity|].
  rewrite revert_dict_snoc. rewrite fmap_app in Hnd.
  apply NoDup_app in Hnd as (Hd & Hfresh & _).
  rewrite IH by exact Hd.
  rewrite set_fresh.
  - rewrite map_app. reflexivity.
  - intros Hin. apply (Hfresh v).
    + apply list_elem_of_fmap in Hin as ([v' k'] & E & Hin).
      apply list_elem_of_In, in_map_iff in Hin as ([k0 v0] & E' & Hin).
      unfold Dict.swap_pair in E'. cbn in E, E'. injection E' as <- <-. subst v.
      apply list_elem_of_fmap. exists (k0, v0). split; [reflexivity|].
      apply list_elem_of_In, Hin.
    + cbn. apply list_elem_of_here.
Qed.

End Reverted.

Section RevertDict.
Context {K V : Type} `{EqDecision K} `{EqDecision V}.

(** X22. [revert_dict] twice gives the dictionary back, in its order,
    where no two keys share a value. *)
Theorem revert_dict_round_trip (d : list (K * V)) :
  NoDup d.*1 -> NoDup d.*2 ->
  Dict.revert_dict (Dict.revert_dict d) = d.
Proof.
  intros Hk Hv. rewrite (revert_dict_injective d Hv).
  rewrite revert_dict_injective.
  - rewrite map_map. unfold Dict.swap_pair. cbn [fst snd].
    rewrite <- (map_id d) at 2. apply map_ext. intros [k v]. reflexivity.
  - assert (E : (map Dict.swap_pair d).*2 = d.*1).
    { clear. induction d as [|[k v] d IH]; [reflexivity|].
      cbn [map fmap list_fmap Dict.swap_pair fst snd]. f_equal. exact IH. }
    rewrite E. exact Hk.
Qed.

(** X23. Where keys share a value, [revert_dict] keeps the last of
    them, in the order of the dictionary: the value leads to the key
    after which it does not occur again. *)
Theorem revert_dict_keeps_the_last_key (d1 d2 : list (K * V)) (k : K) (v : V) :
  v ∉ d2.*2 ->
  Dict.get v (Dict.revert_dict (d1 ++ (k, v) :: d2)) = Some k.
Proof.
  induction d2 as [|[k' v'] d2 IH] using rev_ind; intros Hout.
  - rewrite revert_dict_snoc. apply get_set_eq.
  - rewrite fmap_app in Hout. cbn [fmap list_fmap snd] in Hout.
    rewrite not_elem_of_app in Hout. destruct Hout as [Hout Hlast].
    change (d1 ++ (k, v) :: d2 ++ [(k', v')])%list
      with (d1 ++ ((k, v) :: d2) ++ [(k', v')])%list.
    rewrite app_assoc, revert_dict_snoc.
    rewrite get_set_ne.
    + apply IH, Hout.
    + intros ->. apply Hlast. apply list_elem_of_here.
Qed.

(** X24. What [revert_dict] gives is a dictionary again: its keys are
    distinct, it has no more entries than the one it was given, and
    each of its entries is an entry of that one, turned round. *)
Theorem revert_dict_is_a_dictionary (d : list (K * V)) :
  NoDup (Dict.revert_dict d).*1
  ∧ (length (Dict.revert_dict d) <= length d)%nat
  ∧ (∀ v k, Dict.get v (Dict.revert_dict d) = Some k -> In (k, v) d).
Proof.
  induction d as [|[k0 v0] d (Hnd & Hlen & Hin)] using rev_ind.
  - split; [apply NoDup_nil_2|]. split; [reflexivity|]. intros v k E. discriminate E.
  - rewrite revert_dict_snoc. split; [apply set_keeps_NoDup, Hnd|]. split.
    + rewrite length_app. cbn [length].
      pose proof (set_length v0 k0 (Dict.revert_dict d)). lia.
    + intros v k E. apply in_or_app. destruct (decide (v0 = v)) as [->|Hne].
      * rewrite get_set_eq in E. injection E as ->. right. left. reflexivity.
      * rewrite get_set_ne in E by exact Hne. left. apply Hin, E.
Qed.

End RevertDict.

Section Translating.

(** X25. [_translate_df] undoes the renaming it reverts: columns
    renamed by a dictionary that gives no name twice come back under
    their own names, where each of them is a key of the dictionary. *)
Theorem translate_df_undoes_rename
    (rename : list (string * string)) (columns : list string) :
  NoDup rename.*1 -> NoDup rename.*2 ->
  (∀ c, In c columns -> c ∈ rename.*1) ->
  Dict._translate_df rename (Dict.rename_columns rename columns) = columns.
Proof.
  intros Hk Hv Hcols. unfold Dict._translate_df, Dict.rename_columns.
  rewrite map_map. rewrite <- (map_id columns) at 2.
  apply map_ext_in. intros c Hc.
  destruct (Dict.get c rename) as [v|] eqn:Eg.
  - cbn [default]. rewrite (revert_dict_injective rename Hv).
    rewrite (In_get v c).
    + reflexivity.
    + assert (E : (map Dict.swap_pair rename).*1 = rename.*2).
      { clear. induction rename as [|[k v] d IH]; [reflexivity|].
        cbn [map fmap list_fmap Dict.swap_pair fst snd]. f_equal. exact IH. }
      rewrite E. exact Hv.
    + apply in_map_iff. exists (c, v). split; [reflexivity|].
      apply get_Some_In, Eg.
  - exfalso. apply get_None in Eg. apply Eg, Hcols, Hc.
Qed.

End Translating.

(* ===================================================================== *)
(** * Switching states *)
(* ===================================================================== *)

Section Switching.
Context {Value : Type}.

(** X26. An allowed switch out of the state named create deletes the
    builder, keeps every other attribute, gives the object the new
    class and prints one line. *)
Theorem switch_from_create_drops_the_builder
    (self : Scenario.Obj (Value := Value)) (state : Scenario.Class) (builder : Value) :
  Scenario.name (Scenario.class self) = "create" ->
  Scenario.name state ∈ Scenario.allowed (Scenario.class self) ->
  Scenario.attributes self !! "builder" = Some builder ->
  Scenario.switch self state
  = (None,
     {| Scenario.class := state;
        Scenario.attributes := delete "builder" (Scenario.attributes self) |},
     ["State switching: create --> " ++ Scenario.name state]).
Proof.
  intros Hname Hin Hb. unfold Scenario.switch, Scenario._leave, Scenario.del.
  rewrite bool_decide_eq_true_2 by exact Hin.
  rewrite Hname. cbn [String.eqb Ascii.eqb Bool.eqb]. rewrite Hb. reflexivity.
Qed.

(** X27. Leaving the state named analyze deletes the grid first: where
    the object has a grid and no ct, the allowed switch raises
    [AttributeError] with the grid already gone, and the object is
    still of the class it was. *)
Theorem failed_leave_of_analyze_loses_the_grid
    (self : Scenario.Obj (Value := Value)) (state : Scenario.Class) (grid : Value) :
  Scenario.name (Scenario.class self) = "analyze" ->
  Scenario.name state ∈ Scenario.allowed (Scenario.class self) ->
  Scenario.attributes self !! "grid" = Some grid ->
  Scenario.attributes self !! "ct" = None ->
  Scenario.switch self state
  = (Some (Scenario.AttributeError "ct"),
     {| Scenario.class := Scenario.class self;
        Scenario.attributes := delete "grid" (Scenario.attributes self) |},
     ["State switching: analyze --> " ++ Scenario.name state]).
Proof.
  intros Hname Hin Hg Hct. unfold Scenario.switch, Scenario._leave, Scenario.del.
  rewrite bool_decide_eq_true_2 by exact Hin.
  rewrite Hname. cbn [String.eqb Ascii.eqb Bool.eqb]. rewrite Hg.
  cbn [Scenario.attributes Scenario.class].
  rewrite lookup_delete_ne by discriminate. rewrite Hct. reflexivity.
Qed.

Lemma del_frame (self self' : Scenario.Obj (Value := Value)) (a : string)
    (e : option Scenario.error) :
  Scenario.del self a = (e, self') ->
  Scenario.class self' = Scenario.class self
  ∧ ∀ b, b ≠ a -> Scenario.attributes self' !! b = Scenario.attributes self !! b.
Proof.
  unfold Scenario.del. destruct (Scenario.attributes self !! a).
  - intros E. injection E as _ <-. split; [reflexivity|].
    intros b Hb. cbn. apply lookup_delete_ne. intros X. apply Hb. symmetry. exact X.
  - intros E. injection E as _ <-. split; reflexivity.
Qed.

(** X28. However [switch] ends, the object has the new class exactly
    when no exception was raised, and no attribute other than builder,
    grid and ct has changed. *)
Theorem switch_changes_class_only_on_success
    (self self' : Scenario.Obj (Value := Value)) (state : Scenario.Class)
    (e : option Scenario.error) (out : list string) :
  Scenario.switch self state = (e, self', out) ->
  Scenario.class self' = match e with Some _ => Scenario.class self | None => state end
  ∧ ∀ a, a ≠ "builder" -> a ≠ "grid" -> a ≠ "ct" ->
      Scenario.attributes self' !! a = Scenario.attributes self !! a.
Proof.
  unfold Scenario.switch.
  destruct (bool_decide _).
  - assert (Hleave : ∀ e1 s1, Scenario._leave self = (e1, s1) ->
              Scenario.class s1 = Scenario.class self
              ∧ ∀ a, a ≠ "builder" -> a ≠ "grid" -> a ≠ "ct" ->
                  Scenario.attributes s1 !! a = Scenario.attributes self !! a).
    { intros e1 s1. unfold Scenario._leave.
      destruct (String.eqb _ "create").
      - intros E. destruct (del_frame _ _ _ _ E) as [Hc Ha].
        split; [exact Hc|]. intros a H1 _ _. apply Ha, H1.
      - destruct (String.eqb _ "analyze").
        + destruct (Scenario.del self "grid") as [[eg|] sg] eqn:Eg.
          * intros E. injection E as <- <-.
            destruct (del_frame _ _ _ _ Eg) as [Hc Ha].
            split; [exact Hc|]. intros a _ H2 _. apply Ha, H2.
          * intros E. destruct (del_frame _ _ _ _ Eg) as [Hc Ha].
            destruct (del_frame _ _ _ _ E) as [Hc' Ha'].
            split; [rewrite Hc'; exact Hc|].
            intros a _ H2 H3. rewrite Ha' by exact H3. apply Ha, H2.
        + intros E. injection E as <- <-. split; reflexivity. }
    destruct (Scenario._leave self) as [[e1|] s1] eqn:El.
    + intros E. injection E as <- <- <-. apply (Hleave _ _ eq_refl).
    + unfold Scenario._enter. intros E. injection E as <- <- <-.
      destruct (Hleave _ _ eq_refl) as [_ Ha]. split; [reflexivity | exact Ha].
  - intros E. injection E as <- <- <-. split; reflexivity.
Qed.

End Switching.

(* ===================================================================== *)
(** * Profile versions *)
(* ===================================================================== *)

Section Versions.
Context `{helper : ProfileHelper}.

(** X29. Where both listings answer, [get_profile_version] returns
    each version of either listing once, and nothing else. *)
Theorem get_profile_version_merges_without_repeats
    (grid_model kind : string) (blob local : list string) (w w1 w2 : World) :
  get_profile_version_cloud grid_model kind w = (Return blob, w1) ->
  get_profile_version_local grid_model kind w1 = (Return local, w2) ->
  ∃ versions,
    get_profile_version grid_model kind w = (Return versions, w2)
    ∧ NoDup versions
    ∧ ∀ v, v ∈ versions <-> v ∈ blob ∨ v ∈ local.
Proof.
  intros Hc Hl. unfold get_profile_version.
  rewrite (bind_returns _ _ _ _ _ Hc). rewrite (bind_returns _ _ _ _ _ Hl).
  eexists. split; [reflexivity|]. split; [apply NoDup_elements|].
  intros v. rewrite elem_of_elements, elem_of_list_to_set, elem_of_app. reflexivity.
Qed.

End Versions.

(* ===================================================================== *)
(** * The further properties on the installations *)
(* ===================================================================== *)

Section OnInstallations.
Import Demo Demo2.

Ltac by_computation := apply (bool_decide_unpack _); vm_compute; exact I.


Lemma blob_containers_are_never_written_on_demo :
  (∀ filepath data save_local callback,
     store (write Demo.da filepath data save_local callback with_blob).2
       !! AzBlob "profiles"
     = store with_blob !! AzBlob "profiles")
  ∧ (∀ file_name from_dir,
       store (copy_from Demo.da file_name from_dir with_blob).2 !! AzBlob "profiles"
       = store with_blob !! AzBlob "profiles")
  ∧ (∀ file_name checksum rename,
       store (push Demo.da file_name checksum rename with_blob).2 !! AzBlob "profiles"
       = store with_blob !! AzBlob "profiles").
Proof.
  apply (blob_containers_are_never_written (setup := Demo.setup) (codec := Demo.codec) "/mnt/bes/pcm" Demo.da "profiles" with_blob).
  left. reflexivity.
Defined.

Lemma copy_from_changes_only_the_local_filesystem_on_demo :
  store (copy_from Demo.da "grid.pkl" None Demo.world).2 !! SSHHost
  = store Demo.world !! SSHHost.
Proof.
  apply (copy_from_changes_only_the_local_filesystem Demo.da "grid.pkl" None
           Demo.world SSHHost).
  - vm_compute. reflexivity.
  - discriminate.
Defined.

Lemma write_without_save_local_changes_only_the_store_on_demo :
  store (write Demo.da "new.pkl" Demo.payload false None Demo.world).2
    !! OSFS "/home/user/ScenarioData"
  = store Demo.world !! OSFS "/home/user/ScenarioData".
Proof.
  apply (write_without_save_local_changes_only_the_store (codec := Demo.codec)
           Demo.da "new.pkl" Demo.payload None Demo.world
           (OSFS "/home/user/ScenarioData")).
  by_computation.
Defined.

Lemma offline_store_refuses_writes_on_demo :
  ∃ da w1,
    SSHDataAccess "/mnt/bes/pcm" offline = (Return da, w1)
    ∧ printed (journal w1) = "Could not connect to ssh server" :: printed (journal offline)
    ∧ write_fs (fs da) = None
    ∧ ∃ w2,
        write da "new.pkl" Demo.payload true None w1
        = (Raise (ResourceReadOnly (Path.dirname "new.pkl")), w2)
        ∧ store w2 = store offline.
Proof.
  apply (offline_store_refuses_writes (setup := Demo.setup) (codec := Demo.codec)
           "/mnt/bes/pcm" "new.pkl" Demo.payload true None offline).
  - reflexivity.
  - vm_compute. reflexivity.
Defined.

Lemma offline_push_keeps_the_local_file_on_demo :
  ∃ w',
    push (object_store_only "/mnt/bes/pcm") "edit.pkl" "any checksum" "grid.pkl" offline
    = (Raise (ResourceReadOnly ("grid.pkl" ++ ".temp")), w')
    ∧ store w' = store offline.
Proof.
  apply (offline_push_keeps_the_local_file (setup := Demo.setup)
           "/mnt/bes/pcm" "edit.pkl" "any checksum" "grid.pkl" [x03] offline).
  - vm_compute. reflexivity.
  - vm_compute. reflexivity.
Defined.

Lemma copy_from_fetches_from_the_owner_on_demo :
  ∃ w',
    copy_from Demo.da "grid.pkl" None Demo.world = (Return tt, w')
    ∧ ref_content (store w') (local_fs Demo.da) "grid.pkl" = Some [x01; x02]
    ∧ printed (journal w')
      = ("Transferring " ++ "grid.pkl" ++ " from " ++ "ssh_fs")
          :: printed (journal Demo.world)
    ∧ ∀ k, k ≠ ref_key (local_fs Demo.da) -> k ≠ TempDir ->
           store w' !! k = store Demo.world !! k.
Proof.
  apply (copy_from_fetches_from_the_owner Demo.da "grid.pkl" None "grid.pkl" "ssh_fs"
           (WrapSSHFS SSHHost "/mnt/bes/pcm") [x01; x02] Demo.world).
  - vm_compute. reflexivity.
  - vm_compute. reflexivity.
  - vm_compute. reflexivity.
  - split; by_computation.
  - vm_compute. reflexivity.
Defined.

Lemma get_of_absent_file_raises_on_demo :
  get Demo.da "absent.pkl" (λ _ p, (mret p : Py string)) Demo.world
  = (Raise (OSError ("absent.pkl" ++ " not found on any of "
                       ++ repr_list (iterate_fs (fs Demo.da)).*1)),
     record (Printed ("absent.pkl" ++ " not found on local machine")) Demo.world).
Proof.
  apply (get_of_absent_file_raises (A := string) Demo.da "absent.pkl" "absent.pkl"
           (λ _ p, (mret p : Py string)) Demo.world).
  - vm_compute. reflexivity.
  - vm_compute. reflexivity.
  - vm_compute. reflexivity.
Defined.

Lemma get_fetches_a_missing_file_on_demo :
  ∃ w',
    get Demo.da "grid.pkl" (λ _ p, (mret p : Py string)) Demo.world
    = (Return "/home/user/ScenarioData/grid.pkl", w')
    ∧ ref_content (store w') (local_fs Demo.da) "grid.pkl" = Some [x01; x02]
    ∧ (∀ k, k ≠ ref_key (local_fs Demo.da) -> k ≠ TempDir ->
            store w' !! k = store Demo.world !! k)
    ∧ printed (journal w')
      = ("Transferring " ++ Path.basename "grid.pkl" ++ " from " ++ "ssh_fs")
        :: ("grid.pkl" ++ " not found on local machine") :: printed (journal Demo.world).
Proof.
  refine (get_fetches_a_missing_file (A := string) Demo.da "grid.pkl" "ssh_fs"
            "/home/user/ScenarioData/grid.pkl" (WrapSSHFS SSHHost "/mnt/bes/pcm")
            [x01; x02] (λ _ p, (mret p : Py string)) Demo.world _ _ _ _ _ _ _).
  - vm_compute. reflexivity.
  - vm_compute. reflexivity.
  - vm_compute. reflexivity.
  - vm_compute. reflexivity.
  - split; by_computation.
  - vm_compute. reflexivity.
  - vm_compute. reflexivity.
Defined.

Lemma write_is_create_only_on_demo :
  let w1 := (write Demo.da "new.pkl" Demo.payload true None Demo.world).2 in
  ∃ location,
    write Demo.da "new.pkl" [x06; x07] false None w1
    = (Raise (OSError ("new.pkl" ++ " already exists on " ++ location)), w1).
Proof.
  intros w1.
  apply (write_is_create_only (codec := Demo.codec) Demo.da "new.pkl" Demo.payload
           [x06; x07] true false None None "ssh_fs" (WrapSSHFS SSHHost "/mnt/bes/pcm")
           Demo.world w1).
  - reflexivity.
  - vm_compute. left. reflexivity.
  - assert (E : (write Demo.da "new.pkl" Demo.payload true None Demo.world).1 = Return tt)
      by (vm_compute; reflexivity).
    rewrite <- E. apply surjective_pairing.
Defined.

Lemma get_after_write_reads_the_local_copy_on_demo :
  let w1 := (write Demo.da "new.pkl" Demo.payload true None Demo.world).2 in
  get Demo.da "new.pkl" (λ b _, (mret b : Py bytes)) w1
  = (p ← lift_outcome (getsyspath (local_fs Demo.da) "new.pkl");
     (λ (b : bytes) (_ : string), (mret b : Py bytes))
       (default _callback None "new.pkl" Demo.payload).1 p) w1.
Proof.
  intros w1.
  apply (get_after_write_reads_the_local_copy (codec := Demo.codec) (A := bytes)
           Demo.da "new.pkl" Demo.payload None (λ b _, (mret b : Py bytes)) Demo.world w1).
  assert (E : (write Demo.da "new.pkl" Demo.payload true None Demo.world).1 = Return tt)
    by (vm_compute; reflexivity).
  rewrite <- E. apply surjective_pairing.
Defined.

Lemma failed_callback_leaves_local_copy_unwritten_on_demo :
  ∃ w',
    write Demo.da "new.txt" Demo.payload true None Demo.world
    = (Raise (ValueError "Unknown extension! txt"), w')
    ∧ ref_content (store w') (WrapSSHFS SSHHost "/mnt/bes/pcm") "new.txt" = Some []
    ∧ store w' !! ref_key (local_fs Demo.da)
      = store Demo.world !! ref_key (local_fs Demo.da).
Proof.
  apply (failed_callback_leaves_local_copy_unwritten (codec := Demo.codec)
           Demo.da "new.txt" Demo.payload None [] (ValueError "Unknown extension! txt")
           (WrapSSHFS SSHHost "/mnt/bes/pcm") Demo.world).
  - vm_compute. reflexivity.
  - reflexivity.
  - vm_compute. reflexivity.
  - vm_compute. reflexivity.
  - discriminate.
Defined.

Lemma checksum_of_absent_file_raises_on_demo :
  checksum (LocalDataAccess "/mnt/volume") "absent.pkl" local_world
  = (Raise (ResourceNotFound "absent.pkl"), local_world)
  ∧ checksum Demo.da "absent.pkl" Demo.world
    = (Raise (OSError ("absent.pkl" ++ " not found on any of "
                         ++ repr_list (iterate_fs (fs Demo.da)).*1)), Demo.world).
Proof.
  split.
  - apply (checksum_of_absent_file_raises (shell := Demo.shell)
             (LocalDataAccess "/mnt/volume") "absent.pkl" local_world).
    vm_compute. reflexivity.
  - apply (checksum_of_absent_file_raises (shell := Demo.shell)
             Demo.da "absent.pkl" Demo.world).
    vm_compute. reflexivity.
Defined.

Lemma push_without_canonical_file_fails_on_demo :
  ∃ w',
    push Demo.da "edit.pkl" "a checksum" "fresh.pkl" Demo.world
    = (Raise (AttributeError "'MultiFS' object has no attribute 'exec_command'"), w')
    ∧ files (fs_of (store w') (OSFS "/home/user/ScenarioData")) !! "edit.pkl" = None
    ∧ files (fs_of (store w') SSHHost) !! "/mnt/bes/pcm/fresh.pkl" = None
    ∧ files (fs_of (store w') SSHHost) !! "/mnt/bes/pcm/fresh.pkl.temp" = Some [x03].
Proof.
  apply (push_without_canonical_file_fails (setup := Demo.setup)
           "/mnt/bes/pcm" "edit.pkl" "a checksum" "fresh.pkl" [x03] Demo.world).
  - vm_compute. reflexivity.
  - vm_compute. reflexivity.
  - vm_compute. reflexivity.
  - vm_compute. reflexivity.
Defined.

Lemma push_of_missing_local_file_raises_on_demo :
  push Demo.da "nothing.pkl" "a checksum" "grid.pkl" Demo.world
  = (Raise (ResourceNotFound "nothing.pkl"),
     record (Printed ("Transferring " ++ "grid.pkl" ++ " to server")) Demo.world).
Proof.
  apply (push_of_missing_local_file_raises (setup := Demo.setup)
           "/mnt/bes/pcm" "nothing.pkl" "a checksum" "grid.pkl" Demo.world).
  - vm_compute. reflexivity.
  - vm_compute. reflexivity.
Defined.

Lemma local_push_with_other_checksum_changes_nothing_on_demo :
  push (LocalDataAccess "/mnt/volume") "edit.pkl" "an older checksum" "grid.pkl"
       local_world
  = (Raise (ValueError "Checksums do not match"), local_world).
Proof.
  apply (local_push_with_other_checksum_changes_nothing
           "/mnt/volume" "edit.pkl" "an older checksum" "grid.pkl" [x01; x02]
           local_world).
  - vm_compute. reflexivity.
  - vm_compute. discriminate.
Defined.

Lemma local_push_replaces_without_backup_on_demo :
  ∃ w',
    push (LocalDataAccess "/mnt/volume") "edit.pkl"
         (Digest.sha256_hexdigest [x01; x02]) "grid.pkl" local_world
    = (Return tt, w')
    ∧ files (fs_of (store w') (OSFS "/mnt/volume"))
      = delete "edit.pkl" (<["grid.pkl" := [x03]]> (files volume))
    ∧ (∀ k, k ≠ OSFS "/mnt/volume" -> store w' !! k = store local_world !! k).
Proof.
  apply (local_push_replaces_without_backup
           "/mnt/volume" "edit.pkl" "grid.pkl" [x03] [x01; x02] local_world).
  - vm_compute. reflexivity.
  - vm_compute. reflexivity.
  - discriminate.
  - vm_compute. reflexivity.
Defined.

Lemma memory_push_ignores_the_checksum_on_demo :
  ∃ w',
    push MemoryDataAccess "edit.pkl" "not a checksum" "grid.pkl" memory_world
    = (Return tt, w')
    ∧ files (fs_of (store w') (MemFS 1))
      = <["grid.pkl" := [x03]]> (files (fs_of (store memory_world) (MemFS 1)))
    ∧ files (fs_of (store w') (MemFS 0))
      = delete "edit.pkl" (files (fs_of (store memory_world) (MemFS 0))).
Proof.
  apply (memory_push_ignores_the_checksum
           "edit.pkl" "not a checksum" "grid.pkl" [x03] memory_world).
  - vm_compute. reflexivity.
  - vm_compute. reflexivity.
Defined.

Lemma revert_dict_round_trip_on_demo :
  Dict.revert_dict (Dict.revert_dict column_names) = column_names.
Proof.
  apply (revert_dict_round_trip column_names); by_computation.
Defined.

Lemma revert_dict_keeps_the_last_key_on_demo :
  Dict.get "Bus" (Dict.revert_dict ([("bus_id", "Bus")] ++ ("bus", "Bus") :: [("Pd", "p_set")]))
  = Some "bus".
Proof.
  apply (revert_dict_keeps_the_last_key [("bus_id", "Bus")] [("Pd", "p_set")] "bus" "Bus").
  by_computation.
Defined.

Lemma translate_df_undoes_rename_on_demo :
  Dict._translate_df column_names (Dict.rename_columns column_names ["Pd"; "bus_id"])
  = ["Pd"; "bus_id"].
Proof.
  apply (translate_df_undoes_rename column_names ["Pd"; "bus_id"]).
  - by_computation.
  - by_computation.
  - intros c [<-|[<-|[]]]; by_computation.
Defined.

Lemma switch_from_create_drops_the_builder_on_demo :
  Scenario.switch creating (Scenario.Subclass "execute" ["analyze"])
  = (None,
     {| Scenario.class := Scenario.Subclass "execute" ["analyze"];
        Scenario.attributes := delete "builder" (Scenario.attributes creating) |},
     ["State switching: create --> " ++ "execute"]).
Proof.
  apply (switch_from_create_drops_the_builder creating
           (Scenario.Subclass "execute" ["analyze"]) "a builder").
  - reflexivity.
  - by_computation.
  - vm_compute. reflexivity.
Defined.

Lemma failed_leave_of_analyze_loses_the_grid_on_demo :
  Scenario.switch analyzing (Scenario.Subclass "delete" [])
  = (Some (Scenario.AttributeError "ct"),
     {| Scenario.class := Scenario.class analyzing;
        Scenario.attributes := delete "grid" (Scenario.attributes analyzing) |},
     ["State switching: analyze --> " ++ "delete"]).
Proof.
  apply (failed_leave_of_analyze_loses_the_grid analyzing
           (Scenario.Subclass "delete" []) "a grid").
  - reflexivity.
  - by_computation.
  - vm_compute. reflexivity.
  - vm_compute. reflexivity.
Defined.

Lemma switch_changes_class_only_on_success_on_demo :
  let r := Scenario.switch analyzing (Scenario.Subclass "move" []) in
  Scenario.class r.1.2
  = match r.1.1 with
    | Some _ => Scenario.class analyzing
    | None => Scenario.Subclass "move" []
    end
  ∧ ∀ a, a ≠ "builder" -> a ≠ "grid" -> a ≠ "ct" ->
      Scenario.attributes r.1.2 !! a = Scenario.attributes analyzing !! a.
Proof.
  intros r.
  apply (switch_changes_class_only_on_success analyzing r.1.2
           (Scenario.Subclass "move" []) r.1.1 r.2).
  subst r. destruct (Scenario.switch analyzing (Scenario.Subclass "move" [])) as [[e s] out].
  reflexivity.
Defined.

Lemma get_profile_version_merges_without_repeats_on_demo :
  ∃ versions,
    get_profile_version "usa_tamu" "demand" Demo.world = (Return versions, Demo.world)
    ∧ NoDup versions
    ∧ ∀ v, v ∈ versions <-> v ∈ ["vJan2021"; "vMar2021"] ∨ v ∈ ["vMar2021"; "vDev"].
Proof.
  apply (get_profile_version_merges_without_repeats (helper := listings)
           "usa_tamu" "demand" ["vJan2021"; "vMar2021"] ["vMar2021"; "vDev"]
           Demo.world Demo.world Demo.world).
  - reflexivity.
  - reflexivity.
Defined.

End OnInstallations.

